(** * DID-Exchange protocol core (package [didexchange])

    A shallow embedding of the protocol state objects, the inbound message
    handlers, the connection-signature codec and the verification-key
    resolver, followed by the properties established about them.

    Conventions of the embedding.
    - A Go [string] is a [string]; a [[]byte] is a [list byte].
    - A Go call returning [(T, error)] is an [outcome T]: [Ok], [Err], or
      [Panic] when the Go runtime would panic (nil dereference, index out
      of range, slice bounds).
    - Calls into collaborators that read or change the outside world (KMS,
      DID registry, stores, mediator, dispatcher, clock, UUID source) are
      computations [M A] over an abstract [World].
    - A pointer that the source may leave nil is an [option]; a pointer that
      every call site in the source sets is the value itself.
    - [logger.Debugf] calls have no effect on results and are left out. *)

From Stdlib Require Import String Ascii List ZArith NArith Bool Lia.
From Stdlib.Strings Require Import Byte.
Import ListNotations.
Open Scope string_scope.

(** ** Errors *)

(** Go [error] values as this package builds and inspects them.
    [errorString] is [errors.New] or [fmt.Errorf] without [%w];
    [wrapError msg cause] is [fmt.Errorf(msg ++ "%w", cause)] (in this
    package the verb [%w] is always last); the two sentinels are the
    package variable [errVerKeyNotFound] and [storage.ErrDataNotFound]. *)
Inductive error : Type :=
| errorString (msg : string)
| errVerKeyNotFound
| ErrDataNotFound
| wrapError (msg : string) (cause : error).

(** [err.Error()]. *)
Fixpoint Error (e : error) : string :=
  match e with
  | errorString msg => msg
  | errVerKeyNotFound => "verkey not found"
  | ErrDataNotFound => "data not found"
  | wrapError msg cause => msg ++ Error cause
  end.

Definition error_eq_dec (a b : error) : {a = b} + {a <> b}.
Proof. decide equality; apply string_dec. Defined.

(** [errors.Is(err, target)]: walks the [Unwrap] chain comparing with
    [target]. The package only asks it about the two sentinels. *)
Fixpoint errors_Is (err target : error) : bool :=
  if error_eq_dec err target then true
  else match err with
       | wrapError _ cause => errors_Is cause target
       | _ => false
       end.

(** Reasons for a run-time panic. *)
Inductive panic : Type :=
| NilDereference
| IndexOutOfRange
| SliceBoundsOutOfRange.

Inductive outcome (A : Type) : Type :=
| Ok (a : A)
| Err (e : error)
| Panic (p : panic).
Arguments Ok {A} a.
Arguments Err {A} e.
Arguments Panic {A} p.

(** What a call into the Go library or into another package returns when
    it returns [(T, error)] and cannot panic. *)
Inductive result (A : Type) : Type :=
| Return (a : A)
| Fail (e : error).
Arguments Return {A} a.
Arguments Fail {A} e.

Definition outcome_of_result {A} (r : result A) : outcome A :=
  match r with
  | Return a => Ok a
  | Fail e => Err e
  end.
Coercion outcome_of_result : result >-> outcome.

Definition obind {A B} (o : outcome A) (k : A -> outcome B) : outcome B :=
  match o with
  | Ok a => k a
  | Err e => Err e
  | Panic p => Panic p
  end.

(** [if err != nil { return ..., fmt.Errorf(msg ++ "%w", err) }] *)
Definition owrap {A} (msg : string) (o : outcome A) : outcome A :=
  match o with
  | Err e => Err (wrapError msg e)
  | other => other
  end.

(** [xs[0]] on a slice. *)
Definition index0 {A} (xs : list A) : outcome A :=
  match xs with
  | x :: _ => Ok x
  | [] => Panic IndexOutOfRange
  end.

(** [p.f] through a pointer [p] that may be nil. *)
Definition deref {A} (p : option A) : outcome A :=
  match p with
  | Some a => Ok a
  | None => Panic NilDereference
  end.

Declare Scope outcome_scope.
Delimit Scope outcome_scope with outcome.
Notation "x <- c1 ;; c2" := (obind c1 (fun x => c2))
  (at level 61, c1 at next level, right associativity) : outcome_scope.

(** ** State names and state objects *)

Definition stateNameNoop := "noop".
Definition stateNameNull := "null".
Definition StateIDInvited := "invited".
Definition StateIDRequested := "requested".
Definition StateIDResponded := "responded".
Definition StateIDCompleted := "completed".
Definition StateIDAbandoned := "abandoned".
Definition ackStatusOK := "ok".
Definition didCommServiceType := "did-communication".
Definition timestamplen : nat := 8.
Definition ed25519VerificationKey2018 := "Ed25519VerificationKey2018".
Definition bls12381G2Key2020 := "Bls12381G2Key2020".
Definition jsonWebKey2020 := "JsonWebKey2020".
Definition didMethod := "peer".

(** The implementations of the [state] interface: the seven empty structs
    [noOp], [null], [invited], [requested], [responded], [completed] and
    [abandoned]. *)
Inductive state : Type :=
| noOp | null | invited | requested | responded | completed | abandoned.

Definition Name (s : state) : string :=
  match s with
  | noOp => stateNameNoop
  | null => stateNameNull
  | invited => StateIDInvited
  | requested => StateIDRequested
  | responded => StateIDResponded
  | completed => StateIDCompleted
  | abandoned => StateIDAbandoned
  end.

Definition CanTransitionTo (s next : state) : bool :=
  match s with
  | noOp => false
  | null => (StateIDInvited =? Name next) || (StateIDRequested =? Name next)
  | invited => StateIDRequested =? Name next
  | requested => StateIDResponded =? Name next
  | responded => StateIDCompleted =? Name next
  | completed => false
  | abandoned => false
  end.

(** Go's [switch name { case c1: ... }] on strings, first match wins. *)
Fixpoint switch_string {A} (x : string) (cases : list (string * A)) (default : A) : A :=
  match cases with
  | [] => default
  | (c, a) :: rest => if x =? c then a else switch_string x rest default
  end.

Definition stateFromName (name : string) : outcome state :=
  switch_string name
    [ (stateNameNoop, Ok noOp);
      (stateNameNull, Ok null);
      (StateIDInvited, Ok invited);
      (StateIDRequested, Ok requested);
      (StateIDResponded, Ok responded);
      (StateIDCompleted, Ok completed);
      (StateIDAbandoned, Ok abandoned) ]
    (Err (errorString ("invalid state name " ++ name))).

(** ** Data model

    Struct types of the package and of the packages it imports. Their
    declarations live outside the modelled file; each record lists the
    fields that the functions below read or write, under the Go field
    names and with the meaning the specification gives them. One module
    per struct keeps the Go field names apart. *)

(** Modelled from the spec: [decorator.Thread], the thread decorator with
    the thread id [ID] and the parent thread id [PID]. *)
Module Thread.
Record t := mk { ID : string; PID : string }.
End Thread.

(** Modelled from the spec: [did.Service], a service block of a DID
    document with its recipient keys, routing keys, endpoint and accepted
    media type profiles. *)
Module Service.
Record t := mk {
  ID : string;
  Type_ : string;
  RecipientKeys : list string;
  RoutingKeys : list string;
  ServiceEndpoint : string;
  Accept : list string }.
(** [did.Service{}] *)
Definition zero : t := mk "" "" [] [] "" [].
Definition set_Accept (s : t) (a : list string) : t :=
  mk (ID s) (Type_ s) (RecipientKeys s) (RoutingKeys s) (ServiceEndpoint s) a.
End Service.

(** Modelled from the spec: [did.VerificationMethod], a verification
    method with its id, type name and public key bytes. *)
Module VerificationMethod.
Record t := mk { ID : string; Type_ : string; Value : list byte }.
End VerificationMethod.

(** Modelled from the spec: [did.VerificationRelationship]; the package
    names only [did.Authentication]. *)
Inductive VerificationRelationship : Type :=
| Authentication
| OtherRelationship (code : Z).

(** Modelled from the spec: [did.Verification], a verification method
    under a relationship, embedded in the document or referenced. *)
Module Verification.
Record t := mk {
  VerificationMethod : VerificationMethod.t;
  Relationship : VerificationRelationship;
  Embedded : bool }.
End Verification.

(** Modelled from the spec: [did.Doc], a DID document declaring
    verification methods, authentication relationships and services. *)
Module Doc.
Record t := mk {
  ID : string;
  VerificationMethod : list VerificationMethod.t;
  Service : list Service.t;
  Authentication : list Verification.t }.
End Doc.

(** Modelled from the spec: [service.Destination], where and under which
    keys an outbound message is sent. *)
Module Destination.
Record t := mk {
  RecipientKeys : list string;
  ServiceEndpoint : string;
  RoutingKeys : list string;
  MediaTypeProfiles : list string }.
End Destination.

(** Modelled from the spec: [connectionstore.Record], the connection
    record with the fields the core reads or writes. *)
Module ConnRecord.
Record t := mk {
  ThreadID : string;
  ParentThreadID : string;
  MyDID : string;
  TheirDID : string;
  TheirLabel : string;
  RecipientKeys : list string;
  MediaTypeProfiles : list string;
  Implicit : bool }.
(** [connectionstore.Record{}] *)
Definition zero : t := mk "" "" "" "" "" [] [] false.
Definition set_MyDID (r : t) (v : string) : t :=
  mk (ThreadID r) (ParentThreadID r) v (TheirDID r) (TheirLabel r)
     (RecipientKeys r) (MediaTypeProfiles r) (Implicit r).
Definition set_ThreadID (r : t) (v : string) : t :=
  mk v (ParentThreadID r) (MyDID r) (TheirDID r) (TheirLabel r)
     (RecipientKeys r) (MediaTypeProfiles r) (Implicit r).
Definition set_TheirDID (r : t) (v : string) : t :=
  mk (ThreadID r) (ParentThreadID r) (MyDID r) v (TheirLabel r)
     (RecipientKeys r) (MediaTypeProfiles r) (Implicit r).
Definition set_TheirLabel (r : t) (v : string) : t :=
  mk (ThreadID r) (ParentThreadID r) (MyDID r) (TheirDID r) v
     (RecipientKeys r) (MediaTypeProfiles r) (Implicit r).
Definition set_MediaTypeProfiles (r : t) (v : list string) : t :=
  mk (ThreadID r) (ParentThreadID r) (MyDID r) (TheirDID r) (TheirLabel r)
     (RecipientKeys r) v (Implicit r).
End ConnRecord.

(** Modelled from the spec: [Connection] is [{DID, DIDDoc?}]. *)
Module Connection.
Record t := mk { DID : string; DIDDoc : option Doc.t }.
End Connection.

(** Modelled from the spec: [ConnectionSignature] is
    [{Type, SignedData, SignVerKey, Signature}]. *)
Module ConnectionSignature.
Record t := mk {
  Type_ : string;
  SignedData : string;
  SignVerKey : string;
  Signature : string }.
End ConnectionSignature.

(** Modelled from the spec: [decorator.AttachmentData], the base64
    content of an attachment; [JWS] is the raw signature object that
    [Sign] adds. *)
Module AttachmentData.
Record t := mk { Base64 : string; JWS : option (list byte) }.
End AttachmentData.

(** Modelled from the spec: [decorator.Attachment]. *)
Module Attachment.
Record t := mk { MimeType : string; Data : AttachmentData.t }.
End Attachment.

(** Modelled from the spec: [Invitation], the legacy invitation with its
    id, an optional DID, and inline recipient keys, endpoint and routing
    keys. *)
Module Invitation.
Record t := mk {
  ID : string;
  DID : string;
  RecipientKeys : list string;
  ServiceEndpoint : string;
  RoutingKeys : list string }.
(** [var invitation Invitation] *)
Definition zero : t := mk "" "" [] "" [].
End Invitation.

(** Modelled from the spec: a decoded JSON value, the element type of the
    generic map that a target may be. *)
#[warnings="-register-all"]
Inductive jvalue : Type :=
| JNull
| JBool (b : bool)
| JNumber (z : Z)
| JString (s : string)
| JArray (xs : list jvalue)
| JObject (kvs : list (string * jvalue)).

(** The dynamic type of [OOBInvitation.Target] as the type switch of
  [getServiceBlock] sees it; [TargetOther] carries the [%+v] rendering
  of a value of any other type. *)
Inductive target : Type :=
| TargetString (s : string)
| TargetService (svc : Service.t)
| TargetMap (m : list (string * jvalue))
| TargetOther (shown : string).

(** Modelled from the spec: [OOBInvitation], the out-of-band invitation
    with its type, polymorphic target, label and media type profiles. *)
Module OOBInvitation.
Record t := mk {
  Type_ : string;
  Target : target;
  MyLabel : string;
  MediaTypeProfiles : list string }.
End OOBInvitation.

(** Modelled from the spec: [Request]. *)
Module Request.
Record t := mk {
  Type_ : string;
  ID : string;
  Label : string;
  Connection : option Connection.t;
  Thread : option Thread.t;
  DocAttach : option Attachment.t }.
End Request.

(** Modelled from the spec: [Response]. *)
Module Response.
Record t := mk {
  Type_ : string;
  ID : string;
  Thread : option Thread.t;
  ConnectionSignature : option ConnectionSignature.t;
  DID : string;
  DocAttach : option Attachment.t }.
End Response.

(** Modelled from the spec: [Complete]. *)
Module Complete.
Record t := mk { Type_ : string; ID : string; Thread : option Thread.t }.
End Complete.

(** Modelled from the spec: [model.Ack]. *)
Module Ack.
Record t := mk {
  Type_ : string;
  ID : string;
  Status : string;
  Thread : option Thread.t }.
End Ack.

(** Modelled from the spec: the package's [options] (public DID, router
    connections, label). *)
Module options.
Record t := mk {
  publicDID : string;
  routerConnections : list string;
  label : string }.
End options.

(** Modelled from the spec: [service.DIDCommMsg] as the handlers use it,
    its type and a body that [Decode] reads. *)
Module DIDCommMsg.
Record t := mk { Type_ : string; Body : list byte }.
End DIDCommMsg.

(** Modelled from the spec: [stateMachineMsg], an inbound message with
    its pre-loaded connection record and the options. *)
Module stateMachineMsg.
Record t := mk {
  DIDCommMsg : DIDCommMsg.t;
  connRecord : option ConnRecord.t;
  options : option options.t }.
(** The promoted method [msg.Type()]. *)
Definition Type_ (m : t) : string := DIDCommMsg.Type_ (DIDCommMsg m).
End stateMachineMsg.

(** Modelled from the spec: [verifier.PublicKey], key type name and raw
    key bytes. *)
Module PublicKey.
Record t := mk { Type_ : string; Value : list byte }.
End PublicKey.

(** Modelled from the spec: [kms.KeyType], a string type; the named
    constants the package switches on, and any other value. *)
Inductive KeyType : Type :=
| ED25519Type
| BLS12381G2Type
| ECDSAP256TypeDER
| ECDSAP384TypeDER
| ECDSAP521TypeDER
| ECDSAP256TypeIEEEP1363
| ECDSAP384TypeIEEEP1363
| ECDSAP521TypeIEEEP1363
| OtherKeyType (name : string).

(** Modelled from the spec: what [x509.ParsePKIXPublicKey] returns, as
    the type assertion to [*ecdsa.PublicKey] sees it. *)
Inductive pkixPublicKey : Type :=
| EcdsaPublicKey (Curve : string) (X Y : Z)
| OtherPublicKey.

(** The messages handed to the outbound dispatcher. *)
Inductive outboundMsg : Type :=
| SendRequest (r : Request.t)
| SendResponse (r : Response.t)
| SendAck (a : Ack.t).

(** ** Computations over the outside world *)

Section World.

(** The state of everything outside the package (stores, key manager,
    registry, mediator, transport, clock, random source), and the type of
    key handles the key manager hands out. *)
Context {World KeyHandle : Type}.

Definition M (A : Type) : Type := World -> outcome A * World.

Definition mret {A} (a : A) : M A := fun w => (Ok a, w).

Definition mbind {A B} (c : M A) (k : A -> M B) : M B :=
  fun w =>
    match c w with
    | (Ok a, w') => k a w'
    | (Err e, w') => (Err e, w')
    | (Panic p, w') => (Panic p, w')
    end.

(** A pure call inside a computation. *)
Definition lift {A} (o : outcome A) : M A := fun w => (o, w).

(** [if err != nil { return ..., fmt.Errorf(msg ++ "%w", err) }] *)
Definition mwrap {A} (msg : string) (c : M A) : M A :=
  fun w => let (o, w') := c w in (owrap msg o, w').

(** [for _, x := range xs { if err := body(x); err != nil { return err } }] *)
Fixpoint forM_ {A} (xs : list A) (body : A -> M unit) : M unit :=
  match xs with
  | [] => mret tt
  | x :: rest => mbind (body x) (fun _ => forM_ rest body)
  end.

(** [stateAction], a [func() error]: the deferred network call. *)
Definition stateAction : Type := M unit.

(** [func() error { return nil }] *)
Definition noopAction : stateAction := mret tt.

(** ** Collaborators *)

(** Package-level functions and constants of other packages (of this
    repository and of the Go library) that the code calls. Their code is
    outside the files modelled here, so they are taken as given. *)
Record packages : Type := {
  (* message type constants of the package *)
  InvitationMsgType : string;
  RequestMsgType : string;
  ResponseMsgType : string;
  AckMsgType : string;
  CompleteMsgType : string;
  oobMsgType : string;
  myNSPrefix : string;
  (* kms.ED25519, the key type name given to the verifier *)
  kms_ED25519 : string;
  (* msg.Decode(v), one per target struct *)
  Decode_Invitation : DIDCommMsg.t -> result Invitation.t;
  Decode_OOBInvitation : DIDCommMsg.t -> result OOBInvitation.t;
  Decode_Request : DIDCommMsg.t -> result Request.t;
  Decode_Response : DIDCommMsg.t -> result Response.t;
  Decode_Complete : DIDCommMsg.t -> result Complete.t;
  (* encoding/json on a Connection *)
  json_Marshal : Connection.t -> result (list byte);
  json_Unmarshal : list byte -> result Connection.t;
  (* encoding/base64 *)
  URLEncoding_EncodeToString : list byte -> string;
  URLEncoding_DecodeString : string -> result (list byte);
  StdEncoding_EncodeToString : list byte -> string;
  (* fingerprint.PubKeyFromDIDKey, localkms.CreateKID *)
  PubKeyFromDIDKey : string -> result (list byte);
  CreateKID : list byte -> KeyType -> result string;
  (* ed25519signature2018.New(WithVerifier(NewPublicKeyVerifier())).Verify:
     nil (None) when the signature is accepted *)
  signatureSuite_Verify : PublicKey.t -> list byte -> list byte -> option error;
  (* service.CreateDestination, service.GetDestination(did, vdRegistry) *)
  CreateDestination : Doc.t -> result Destination.t;
  GetDestination : string -> M Destination.t;
  (* did.LookupService, did.Parse(id).Method, Doc.SerializeInterop *)
  LookupService : Doc.t -> string -> option Service.t;
  did_Parse_Method : string -> result string;
  SerializeInterop : Doc.t -> result (list byte);
  (* connectionstore.CreateNamespaceKey *)
  CreateNamespaceKey : string -> string -> result string;
  (* functions of the package defined in its other files; what they do
     on a malformed argument is not known here, so they may panic *)
  convertPeerToSov : Doc.t -> outcome Doc.t;
  getRequestConnection : Request.t -> outcome Connection.t;
  (* crypto/x509, crypto/elliptic *)
  ParsePKIXPublicKey : list byte -> result pkixPublicKey;
  elliptic_Marshal : string -> Z -> Z -> list byte;
  (* mapstructure.NewDecoder with the fixed configuration, and Decode *)
  mapstructure_NewDecoder : result unit;
  mapstructure_Decode : list (string * jvalue) -> result Service.t;
  (* decorator.AttachmentData Verify and Sign *)
  AttachmentData_Verify : AttachmentData.t -> M unit;
  AttachmentData_Sign :
    AttachmentData.t -> KeyHandle -> list byte -> list byte -> M AttachmentData.t;
  (* uuid.New().String(), time.Now().Unix() as an int64 *)
  uuid_New_String : M string;
  time_Now_Unix : M Z
}.

(** The package's [context]: the collaborator bundle and the interop
    flag. Each collaborator method the code calls is a field. *)
Record context : Type := {
  (* kms kms.KeyManager *)
  kms_CreateAndExportPubKeyBytes : KeyType -> M (string * list byte);
  kms_Get : string -> M KeyHandle;
  (* crypto crypto.Crypto *)
  crypto_Sign : list byte -> KeyHandle -> M (list byte);
  (* vdRegistry vdrapi.Registry; the results are the documents of the
     returned resolutions *)
  vdRegistry_Resolve : string -> M Doc.t;
  vdRegistry_Create : string -> Doc.t -> list (string * bool) -> M Doc.t;
  (* outboundDispatcher dispatcher.Outbound *)
  outboundDispatcher_Send : outboundMsg -> string -> Destination.t -> M unit;
  (* routeSvc, through mediator.GetRouterConfig and mediator.AddKeyToRouter *)
  routeSvc_GetRouterConfig : string -> string -> M (string * list string);
  routeSvc_AddKeyToRouter : string -> string -> M unit;
  (* connectionRecorder: GetInvitation into an OOBInvitation, into an
     Invitation, and GetConnectionRecordByNSThreadID *)
  connectionRecorder_GetInvitation_OOB : string -> M OOBInvitation.t;
  connectionRecorder_GetInvitation : string -> M Invitation.t;
  connectionRecorder_GetConnectionRecordByNSThreadID : string -> M ConnRecord.t;
  (* connectionStore didstore.ConnectionStore *)
  connectionStore_SaveDIDFromDoc : Doc.t -> M unit;
  doACAPyInterop : bool
}.

End World.

Arguments packages : clear implicits.
Arguments context : clear implicits.
Arguments M : clear implicits.
Arguments stateAction : clear implicits.

Declare Scope go_scope.
Delimit Scope go_scope with go.
Notation "x <- c1 ;; c2" := (mbind c1 (fun x => c2))
  (at level 61, c1 at next level, right associativity) : go_scope.
Notation "c1 ;;; c2" := (mbind c1 (fun _ => c2))
  (at level 61, right associativity) : go_scope.

(** ** Helpers from the Go library with a fixed meaning *)

(** [byte(v)]: the low eight bits, [v mod 256]. *)
Definition byte_of_N (n : N) : byte :=
  match Byte.of_N (n mod 256) with
  | Some b => b
  | None => x00
  end.

(** [uint64(now)] for an [int64]: reduction modulo 2^64. *)
Definition uint64_of_int64 (now : Z) : N := Z.to_N (now mod 2 ^ 64).

(** [binary.BigEndian.PutUint64] into a fresh buffer of [timestamplen]
    bytes: [b[0] = byte(v >> 56)], ..., [b[7] = byte(v)]. *)
Definition BigEndian_PutUint64 (v : N) : list byte :=
  map (fun shift => byte_of_N (N.shiftr v shift)) [56; 48; 40; 32; 24; 16; 8; 0]%N.

(** [strings.HasPrefix] *)
Definition HasPrefix (s pre : string) : bool := String.prefix pre s.

(** [strings.TrimPrefix] *)
Definition TrimPrefix (s pre : string) : string :=
  if HasPrefix s pre
  then substring (String.length pre) (String.length s - String.length pre) s
  else s.

(** [bytes[1:]] *)
Definition slice_from_1 (bytes : list byte) : outcome (list byte) :=
  match bytes with
  | [] => Panic SliceBoundsOutOfRange
  | _ :: rest => Ok rest
  end.

Definition isDID (str : string) : bool :=
  let didPrefix := "did:" in
  HasPrefix str didPrefix.

(** Modelled from the spec: [did.NewReferencedVerification], defined in
    package [did]; the fresh verification method is "referenced from
    Authentication", that is, not embedded. *)
Definition NewReferencedVerification (vm : VerificationMethod.t)
    (r : VerificationRelationship) : Verification.t :=
  Verification.mk vm r false.

(** The global [vmType] map; a missing key yields the zero string. *)
Definition getVerMethodType (kt : KeyType) : string :=
  match kt with
  | ED25519Type => ed25519VerificationKey2018
  | BLS12381G2Type => bls12381G2Key2020
  | ECDSAP256TypeDER => jsonWebKey2020
  | ECDSAP256TypeIEEEP1363 => jsonWebKey2020
  | ECDSAP384TypeDER => jsonWebKey2020
  | ECDSAP384TypeIEEEP1363 => jsonWebKey2020
  | ECDSAP521TypeDER => jsonWebKey2020
  | ECDSAP521TypeIEEEP1363 => jsonWebKey2020
  | OtherKeyType _ => ""
  end.

Definition getPublicDID (options : option options.t) : string :=
  match options with
  | None => ""
  | Some o => options.publicDID o
  end.

Definition getRouterConnections (options : option options.t) : list string :=
  match options with
  | None => []
  | Some o => options.routerConnections o
  end.

Definition getLabel (options : option options.t) : string :=
  match options with
  | None => ""
  | Some o => options.label o
  end.

(** ** The package's functions *)

Section Protocol.

Context {World KeyHandle : Type}.
Variable P : packages World KeyHandle.

Local Abbreviation M := (M World).
Local Abbreviation stateAction := (stateAction World).

Local Open Scope go_scope.

(** The four results of [ExecuteInbound], each of which Go may leave nil. *)
Record executed : Type := mkExecuted {
  ret_connRecord : option ConnRecord.t;
  ret_state : option state;
  ret_action : option stateAction;
  ret_err : option error }.

(** [return nil, nil, nil, err] *)
Definition failed (e : error) : executed := mkExecuted None None None (Some e).

(** Run [c]; on an error return [nil, nil, nil, fmt.Errorf(msg ++ "%w", err)]. *)
Definition try_or_fail {A} (msg : string) (c : M A) (k : A -> M executed)
  : M executed :=
  fun w =>
    match c w with
    | (Ok a, w') => k a w'
    | (Err e, w') => (Ok (failed (wrapError msg e)), w')
    | (Panic p, w') => (Panic p, w')
    end.

Definition stateFromMsgType (msgType : string) : outcome state :=
  switch_string msgType
    [ (InvitationMsgType P, Ok invited);
      (oobMsgType P, Ok invited);
      (RequestMsgType P, Ok requested);
      (ResponseMsgType P, Ok responded);
      (AckMsgType P, Ok completed);
      (CompleteMsgType P, Ok completed) ]
    (Err (errorString ("unrecognized msgType: " ++ msgType))).

Definition getEpochTime : M Z := time_Now_Unix P.

Definition recipientKey (doc : Doc.t) : outcome string :=
  (dest <- owrap "failed to create destination: " (CreateDestination P doc) ;;
   index0 (Destination.RecipientKeys dest))%outcome.

Definition convertPubKeyBytes (bytes : list byte) (keyType : KeyType)
  : outcome (list byte) :=
  match keyType with
  | ED25519Type | BLS12381G2Type => Ok bytes
  | ECDSAP256TypeIEEEP1363 | ECDSAP384TypeIEEEP1363 | ECDSAP521TypeIEEEP1363 =>
      slice_from_1 bytes
  | ECDSAP256TypeDER | ECDSAP384TypeDER | ECDSAP521TypeDER =>
      (pubKey <- ParsePKIXPublicKey P bytes ;;
       match pubKey with
       | EcdsaPublicKey curve x y => slice_from_1 (elliptic_Marshal P curve x y)
       | OtherPublicKey => Err (errorString "invalid EC key")
       end)%outcome
  | OtherKeyType _ => Err (errorString "invalid key type")
  end.

(** verifySignature verifies connection signature and returns connection. *)
Definition verifySignature (connSignature : option ConnectionSignature.t)
    (recipientKeys : string) : outcome Connection.t :=
  (cs <- deref connSignature ;;
   sigData <- owrap "decode signature data: "
                (URLEncoding_DecodeString P (ConnectionSignature.SignedData cs)) ;;
   if (length sigData =? 0)%nat
   then Err (errorString "missing or invalid signature data")
   else
     signature <- owrap "decode signature: "
                    (URLEncoding_DecodeString P (ConnectionSignature.Signature cs)) ;;
     pubKey <- owrap ("verifySignature: failed to parse pubKeyBytes from recipientKeys ["
                      ++ recipientKeys ++ "]: ")
                 (PubKeyFromDIDKey P recipientKeys) ;;
     match signatureSuite_Verify P (PublicKey.mk (kms_ED25519 P) pubKey) sigData signature with
     | Some err => Err (wrapError "verify signature: " err)
     | None =>
         if (length sigData <=? timestamplen)%nat
         then Err (errorString "missing connection attribute bytes")
         else
           let connBytes := skipn timestamplen sigData in
           owrap "JSON unmarshalling of connection: " (json_Unmarshal P connBytes)
     end)%outcome.

Variable ctx : context World KeyHandle.

(** [block.Accept = i.MediaTypeProfiles] writes through the pointer that
    the type switch produced; here the updated block is the result. *)
Definition getServiceBlock (i : OOBInvitation.t) : M Service.t :=
  block <-
    match OOBInvitation.Target i with
    | TargetString svc =>
        doc <- mwrap ("failed to resolve myDID=" ++ svc ++ " : ")
                 (vdRegistry_Resolve ctx svc) ;;
        match LookupService P doc didCommServiceType with
        | None =>
            lift (Err (errorString ("no valid service block found on myDID=" ++ svc
                                    ++ " with serviceType=" ++ didCommServiceType)))
        | Some s => mret s
        end
    | TargetService svc => mret svc
    | TargetMap svc =>
        _ <- mwrap "failed to initialize decoder : " (lift (mapstructure_NewDecoder P)) ;;
        mwrap "failed to decode service block : " (lift (mapstructure_Decode P svc))
    | TargetOther shown =>
        lift (Err (errorString ("unsupported target type: " ++ shown)))
    end ;;
  if (0 <? length (OOBInvitation.MediaTypeProfiles i))%nat
  then mret (Service.set_Accept block (OOBInvitation.MediaTypeProfiles i))
  else mret block.

Definition resolveVerKey (i : OOBInvitation.t) : M string :=
  svc <- mwrap "failed to get service block from oobinvitation : " (getServiceBlock i) ;;
  lift (index0 (Service.RecipientKeys svc)).

Definition getVerKeyFromOOBInvitation (invitationID : string) : M string :=
  fun w =>
    match connectionRecorder_GetInvitation_OOB ctx invitationID w with
    | (Err err, w') =>
        if errors_Is err ErrDataNotFound
        then (Err errVerKeyNotFound, w')
        else (Err (wrapError "failed to load oob invitation: " err), w')
    | (Panic p, w') => (Panic p, w')
    | (Ok invitation, w') =>
        if negb (OOBInvitation.Type_ invitation =? oobMsgType P)
        then (Err errVerKeyNotFound, w')
        else mwrap "failed to get my verkey: " (resolveVerKey invitation) w'
    end.

Definition getInvitationRecipientKey (invitation : Invitation.t) : M string :=
  if negb (Invitation.DID invitation =? "")
  then
    doc <- mwrap "get invitation recipient key: "
             (vdRegistry_Resolve ctx (Invitation.DID invitation)) ;;
    mwrap "getInvitationRecipientKey: " (lift (recipientKey doc))
  else lift (index0 (Invitation.RecipientKeys invitation)).

Definition getVerKey (invitationID : string) : M string :=
  fun w =>
    match getVerKeyFromOOBInvitation invitationID w with
    | (Ok pubKey, w') => (Ok pubKey, w')
    | (Panic p, w') => (Panic p, w')
    | (Err err, w') =>
        if negb (errors_Is err errVerKeyNotFound)
        then (Err (wrapError "failed to get my verkey from oob invitation: " err), w')
        else
          (invitation <-
             (if isDID invitationID
              then mret (Invitation.mk invitationID invitationID [] "" [])
              else mwrap ("get invitation for signature [invitationID=" ++ invitationID
                          ++ "]: ")
                     (connectionRecorder_GetInvitation ctx invitationID)) ;;
           mwrap "get invitation recipient key: " (getInvitationRecipientKey invitation)) w'
    end.

(** Encode the connection and convert to Connection Signature. *)
Definition prepareConnectionSignature (connection : Connection.t)
    (invitationID : string) : M ConnectionSignature.t :=
  connAttributeBytes <- mwrap "failed to marshal connection: "
                          (lift (json_Marshal P connection)) ;;
  now <- getEpochTime ;;
  let timestampBuf := BigEndian_PutUint64 (uint64_of_int64 now) in
  let concatenateSignData := (timestampBuf ++ connAttributeBytes)%list in
  didKey <- mwrap "failed to get verkey: " (getVerKey invitationID) ;;
  pubKeyBytes <- mwrap ("failed to extract pubKeyBytes from did:key [" ++ didKey ++ "]: ")
                   (lift (PubKeyFromDIDKey P didKey)) ;;
  signingKID <- mwrap "prepareConnectionSignature: failed to generate KID from public key: "
                  (lift (CreateKID P pubKeyBytes ED25519Type)) ;;
  kh <- mwrap "prepareConnectionSignature: failed to get key handle: "
          (kms_Get ctx signingKID) ;;
  signature <- mwrap "sign response message: "
                 (crypto_Sign ctx concatenateSignData kh) ;;
  mret (ConnectionSignature.mk
          "https://didcomm.org/signature/1.0/ed25519Sha512_single"
          (URLEncoding_EncodeToString P concatenateSignData)
          didKey
          (URLEncoding_EncodeToString P signature)).

(** The updated document is the result; Go appends to the document in
    place. *)
Definition createNewKeyAndVerificationMethod (didDoc : Doc.t) (keyType : KeyType)
  : M Doc.t :=
  let vmType := getVerMethodType keyType in
  created <- kms_CreateAndExportPubKeyBytes ctx keyType ;;
  let (kid, pubKeyBytes) := (created : string * list byte) in
  pubKeyBytes <- lift (convertPubKeyBytes pubKeyBytes keyType) ;;
  let vm := VerificationMethod.mk ("#" ++ kid) vmType pubKeyBytes in
  mret (Doc.mk (Doc.ID didDoc)
          (Doc.VerificationMethod didDoc ++ [vm])%list
          (Doc.Service didDoc)
          (Doc.Authentication didDoc
             ++ [NewReferencedVerification vm Authentication])%list).

(** The first loop of [getDIDDocAndConnection]: one service entry per
    router connection. *)
Fixpoint routerServices (routerConnections : list string) (services : list Service.t)
  : M (list Service.t) :=
  match routerConnections with
  | [] => mret services
  | connID :: rest =>
      config <- mwrap "did doc - fetch router config: "
                  (routeSvc_GetRouterConfig ctx connID "") ;;
      let (serviceEndpoint, routingKeys) := (config : string * list string) in
      routerServices rest
        (services ++ [Service.mk "" "" [] routingKeys serviceEndpoint []])%list
  end.

Definition getDIDDocAndConnection (pubDID : string) (routerConnections : list string)
  : M (Doc.t * Connection.t) :=
  if negb (pubDID =? "")
  then
    doc <- mwrap ("resolve public did[" ++ pubDID ++ "]: ")
             (vdRegistry_Resolve ctx pubDID) ;;
    _ <- connectionStore_SaveDIDFromDoc ctx doc ;;
    mret (doc, Connection.mk (Doc.ID doc) None)
  else
    services <- routerServices routerConnections [] ;;
    let services :=
      if (length services =? 0)%nat then (services ++ [Service.zero])%list else services in
    let newDID := Doc.mk "" [] services [] in
    newDID <- mwrap "failed to create and export public key: "
                (createNewKeyAndVerificationMethod newDID ED25519Type) ;;
    doc <- mwrap ("create " ++ didMethod ++ " did: ")
             (vdRegistry_Create ctx didMethod newDID []) ;;
    _ <- (if negb (length routerConnections =? 0)%nat
          then
            match LookupService P doc didCommServiceType with
            | Some svc =>
                forM_ (Service.RecipientKeys svc) (fun recKey =>
                  forM_ routerConnections (fun connID =>
                    mwrap "did doc - add key to the router: "
                      (routeSvc_AddKeyToRouter ctx connID recKey)))
            | None => mret tt
            end
          else mret tt) ;;
    _ <- connectionStore_SaveDIDFromDoc ctx doc ;;
    let connection := Connection.mk (Doc.ID doc) (Some doc) in
    mret (doc, connection).

Definition getDestination (invitation : Invitation.t) : M Destination.t :=
  if negb (Invitation.DID invitation =? "")
  then GetDestination P (Invitation.DID invitation)
  else mret (Destination.mk (Invitation.RecipientKeys invitation)
               (Invitation.ServiceEndpoint invitation)
               (Invitation.RoutingKeys invitation)
               []).

Definition resolveDidDocFromConnection (conn : Connection.t) : M Doc.t :=
  match Connection.DIDDoc conn with
  | None => vdRegistry_Resolve ctx (Connection.DID conn)
  | Some didDoc =>
      method <- mwrap ("resolveDidDocFromConnection: failed to parse DID ["
                       ++ Doc.ID didDoc ++ "]: ")
                  (lift (did_Parse_Method P (Doc.ID didDoc))) ;;
      let method := if method =? "sov" then "peer" else method in
      _ <- mwrap "failed to store provided did document: "
             (vdRegistry_Create ctx method didDoc [("store", true)]) ;;
      mret didDoc
  end.

Definition prepareResponseWithSignedAttachment (request : Request.t)
    (response : Response.t) (responseDidDoc : Doc.t) : M Response.t :=
  _ <- match Request.DocAttach request with
       | Some attach =>
           mwrap "verifying signature on doc~attach: "
             (AttachmentData_Verify P (Attachment.Data attach))
       | None => mret tt
       end ;;
  docBytes <- (if doACAPyInterop ctx
               then mwrap "marshaling did doc: " (lift (SerializeInterop P responseDidDoc))
               else mret []) ;;
  let docAttach :=
    Attachment.mk "application/json"
      (AttachmentData.mk (StdEncoding_EncodeToString P docBytes) None) in
  thread <- lift (deref (Request.Thread request)) ;;
  invitationKey <- mwrap "getting sender verkey: " (getVerKey (Thread.PID thread)) ;;
  pubKeyBytes <- mwrap ("failed to extract pubKeyBytes from did:key [" ++ invitationKey
                        ++ "]: ")
                   (lift (PubKeyFromDIDKey P invitationKey)) ;;
  signingKID <- mwrap "failed to generate KID from public key: "
                  (lift (CreateKID P pubKeyBytes ED25519Type)) ;;
  kh <- mwrap "failed to get key handle: " (kms_Get ctx signingKID) ;;
  signed <- mwrap "signing did_doc~attach: "
              (AttachmentData_Sign P (Attachment.Data docAttach) kh pubKeyBytes pubKeyBytes) ;;
  let docAttach := Attachment.mk (Attachment.MimeType docAttach) signed in
  mret (Response.mk (Response.Type_ response) (Response.ID response)
          (Response.Thread response) (Response.ConnectionSignature response)
          (TrimPrefix (Doc.ID responseDidDoc) "did:sov:")
          (Some docAttach)).

Definition prepareResponse (request : Request.t) (responseDidDoc : Doc.t)
    (responseConnection : Connection.t) : M Response.t :=
  id <- uuid_New_String P ;;
  let response :=
    Response.mk (ResponseMsgType P) id
      (Some (Thread.mk (Request.ID request) "")) None "" None in
  let response :=
    match Request.Thread request with
    | Some thread =>
        Response.mk (Response.Type_ response) (Response.ID response)
          (Some (Thread.mk (Request.ID request) (Thread.PID thread)))
          (Response.ConnectionSignature response) (Response.DID response)
          (Response.DocAttach response)
    | None => response
    end in
  if doACAPyInterop ctx
  then prepareResponseWithSignedAttachment request response responseDidDoc
  else
    thread <- lift (deref (Request.Thread request)) ;;
    encodedConnectionSignature <-
      mwrap "connection signature: "
        (prepareConnectionSignature responseConnection (Thread.PID thread)) ;;
    mret (Response.mk (Response.Type_ response) (Response.ID response)
            (Response.Thread response) (Some encodedConnectionSignature)
            (Response.DID response) (Response.DocAttach response)).

(** The handlers write into the record they are given; here the written
    record is part of the result. *)
Definition handleInboundOOBInvitation (msg : stateMachineMsg.t) (thid : string)
    (options : option options.t) : M (stateAction * ConnRecord.t) :=
  got <- mwrap "handleInboundOOBInvitation - failed to get diddoc and connection: "
           (getDIDDocAndConnection (getPublicDID options) (getRouterConnections options)) ;;
  let (myDID, conn) := (got : Doc.t * Connection.t) in
  connRecord <- lift (deref (stateMachineMsg.connRecord msg)) ;;
  let connRecord := ConnRecord.set_MyDID connRecord (Doc.ID myDID) in
  let connRecord := ConnRecord.set_ThreadID connRecord thid in
  oobInvitation <- mwrap "failed to decode oob invitation: "
                     (lift (Decode_OOBInvitation P (stateMachineMsg.DIDCommMsg msg))) ;;
  let request :=
    Request.mk (RequestMsgType P) thid (OOBInvitation.MyLabel oobInvitation)
      (Some conn)
      (Some (Thread.mk thid (ConnRecord.ParentThreadID connRecord)))
      None in
  svc <- mwrap "failed to get service block: " (getServiceBlock oobInvitation) ;;
  let dest :=
    Destination.mk (Service.RecipientKeys svc) (Service.ServiceEndpoint svc)
      (Service.RoutingKeys svc) (Service.Accept svc) in
  recipientKey <- mwrap "handle inbound OOBInvitation: " (lift (recipientKey myDID)) ;;
  mret (outboundDispatcher_Send ctx (SendRequest request) recipientKey dest,
        connRecord).

Definition handleInboundInvitation (invitation : Invitation.t) (thid : string)
    (options : option options.t) (connRec : option ConnRecord.t)
  : M (stateAction * ConnRecord.t) :=
  destination <- getDestination invitation ;;
  got <- getDIDDocAndConnection (getPublicDID options) (getRouterConnections options) ;;
  let (didDoc, conn) := (got : Doc.t * Connection.t) in
  connRec <- lift (deref connRec) ;;
  let pid :=
    if ConnRecord.Implicit connRec
    then Invitation.DID invitation
    else Invitation.ID invitation in
  let request :=
    Request.mk (RequestMsgType P) thid (getLabel options) (Some conn)
      (Some (Thread.mk "" pid)) None in
  let connRec := ConnRecord.set_MyDID connRec (Connection.DID conn) in
  senderKey <- mwrap "handle inbound invitation: " (lift (recipientKey didDoc)) ;;
  mret (outboundDispatcher_Send ctx (SendRequest request) senderKey destination,
        connRec).

Definition handleInboundRequest (request : Request.t) (options : option options.t)
    (connRec : option ConnRecord.t) : M (stateAction * ConnRecord.t) :=
  requestConnection <- mwrap "extracting connection data from request: "
                         (lift (getRequestConnection P request)) ;;
  requestDidDoc <- mwrap "resolve did doc from exchange request connection: "
                     (resolveDidDocFromConnection requestConnection) ;;
  got <- mwrap "get response did doc and connection: "
           (getDIDDocAndConnection (getPublicDID options) (getRouterConnections options)) ;;
  let (responseDidDoc, responseConnection) := (got : Doc.t * Connection.t) in
  senderVerKey <- mwrap "handle inbound request: " (lift (recipientKey responseDidDoc)) ;;
  responseDidDoc <-
    (if doACAPyInterop ctx
     then mwrap "converting my did doc to a 'sov' doc for response message: "
            (lift (convertPeerToSov P responseDidDoc))
     else mret responseDidDoc) ;;
  response <- mwrap "preparing response: "
                (prepareResponse request responseDidDoc responseConnection) ;;
  connRec <- lift (deref connRec) ;;
  let connRec := ConnRecord.set_TheirDID connRec (Connection.DID requestConnection) in
  let connRec := ConnRecord.set_MyDID connRec (Connection.DID responseConnection) in
  let connRec := ConnRecord.set_TheirLabel connRec (Request.Label request) in
  destination <- lift (CreateDestination P requestDidDoc) ;;
  let connRec :=
    if (0 <? length (Destination.MediaTypeProfiles destination))%nat
    then ConnRecord.set_MediaTypeProfiles connRec
           (Destination.MediaTypeProfiles destination)
    else connRec in
  mret (outboundDispatcher_Send ctx (SendResponse response) senderVerKey destination,
        connRec).

Definition handleInboundResponse (response : Response.t)
  : M (stateAction * ConnRecord.t) :=
  id <- uuid_New_String P ;;
  thread <- lift (deref (Response.Thread response)) ;;
  let ack :=
    Ack.mk (AckMsgType P) id ackStatusOK (Some (Thread.mk (Thread.ID thread) "")) in
  nsThID <- lift (CreateNamespaceKey P (myNSPrefix P) (Thread.ID thread)) ;;
  connRecord <- mwrap "get connection record: "
                  (connectionRecorder_GetConnectionRecordByNSThreadID ctx nsThID) ;;
  invitationKey <- lift (index0 (ConnRecord.RecipientKeys connRecord)) ;;
  conn <- lift (verifySignature (Response.ConnectionSignature response) invitationKey) ;;
  let connRecord := ConnRecord.set_TheirDID connRecord (Connection.DID conn) in
  responseDidDoc <- mwrap "resolve did doc from exchange response connection: "
                      (resolveDidDocFromConnection conn) ;;
  destination <- mwrap "prepare destination from response did doc: "
                   (lift (CreateDestination P responseDidDoc)) ;;
  doc <- mwrap "fetching did document: "
           (vdRegistry_Resolve ctx (ConnRecord.MyDID connRecord)) ;;
  recKey <- mwrap "handle inbound response: " (lift (recipientKey doc)) ;;
  mret (outboundDispatcher_Send ctx (SendAck ack) recKey destination, connRecord).

(** ** [ExecuteInbound] of the seven states *)

Definition noOp_ExecuteInbound (_ : stateMachineMsg.t) (thid : string) : M executed :=
  mret (failed (errorString "cannot execute no-op")).

Definition null_ExecuteInbound (msg : stateMachineMsg.t) (thid : string) : M executed :=
  mret (mkExecuted (Some ConnRecord.zero) (Some noOp) None None).

Definition illegal_msg_type (msg : stateMachineMsg.t) (s : state) : error :=
  errorString ("illegal msg type " ++ stateMachineMsg.Type_ msg
               ++ " for state " ++ Name s).

Definition invited_ExecuteInbound (msg : stateMachineMsg.t) (_ : string) : M executed :=
  if negb (stateMachineMsg.Type_ msg =? InvitationMsgType P)
     && negb (stateMachineMsg.Type_ msg =? oobMsgType P)
  then mret (failed (illegal_msg_type msg invited))
  else mret (mkExecuted (stateMachineMsg.connRecord msg) (Some requested)
               (Some noopAction) None).

Definition requested_ExecuteInbound (msg : stateMachineMsg.t) (thid : string)
  : M executed :=
  switch_string (stateMachineMsg.Type_ msg)
    [ (oobMsgType P,
        try_or_fail "failed to handle inbound oob invitation : "
          (handleInboundOOBInvitation msg thid (stateMachineMsg.options msg))
          (fun '(action, record) =>
             mret (mkExecuted (Some record) (Some noOp) (Some action) None)));
      (InvitationMsgType P,
        try_or_fail "JSON unmarshalling of invitation: "
          (lift (Decode_Invitation P (stateMachineMsg.DIDCommMsg msg)))
          (fun invitation =>
             try_or_fail "handle inbound invitation: "
               (handleInboundInvitation invitation thid (stateMachineMsg.options msg)
                  (stateMachineMsg.connRecord msg))
               (fun '(action, connRecord) =>
                  mret (mkExecuted (Some connRecord) (Some noOp) (Some action) None))));
      (RequestMsgType P,
        mret (mkExecuted (stateMachineMsg.connRecord msg) (Some responded)
                (Some noopAction) None)) ]
    (mret (failed (illegal_msg_type msg requested))).

Definition responded_ExecuteInbound (msg : stateMachineMsg.t) (thid : string)
  : M executed :=
  let done :=
    mret (mkExecuted (stateMachineMsg.connRecord msg) (Some completed)
            (Some noopAction) None) in
  switch_string (stateMachineMsg.Type_ msg)
    [ (RequestMsgType P,
        try_or_fail "JSON unmarshalling of request: "
          (lift (Decode_Request P (stateMachineMsg.DIDCommMsg msg)))
          (fun request =>
             try_or_fail "handle inbound request: "
               (handleInboundRequest request (stateMachineMsg.options msg)
                  (stateMachineMsg.connRecord msg))
               (fun '(action, connRecord) =>
                  mret (mkExecuted (Some connRecord) (Some noOp) (Some action) None))));
      (ResponseMsgType P, done);
      (CompleteMsgType P, done) ]
    (mret (failed (illegal_msg_type msg responded))).

Definition completed_ExecuteInbound (msg : stateMachineMsg.t) (thid : string)
  : M executed :=
  switch_string (stateMachineMsg.Type_ msg)
    [ (ResponseMsgType P,
        try_or_fail "JSON unmarshalling of response: "
          (lift (Decode_Response P (stateMachineMsg.DIDCommMsg msg)))
          (fun response =>
             try_or_fail "handle inbound response: "
               (handleInboundResponse response)
               (fun '(action, connRecord) =>
                  mret (mkExecuted (Some connRecord) (Some noOp) (Some action) None))));
      (AckMsgType P,
        let action := noopAction in
        mret (mkExecuted (stateMachineMsg.connRecord msg) (Some noOp) (Some action) None));
      (CompleteMsgType P,
        try_or_fail "JSON unmarshalling of complete: "
          (lift (Decode_Complete P (stateMachineMsg.DIDCommMsg msg)))
          (fun complete =>
             let action := noopAction in
             match stateMachineMsg.connRecord msg with
             | None => mret (mkExecuted None (Some noOp) (Some action) None)
             | Some connRec =>
                 mret (mkExecuted (Some connRec) (Some noOp) (Some action) None)
             end)) ]
    (mret (failed (illegal_msg_type msg completed))).

Definition abandoned_ExecuteInbound (msg : stateMachineMsg.t) (thid : string)
  : M executed :=
  mret (failed (errorString "not implemented")).

(** Dynamic dispatch of [s.ExecuteInbound(msg, thid, ctx)]. *)
Definition ExecuteInbound (s : state) (msg : stateMachineMsg.t) (thid : string)
  : M executed :=
  match s with
  | noOp => noOp_ExecuteInbound msg thid
  | null => null_ExecuteInbound msg thid
  | invited => invited_ExecuteInbound msg thid
  | requested => requested_ExecuteInbound msg thid
  | responded => responded_ExecuteInbound msg thid
  | completed => completed_ExecuteInbound msg thid
  | abandoned => abandoned_ExecuteInbound msg thid
  end.

End Protocol.

(** ** What the codec asks of its collaborators *)

Section Laws.

Context {World KeyHandle : Type}.
Variable P : packages World KeyHandle.
Variable ctx : context World KeyHandle.

(** Decoding an encoded byte string gives the byte string back. *)
Definition base64_roundtrip : Prop :=
  forall bs, URLEncoding_DecodeString P (URLEncoding_EncodeToString P bs) = Return bs.

(** A marshalled connection is not empty and unmarshals to itself. *)
Definition json_roundtrip : Prop :=
  forall c bs,
    json_Marshal P c = Return bs -> bs <> [] /\ json_Unmarshal P bs = Return c.

(** The verifier accepts, under a public key, what the crypto service
    signs with the handle that the key manager stores under the key id of
    that public key. *)
Definition crypto_correct : Prop :=
  forall pubKeyBytes kid kh data signature w w1 w2,
    CreateKID P pubKeyBytes ED25519Type = Return kid ->
    kms_Get ctx kid w = (Ok kh, w1) ->
    crypto_Sign ctx data kh w1 = (Ok signature, w2) ->
    signatureSuite_Verify P (PublicKey.mk (kms_ED25519 P) pubKeyBytes) data signature = None.

(** The six message type constants are pairwise different, as the
    [switch] of [stateFromMsgType] over them requires. *)
Definition msg_types_distinct : Prop :=
  NoDup [ InvitationMsgType P; oobMsgType P; RequestMsgType P;
          ResponseMsgType P; AckMsgType P; CompleteMsgType P ].

(** The message types that the [ExecuteInbound] of a state has a case
    for. *)
Definition accepts (s : state) (msgType : string) : bool :=
  match s with
  | noOp => false
  | null => true
  | invited => (msgType =? InvitationMsgType P) || (msgType =? oobMsgType P)
  | requested =>
      (msgType =? oobMsgType P) || (msgType =? InvitationMsgType P)
      || (msgType =? RequestMsgType P)
  | responded =>
      (msgType =? RequestMsgType P) || (msgType =? ResponseMsgType P)
      || (msgType =? CompleteMsgType P)
  | completed =>
      (msgType =? ResponseMsgType P) || (msgType =? AckMsgType P)
      || (msgType =? CompleteMsgType P)
  | abandoned => false
  end.

(** The out-of-band lookup reports "verkey not found" when the store has
    no entry or the entry is not an out-of-band invitation. *)
Definition oob_lookup_misses (invitationID : string) (w w1 : World) : Prop :=
  (exists e,
      connectionRecorder_GetInvitation_OOB ctx invitationID w = (Err e, w1)
      /\ errors_Is e ErrDataNotFound = true)
  \/ (exists oob,
         connectionRecorder_GetInvitation_OOB ctx invitationID w = (Ok oob, w1)
         /\ OOBInvitation.Type_ oob <> oobMsgType P).

(** An action that is exactly one call of the dispatcher's [Send]. *)
Definition sends_once (action : stateAction World) : Prop :=
  exists msg senderKey destination,
    action = outboundDispatcher_Send ctx msg senderKey destination.

(** The action of a state execution: a callable that does nothing, or a
    callable that sends once. *)
Definition noop_or_sends_once (action : option (stateAction World)) : Prop :=
  action = Some noopAction
  \/ exists a, action = Some a /\ sends_once a.

End Laws.

(** The value that a big-endian byte string denotes. *)
Definition BigEndian_value (bs : list byte) : N :=
  fold_left (fun acc b => (acc * 256 + Byte.to_N b)%N) bs 0%N.

(** ** A concrete set of collaborators

    A small executable instance: base64 as RFC 4648 defines it, a JSON
    codec for connections without an embedded document, a toy signature
    scheme, and in-memory stores. It is used to run the functions on
    concrete inputs. *)

Module Demo.

(** *** base64 *)

Definition urlAlphabet : list byte :=
  list_byte_of_string
    "ABCDEFGHIJKLMNOPQRSTUVWXYZabcdefghijklmnopqrstuvwxyz0123456789-_".

Definition stdAlphabet : list byte :=
  list_byte_of_string
    "ABCDEFGHIJKLMNOPQRSTUVWXYZabcdefghijklmnopqrstuvwxyz0123456789+/".

Definition padChar : byte := "="%byte.

Section Base64.

Variable alphabet : list byte.

Definition encodeChar (n : N) : byte := nth (N.to_nat n) alphabet padChar.

Fixpoint indexOf (c : byte) (cs : list byte) (i : N) : option N :=
  match cs with
  | [] => None
  | c' :: rest => if Byte.eqb c c' then Some i else indexOf c rest (N.succ i)
  end.

Definition decodeChar (c : byte) : option N := indexOf c alphabet 0%N.

Fixpoint encode (src : list byte) : list byte :=
  match src with
  | [] => []
  | [a] =>
      let a := Byte.to_N a in
      [ encodeChar (a / 4); encodeChar (a mod 4 * 16); padChar; padChar ]
  | [a; b] =>
      let a := Byte.to_N a in
      let b := Byte.to_N b in
      [ encodeChar (a / 4); encodeChar (a mod 4 * 16 + b / 16);
        encodeChar (b mod 16 * 4); padChar ]
  | a :: b :: c :: rest =>
      let a := Byte.to_N a in
      let b := Byte.to_N b in
      let c := Byte.to_N c in
      encodeChar (a / 4) :: encodeChar (a mod 4 * 16 + b / 16)
        :: encodeChar (b mod 16 * 4 + c / 64) :: encodeChar (c mod 64)
        :: encode rest
  end%N.

Definition corrupt : error := errorString "illegal base64 data".

Fixpoint decode (src : list byte) : result (list byte) :=
  match src with
  | [] => Return []
  | c1 :: c2 :: c3 :: c4 :: rest =>
      match decodeChar c1, decodeChar c2 with
      | Some s1, Some s2 =>
          let b1 := byte_of_N (s1 * 4 + s2 / 16) in
          match decodeChar c3, decodeChar c4 with
          | Some s3, Some s4 =>
              let b2 := byte_of_N (s2 mod 16 * 16 + s3 / 4) in
              let b3 := byte_of_N (s3 mod 4 * 64 + s4) in
              match decode rest with
              | Return tail => Return (b1 :: b2 :: b3 :: tail)
              | other => other
              end
          | Some s3, None =>
              let b2 := byte_of_N (s2 mod 16 * 16 + s3 / 4) in
              match rest with
              | [] => if Byte.eqb c4 padChar then Return [b1; b2] else Fail corrupt
              | _ => Fail corrupt
              end
          | None, _ =>
              match rest with
              | [] =>
                  if Byte.eqb c3 padChar && Byte.eqb c4 padChar
                  then Return [b1] else Fail corrupt
              | _ => Fail corrupt
              end
          end
      | _, _ => Fail corrupt
      end
  | _ => Fail corrupt
  end%N.

Definition EncodeToString (src : list byte) : string :=
  string_of_list_byte (encode src).

Definition DecodeString (s : string) : result (list byte) :=
  decode (list_byte_of_string s).

End Base64.

(** An alphabet is sound when its 64 characters decode to their own
    positions and the padding character is not one of them. *)
Definition sound_alphabet (alphabet : list byte) : Prop :=
  (forall n, (n < 64)%N -> decodeChar alphabet (encodeChar alphabet n) = Some n)
  /\ decodeChar alphabet padChar = None.

(** *** JSON for a connection without an embedded document

    The object with the single member [DID]; the bytes [x7b], [x22],
    [x3a] and [x7d] are the brace, quote and colon characters. *)

Definition jsonOpen : list byte :=
  ([x7b; x22] ++ list_byte_of_string "DID" ++ [x22; x3a; x22])%list.
Definition jsonClose : list byte := [x22; x7d].

Fixpoint bytes_eqb (a b : list byte) : bool :=
  match a, b with
  | [], [] => true
  | x :: a', y :: b' => Byte.eqb x y && bytes_eqb a' b'
  | _, _ => false
  end.

Fixpoint stripPrefix (pre l : list byte) : option (list byte) :=
  match pre, l with
  | [], _ => Some l
  | p :: pre', x :: l' => if Byte.eqb p x then stripPrefix pre' l' else None
  | _ :: _, [] => None
  end.

Definition stripSuffix (suf l : list byte) : option (list byte) :=
  option_map (@rev byte) (stripPrefix (rev suf) (rev l)).

Definition Marshal (c : Connection.t) : result (list byte) :=
  match Connection.DIDDoc c with
  | None => Return (jsonOpen ++ list_byte_of_string (Connection.DID c) ++ jsonClose)%list
  | Some _ => Fail (errorString "json: embedded documents are not supported here")
  end.

Definition Unmarshal (bs : list byte) : result Connection.t :=
  match stripPrefix jsonOpen bs with
  | None => Fail (errorString "json: cannot unmarshal")
  | Some rest =>
      match stripSuffix jsonClose rest with
      | None => Fail (errorString "json: cannot unmarshal")
      | Some did => Return (Connection.mk (string_of_list_byte did) None)
      end
  end.

(** *** Keys and signatures

    A key handle is the public key itself, a key id is the key read as a
    string, and the signature of [data] is the key followed by [data]. *)

Definition KeyHandle : Type := list byte.

Definition didKeyPrefix := "did:key:".

Definition pubKeyFromDIDKey (didKey : string) : result (list byte) :=
  if HasPrefix didKey didKeyPrefix
  then Return (list_byte_of_string (TrimPrefix didKey didKeyPrefix))
  else Fail (errorString ("not a did:key: " ++ didKey)).

Definition createKID (pubKeyBytes : list byte) (_ : KeyType) : result string :=
  Return (string_of_list_byte pubKeyBytes).

Definition sign (data : list byte) (kh : KeyHandle) : list byte := (kh ++ data)%list.

Definition verify (pubKey : PublicKey.t) (data signature : list byte) : option error :=
  if bytes_eqb signature (PublicKey.Value pubKey ++ data)%list
  then None
  else Some (errorString "ed25519: invalid signature").

(** *** World, registry and stores *)

Record World : Type := mkWorld {
  clock : Z;
  outbox : list (outboundMsg * string * Destination.t) }.

Abbreviation M := (M World).

Definition inviterKey := "did:key:inviter-key".
Definition inviterDID := "did:peer:inviter".

Definition inviterService : Service.t :=
  Service.mk "didcomm" didCommServiceType [inviterKey] [] "http://inviter.example" [].

Definition inviterDoc : Doc.t := Doc.mk inviterDID [] [inviterService] [].

(** The service block that the registry writes into a document it
    creates. *)
Definition myService : Service.t :=
  Service.mk "didcomm" didCommServiceType ["did:key:my-key"] [] "http://me.example" [].

Definition lookupService (doc : Doc.t) (serviceType : string) : option Service.t :=
  find (fun svc => Service.Type_ svc =? serviceType) (Doc.Service doc).

Definition createDestination (doc : Doc.t) : result Destination.t :=
  match lookupService doc didCommServiceType with
  | Some svc =>
      Return (Destination.mk (Service.RecipientKeys svc) (Service.ServiceEndpoint svc)
            (Service.RoutingKeys svc) (Service.Accept svc))
  | None => Fail (errorString "create destination: missing DID doc service")
  end.

Definition resolve (did : string) : M Doc.t :=
  if did =? inviterDID
  then mret inviterDoc
  else lift (Err (errorString ("DID does not exist: " ++ did))).

Definition legacyType := "https://didcomm.org/didexchange/1.0/invitation".
Definition oobType := "https://didcomm.org/out-of-band/1.0/invitation".

(** The invitation store read as an out-of-band invitation: ["oob-1"] is
    one, ["inv-1"] and ["inv-2"] are legacy invitations, ["locked"]
    cannot be read and nothing else is stored. *)
Definition getInvitationOOB (id : string) : M OOBInvitation.t :=
  switch_string id
    [ ("oob-1", mret (OOBInvitation.mk oobType (TargetService inviterService) "inviter" []));
      ("inv-1", mret (OOBInvitation.mk legacyType (TargetOther "<nil>") "" []));
      ("inv-2", mret (OOBInvitation.mk legacyType (TargetOther "<nil>") "" []));
      ("locked", lift (Err (errorString "store is closed"))) ]
    (lift (Err ErrDataNotFound)).

(** The same store read as a legacy invitation. *)
Definition getInvitation (id : string) : M Invitation.t :=
  switch_string id
    [ ("inv-1", mret (Invitation.mk "inv-1" "" ["did:key:legacy-key"] "http://x" []));
      ("inv-2", mret (Invitation.mk "inv-2" inviterDID [] "" [])) ]
    (lift (Err ErrDataNotFound)).

Definition send (msg : outboundMsg) (senderKey : string) (dest : Destination.t)
  : M unit :=
  fun w => (Ok tt, mkWorld (clock w) (outbox w ++ [(msg, senderKey, dest)])%list).

Definition unsupported {A} (what : string) : result A :=
  Fail (errorString (what ++ " is not available here")).

Definition P : packages World KeyHandle := {|
  InvitationMsgType := legacyType;
  RequestMsgType := "https://didcomm.org/didexchange/1.0/request";
  ResponseMsgType := "https://didcomm.org/didexchange/1.0/response";
  AckMsgType := "https://didcomm.org/didexchange/1.0/ack";
  CompleteMsgType := "https://didcomm.org/didexchange/1.0/complete";
  oobMsgType := oobType;
  myNSPrefix := "my";
  kms_ED25519 := "ED25519";
  Decode_Invitation := fun _ => unsupported "decoding";
  Decode_OOBInvitation := fun _ => unsupported "decoding";
  Decode_Request := fun _ => unsupported "decoding";
  Decode_Response := fun _ => unsupported "decoding";
  Decode_Complete := fun _ => unsupported "decoding";
  json_Marshal := Marshal;
  json_Unmarshal := Unmarshal;
  URLEncoding_EncodeToString := EncodeToString urlAlphabet;
  URLEncoding_DecodeString := DecodeString urlAlphabet;
  StdEncoding_EncodeToString := EncodeToString stdAlphabet;
  PubKeyFromDIDKey := pubKeyFromDIDKey;
  CreateKID := createKID;
  signatureSuite_Verify := verify;
  CreateDestination := createDestination;
  GetDestination := fun did => mbind (resolve did) (fun doc => lift (createDestination doc));
  LookupService := lookupService;
  did_Parse_Method := fun _ => Return "peer";
  SerializeInterop := fun _ => unsupported "interop serialisation";
  CreateNamespaceKey := fun prefix thid => Return (prefix ++ "_" ++ thid);
  convertPeerToSov := fun doc => Ok doc;
  getRequestConnection := fun request => deref (Request.Connection request);
  ParsePKIXPublicKey := fun _ => Return OtherPublicKey;
  elliptic_Marshal := fun _ _ _ => [];
  mapstructure_NewDecoder := Return tt;
  mapstructure_Decode := fun _ => unsupported "map decoding";
  AttachmentData_Verify := fun _ => mret tt;
  AttachmentData_Sign := fun data _ _ _ => mret data;
  uuid_New_String := mret "00000000-0000-4000-8000-000000000000";
  time_Now_Unix := fun w => (Ok (clock w), w)
|}.

Definition ctx : context World KeyHandle := {|
  kms_CreateAndExportPubKeyBytes := fun _ => mret ("key-1", list_byte_of_string "my-key");
  kms_Get := fun kid => mret (list_byte_of_string kid);
  crypto_Sign := fun data kh => mret (sign data kh);
  vdRegistry_Resolve := resolve;
  vdRegistry_Create := fun method doc _ =>
    mret (Doc.mk ("did:" ++ method ++ ":new") (Doc.VerificationMethod doc)
            [myService] (Doc.Authentication doc));
  outboundDispatcher_Send := send;
  routeSvc_GetRouterConfig := fun _ _ => mret ("http://router.example", []);
  routeSvc_AddKeyToRouter := fun _ _ => mret tt;
  connectionRecorder_GetInvitation_OOB := getInvitationOOB;
  connectionRecorder_GetInvitation := getInvitation;
  connectionRecorder_GetConnectionRecordByNSThreadID := fun _ => lift (Err ErrDataNotFound);
  connectionStore_SaveDIDFromDoc := fun _ => mret tt;
  doACAPyInterop := false
|}.

Definition w0 : World := mkWorld 1000000000 [].

Definition abc : Connection.t := Connection.mk "did:peer:abc" None.

(** The signature that [prepareConnectionSignature] produces for [abc]
    and the invitation ["inv-1"] in the world [w0]. *)
Definition abcSignature : ConnectionSignature.t :=
  ConnectionSignature.mk
    "https://didcomm.org/signature/1.0/ed25519Sha512_single"
    "AAAAADuaygB7IkRJRCI6ImRpZDpwZWVyOmFiYyJ9"
    "did:key:legacy-key"
    "bGVnYWN5LWtleQAAAAA7msoAeyJESUQiOiJkaWQ6cGVlcjphYmMifQ==".

(** A response message, and a request that carries no thread. *)
Definition responseMsg : stateMachineMsg.t :=
  stateMachineMsg.mk
    (DIDCommMsg.mk "https://didcomm.org/didexchange/1.0/response" []) None None.

Definition requestWithoutThread : Request.t :=
  Request.mk "https://didcomm.org/didexchange/1.0/request" "request-1" "invitee"
    (Some (Connection.mk inviterDID None)) None None.

End Demo.

(** ** Signer and verifier over the crypto service

    The types [CryptoSigner] and [CryptoVerifier] of the file
    suite_crypto.go of package [ed25519signature2018]. *)

Module SuiteCrypto.

Section Suite.

(** The key handles are Go [interface{}] values; [Handle] is their type. *)
Context {World Handle : Type}.

(** Modelled from the spec: [crypto.Crypto], the cryptographic primitive
    provider with [Sign(msg, handle)] and [Verify(sig, msg, publicKey)]. *)
Record Crypto : Type := {
  Sign : list byte -> Handle -> M World (list byte);
  Verify : list byte -> list byte -> Handle -> M World unit }.

(** CryptoSigner defines signer based on crypto. *)
Record CryptoSigner : Type := { cr : Crypto; kh : Handle }.

Definition NewCryptoSigner (cr : Crypto) (kh : Handle) : CryptoSigner :=
  {| cr := cr; kh := kh |}.

(** Sign will sign document and return signature. *)
Definition CryptoSigner_Sign (s : CryptoSigner) (msg : list byte) : M World (list byte) :=
  Sign (cr s) msg (kh s).

(** CryptoVerifier defines signature verifier based on crypto. *)
Record CryptoVerifier : Type := { verifier_cr : Crypto }.

Definition NewCryptoVerifier (cr : Crypto) : CryptoVerifier :=
  {| verifier_cr := cr |}.

(** The [*sigverifier.PublicKey] argument, possibly nil, as the
    [interface{}] that is handed to the crypto service. *)
Variable handle_of_PublicKey : option PublicKey.t -> Handle.

(** Verify will verify a signature. *)
Definition CryptoVerifier_Verify (v : CryptoVerifier) (kh : option PublicKey.t)
    (msg signature : list byte) : M World unit :=
  Verify (verifier_cr v) signature msg (handle_of_PublicKey kh).

End Suite.

Arguments Crypto : clear implicits.
Arguments CryptoSigner : clear implicits.
Arguments CryptoVerifier : clear implicits.

End SuiteCrypto.

(** ** Notions used to state the properties *)

(** One step of the transition table. *)
Definition transition (s next : state) : Prop := CanTransitionTo s next = true.

(** A state is reached from another by one or more steps. *)
Inductive reaches : state -> state -> Prop :=
| reaches_step s next : transition s next -> reaches s next
| reaches_more s mid next : transition s mid -> reaches mid next -> reaches s next.

(** The six message types that [stateFromMsgType] has a case for. *)
Definition known_msg_types {World KeyHandle : Type} (P : packages World KeyHandle)
  : list string :=
  [ InvitationMsgType P; oobMsgType P; RequestMsgType P;
    ResponseMsgType P; AckMsgType P; CompleteMsgType P ].

(** The position of a state along the protocol. *)
Definition rank (s : state) : nat :=
  match s with
  | null => 0
  | invited => 1
  | requested => 2
  | responded => 3
  | completed => 4
  | abandoned => 4
  | noOp => 4
  end.

(** The three ECDSA key types in IEEE P1363 form. *)
Definition isIEEEP1363 (keyType : KeyType) : bool :=
  match keyType with
  | ECDSAP256TypeIEEEP1363 | ECDSAP384TypeIEEEP1363 | ECDSAP521TypeIEEEP1363 => true
  | _ => false
  end.

(** ** More concrete collaborators

    The collaborators of [Demo] with decoders that yield fixed messages,
    an interop serialiser, a connection recorder that holds one record,
    and the interop flag set. *)

Module Demo2.

Definition oobInvitation : OOBInvitation.t :=
  OOBInvitation.mk Demo.oobType (TargetService Demo.inviterService) "inviter"
    ["didcomm/v2"].

Definition legacyInvitation : Invitation.t :=
  Invitation.mk "inv-1" "" ["did:key:legacy-key"] "http://x" [].

Definition request : Request.t :=
  Request.mk "https://didcomm.org/didexchange/1.0/request" "request-1" "invitee"
    (Some (Connection.mk Demo.inviterDID None))
    (Some (Thread.mk "request-1" "inv-1")) None.

Definition inviterConnection : Connection.t := Connection.mk Demo.inviterDID None.

(** The signature over [inviterConnection] for the invitation ["inv-1"]. *)
Definition inviterSignature : ConnectionSignature.t :=
  Eval vm_compute in
    match fst (prepareConnectionSignature Demo.P Demo.ctx inviterConnection "inv-1"
                 Demo.w0) with
    | Ok sig => sig
    | _ => ConnectionSignature.mk "" "" "" ""
    end.

Definition response : Response.t :=
  Response.mk "https://didcomm.org/didexchange/1.0/response" "response-1"
    (Some (Thread.mk "thread-1" "")) (Some inviterSignature) "" None.

Definition record : ConnRecord.t :=
  ConnRecord.mk "thread-1" "inv-1" Demo.inviterDID "" "" ["did:key:legacy-key"]
    ["didcomm/aip1"] false.

Definition P : packages Demo.World Demo.KeyHandle := {|
  InvitationMsgType := InvitationMsgType Demo.P;
  RequestMsgType := RequestMsgType Demo.P;
  ResponseMsgType := ResponseMsgType Demo.P;
  AckMsgType := AckMsgType Demo.P;
  CompleteMsgType := CompleteMsgType Demo.P;
  oobMsgType := oobMsgType Demo.P;
  myNSPrefix := myNSPrefix Demo.P;
  kms_ED25519 := kms_ED25519 Demo.P;
  Decode_Invitation := fun _ => Return legacyInvitation;
  Decode_OOBInvitation := fun _ => Return oobInvitation;
  Decode_Request := fun _ => Return request;
  Decode_Response := fun _ => Return response;
  Decode_Complete := fun _ => Return (Complete.mk "" "complete-1" None);
  json_Marshal := json_Marshal Demo.P;
  json_Unmarshal := json_Unmarshal Demo.P;
  URLEncoding_EncodeToString := URLEncoding_EncodeToString Demo.P;
  URLEncoding_DecodeString := URLEncoding_DecodeString Demo.P;
  StdEncoding_EncodeToString := StdEncoding_EncodeToString Demo.P;
  PubKeyFromDIDKey := PubKeyFromDIDKey Demo.P;
  CreateKID := CreateKID Demo.P;
  signatureSuite_Verify := signatureSuite_Verify Demo.P;
  CreateDestination := CreateDestination Demo.P;
  GetDestination := GetDestination Demo.P;
  LookupService := LookupService Demo.P;
  did_Parse_Method := fun _ => Return "sov";
  SerializeInterop := fun doc => Return (list_byte_of_string (Doc.ID doc));
  CreateNamespaceKey := CreateNamespaceKey Demo.P;
  convertPeerToSov := convertPeerToSov Demo.P;
  getRequestConnection := getRequestConnection Demo.P;
  ParsePKIXPublicKey := ParsePKIXPublicKey Demo.P;
  elliptic_Marshal := elliptic_Marshal Demo.P;
  mapstructure_NewDecoder := mapstructure_NewDecoder Demo.P;
  mapstructure_Decode := mapstructure_Decode Demo.P;
  AttachmentData_Verify := AttachmentData_Verify Demo.P;
  AttachmentData_Sign := fun data kh _ _ =>
    mret (AttachmentData.mk (AttachmentData.Base64 data) (Some kh));
  uuid_New_String := uuid_New_String Demo.P;
  time_Now_Unix := time_Now_Unix Demo.P
|}.

Definition getRecord (nsThID : string) : Demo.M ConnRecord.t :=
  if nsThID =? "my_thread-1"
  then mret record
  else lift (Err ErrDataNotFound).

Definition withRecorder (interop : bool) : context Demo.World Demo.KeyHandle := {|
  kms_CreateAndExportPubKeyBytes := kms_CreateAndExportPubKeyBytes Demo.ctx;
  kms_Get := kms_Get Demo.ctx;
  crypto_Sign := crypto_Sign Demo.ctx;
  vdRegistry_Resolve := vdRegistry_Resolve Demo.ctx;
  vdRegistry_Create := vdRegistry_Create Demo.ctx;
  outboundDispatcher_Send := outboundDispatcher_Send Demo.ctx;
  routeSvc_GetRouterConfig := routeSvc_GetRouterConfig Demo.ctx;
  routeSvc_AddKeyToRouter := routeSvc_AddKeyToRouter Demo.ctx;
  connectionRecorder_GetInvitation_OOB := connectionRecorder_GetInvitation_OOB Demo.ctx;
  connectionRecorder_GetInvitation := connectionRecorder_GetInvitation Demo.ctx;
  connectionRecorder_GetConnectionRecordByNSThreadID := getRecord;
  connectionStore_SaveDIDFromDoc := connectionStore_SaveDIDFromDoc Demo.ctx;
  doACAPyInterop := interop
|}.

Definition ctx : context Demo.World Demo.KeyHandle := withRecorder false.

Definition ctxInterop : context Demo.World Demo.KeyHandle := withRecorder true.

(** A document with an embedded [did:sov] identifier. *)
Definition sovDoc : Doc.t := Doc.mk "did:sov:XYZ" [] [Demo.inviterService] [].

(** An invitation message of the legacy type, with a record. *)
Definition invitationMsg : stateMachineMsg.t :=
  stateMachineMsg.mk (DIDCommMsg.mk Demo.legacyType []) (Some record) None.

(** A toy crypto service for [SuiteCrypto]: the handle is the key bytes
    and a signature is the key followed by the message. *)
Definition crypto : SuiteCrypto.Crypto Demo.World (list byte) := {|
  SuiteCrypto.Sign := fun msg kh => mret (Demo.sign msg kh);
  SuiteCrypto.Verify := fun signature msg kh =>
    if Demo.bytes_eqb signature (kh ++ msg)%list
    then mret tt
    else lift (Err (errorString "invalid signature"))
|}.

Definition handleOf (pk : option PublicKey.t) : list byte :=
  match pk with
  | Some k => PublicKey.Value k
  | None => []
  end.

End Demo2.

(** * Properties *)

(** ** The concrete collaborators meet the laws *)

Module DemoFacts.
Import Demo.

Lemma to_N_lt_256 (b : byte) : (Byte.to_N b < 256)%N.
Proof. pose proof (Byte.to_N_bounded b). lia. Qed.

Lemma byte_of_N_to_N (b : byte) : byte_of_N (Byte.to_N b) = b.
Proof.
  unfold byte_of_N. rewrite N.mod_small by apply to_N_lt_256.
  rewrite Byte.of_to_N. reflexivity.
Qed.

Lemma sound_by_enumeration (alphabet : list byte) :
  forallb (fun k => match decodeChar alphabet (encodeChar alphabet (N.of_nat k)) with
                    | Some n => N.eqb n (N.of_nat k)
                    | None => false
                    end) (seq 0 64) = true ->
  decodeChar alphabet padChar = None ->
  sound_alphabet alphabet.
Proof.
  intros Hall Hpad. split; [|exact Hpad].
  intros n Hn. rewrite forallb_forall in Hall.
  specialize (Hall (N.to_nat n)).
  rewrite N2Nat.id in Hall.
  destruct (decodeChar alphabet (encodeChar alphabet n)) as [m|].
  - f_equal. apply N.eqb_eq. apply Hall. apply in_seq. lia.
  - discriminate Hall. apply in_seq. lia.
Qed.

Lemma urlAlphabet_sound : sound_alphabet urlAlphabet.
Proof. apply sound_by_enumeration; vm_compute; reflexivity. Qed.

Lemma stdAlphabet_sound : sound_alphabet stdAlphabet.
Proof. apply sound_by_enumeration; vm_compute; reflexivity. Qed.

Lemma first_byte_back (a b : N) :
  (b < 256 -> a / 4 * 4 + (a mod 4 * 16 + b / 16) / 16 = a)%N.
Proof.
  intros Hb.
  assert (H : ((a mod 4 * 16 + b / 16) / 16 = a mod 4)%N).
  { rewrite N.div_add_l by lia. rewrite (N.div_small (b / 16)); [lia|].
    apply N.Div0.div_lt_upper_bound. lia. }
  rewrite H. pose proof (N.div_mod a 4). lia.
Qed.

Lemma second_byte_back (a b c : N) :
  (b < 256 -> c < 256 ->
   (a mod 4 * 16 + b / 16) mod 16 * 16 + (b mod 16 * 4 + c / 64) / 4 = b)%N.
Proof.
  intros Hb Hc.
  assert (Hq : (b / 16 < 16)%N) by (apply N.Div0.div_lt_upper_bound; lia).
  assert (Hc4 : (c / 64 < 4)%N) by (apply N.Div0.div_lt_upper_bound; lia).
  rewrite (N.add_comm (a mod 4 * 16) (b / 16)), N.Div0.mod_add,
    (N.mod_small (b / 16)) by lia.
  rewrite N.div_add_l, (N.div_small (c / 64)) by lia.
  pose proof (N.div_mod b 16). lia.
Qed.

Lemma third_byte_back (b c : N) :
  (c < 256 -> (b mod 16 * 4 + c / 64) mod 4 * 64 + c mod 64 = c)%N.
Proof.
  intros Hc.
  assert (Hc4 : (c / 64 < 4)%N) by (apply N.Div0.div_lt_upper_bound; lia).
  rewrite (N.add_comm (b mod 16 * 4) (c / 64)), N.Div0.mod_add,
    (N.mod_small (c / 64)) by lia.
  pose proof (N.div_mod c 64). lia.
Qed.

Lemma sextets_recombine (a b c : N) :
  (a < 256 -> b < 256 -> c < 256 ->
   a / 4 * 4 + (a mod 4 * 16 + b / 16) / 16 = a /\
   (a mod 4 * 16 + b / 16) mod 16 * 16 + (b mod 16 * 4 + c / 64) / 4 = b /\
   (b mod 16 * 4 + c / 64) mod 4 * 64 + c mod 64 = c)%N.
Proof.
  intros Ha Hb Hc. repeat split.
  - apply first_byte_back; assumption.
  - apply second_byte_back; assumption.
  - apply third_byte_back; assumption.
Qed.

Lemma sextets_in_range (a b c : N) :
  (a < 256 -> b < 256 -> c < 256 ->
   a / 4 < 64 /\ a mod 4 * 16 + b / 16 < 64 /\
   b mod 16 * 4 + c / 64 < 64 /\ c mod 64 < 64)%N.
Proof.
  intros Ha Hb Hc.
  assert (a / 4 < 64)%N by (apply N.Div0.div_lt_upper_bound; lia).
  assert (b / 16 < 16)%N by (apply N.Div0.div_lt_upper_bound; lia).
  assert (c / 64 < 4)%N by (apply N.Div0.div_lt_upper_bound; lia).
  pose proof (N.mod_lt a 4). pose proof (N.mod_lt b 16). pose proof (N.mod_lt c 64).
  lia.
Qed.

Section Base64Roundtrip.

Variable alphabet : list byte.
Hypothesis Hsound : sound_alphabet alphabet.

Lemma decode_encode_bounded (n : nat) :
  forall src, (length src <= n)%nat -> decode alphabet (encode alphabet src) = Return src.
Proof.
  destruct Hsound as [Hchar Hpad].
  induction n as [|n IH]; intros src Hlen.
  - destruct src; [reflexivity | simpl in Hlen; lia].
  - destruct src as [|a [|b [|c rest]]]; [reflexivity | | | ].
    + pose proof (to_N_lt_256 a) as Ha.
      destruct (sextets_in_range (Byte.to_N a) 0 0 Ha) as (R1 & R2 & _); [lia | lia |].
      destruct (sextets_recombine (Byte.to_N a) 0 0 Ha) as (E1 & _); [lia | lia |].
      change (0 / 16)%N with 0%N in *. rewrite N.add_0_r in *.
      cbn [encode decode].
      rewrite (Hchar _ R1), (Hchar _ R2), Hpad.
      change (Byte.eqb padChar padChar) with true. cbn [andb].
      rewrite E1, byte_of_N_to_N. reflexivity.
    + pose proof (to_N_lt_256 a) as Ha. pose proof (to_N_lt_256 b) as Hb.
      destruct (sextets_in_range (Byte.to_N a) (Byte.to_N b) 0 Ha Hb)
        as (R1 & R2 & R3 & _); [lia |].
      destruct (sextets_recombine (Byte.to_N a) (Byte.to_N b) 0 Ha Hb)
        as (E1 & E2 & _); [lia |].
      change (0 / 64)%N with 0%N in *. rewrite N.add_0_r in *.
      cbn [encode decode].
      rewrite (Hchar _ R1), (Hchar _ R2), (Hchar _ R3), Hpad.
      change (Byte.eqb padChar padChar) with true.
      rewrite E1, E2, !byte_of_N_to_N. reflexivity.
    + pose proof (to_N_lt_256 a) as Ha. pose proof (to_N_lt_256 b) as Hb.
      pose proof (to_N_lt_256 c) as Hc.
      destruct (sextets_in_range _ _ _ Ha Hb Hc) as (R1 & R2 & R3 & R4).
      destruct (sextets_recombine _ _ _ Ha Hb Hc) as (E1 & E2 & E3).
      cbn [encode decode].
      rewrite (Hchar _ R1), (Hchar _ R2), (Hchar _ R3), (Hchar _ R4).
      rewrite IH by (simpl in Hlen; lia).
      rewrite E1, E2, E3, !byte_of_N_to_N. reflexivity.
Qed.

Lemma decode_encode (src : list byte) :
  decode alphabet (encode alphabet src) = Return src.
Proof. apply (decode_encode_bounded (length src)). lia. Qed.

Lemma DecodeString_EncodeToString (src : list byte) :
  DecodeString alphabet (EncodeToString alphabet src) = Return src.
Proof.
  unfold DecodeString, EncodeToString.
  rewrite list_byte_of_string_of_list_byte. apply decode_encode.
Qed.

End Base64Roundtrip.

Lemma base64_law : base64_roundtrip P.
Proof. intros bs. apply (DecodeString_EncodeToString _ urlAlphabet_sound). Qed.

Lemma bytes_eqb_refl (a : list byte) : bytes_eqb a a = true.
Proof.
  induction a as [|x a IH]; [reflexivity|].
  simpl. rewrite IH, (Byte.byte_dec_lb eq_refl). reflexivity.
Qed.

Lemma stripPrefix_app (pre rest : list byte) :
  stripPrefix pre (pre ++ rest) = Some rest.
Proof.
  induction pre as [|p pre IH]; [reflexivity|].
  simpl. rewrite (Byte.byte_dec_lb eq_refl). exact IH.
Qed.

Lemma stripSuffix_app (suf body : list byte) :
  stripSuffix suf (body ++ suf) = Some body.
Proof.
  unfold stripSuffix. rewrite rev_app_distr, stripPrefix_app. simpl.
  rewrite rev_involutive. reflexivity.
Qed.

Lemma Unmarshal_object (did : string) :
  Unmarshal (jsonOpen ++ list_byte_of_string did ++ jsonClose)
  = Return (Connection.mk did None).
Proof.
  unfold Unmarshal.
  rewrite stripPrefix_app, stripSuffix_app, string_of_list_byte_of_string.
  reflexivity.
Qed.

Lemma json_law : json_roundtrip P.
Proof.
  intros [did doc] bs. cbn [json_Marshal P]. unfold Marshal. cbn [Connection.DIDDoc].
  destruct doc; [discriminate|]. intros [= <-]. split; [discriminate|].
  apply Unmarshal_object.
Qed.

Lemma crypto_law : crypto_correct P ctx.
Proof.
  intros pub kid kh data signature w w1 w2 Hkid Hget Hsign.
  cbn in Hkid, Hget, Hsign. unfold createKID in Hkid.
  injection Hkid as <-. injection Hget as <- <-. injection Hsign as <- <-.
  cbn [signatureSuite_Verify P]. unfold verify, sign. cbn [PublicKey.Value].
  rewrite list_byte_of_string_of_list_byte, bytes_eqb_refl. reflexivity.
Qed.

Lemma msg_types_law : msg_types_distinct P.
Proof.
  unfold msg_types_distinct. cbn.
  repeat (constructor; [cbn; intuition discriminate|]). constructor.
Qed.

End DemoFacts.

(** ** Reading successful runs *)

Section Inversion.

Context {World : Type}.

Lemma obind_Ok {A B} (o : outcome A) (k : A -> outcome B) (b : B) :
  obind o k = Ok b -> exists a, o = Ok a /\ k a = Ok b.
Proof. destruct o; simpl; intros H; try discriminate. eauto. Qed.

Lemma owrap_Ok {A} (msg : string) (o : outcome A) (a : A) :
  owrap msg o = Ok a -> o = Ok a.
Proof. destruct o; simpl; intros H; try discriminate. exact H. Qed.

Lemma outcome_of_result_Ok {A} (r : result A) (a : A) :
  outcome_of_result r = Ok a -> r = Return a.
Proof. destruct r; simpl; intros H; [injection H as -> | discriminate]. reflexivity. Qed.

Lemma mbind_Ok {A B} (c : M World A) (k : A -> M World B) (w w' : World) (b : B) :
  mbind c k w = (Ok b, w') ->
  exists a w1, c w = (Ok a, w1) /\ k a w1 = (Ok b, w').
Proof.
  unfold mbind. destruct (c w) as [[a|e|p] w1]; intros H; try discriminate. eauto.
Qed.

Lemma mwrap_Ok {A} (msg : string) (c : M World A) (w w' : World) (a : A) :
  mwrap msg c w = (Ok a, w') -> c w = (Ok a, w').
Proof.
  unfold mwrap. destruct (c w) as [[x|e|p] w1]; simpl; intros H; try discriminate.
  exact H.
Qed.

Lemma lift_Ok {A} (o : outcome A) (w w' : World) (a : A) :
  lift o w = (Ok a, w') -> o = Ok a /\ w' = w.
Proof. unfold lift. intros [= -> ->]. auto. Qed.

Lemma mret_Ok {A} (x a : A) (w w' : World) :
  mret x w = (Ok a, w') -> a = x /\ w' = w.
Proof. unfold mret. intros [= -> ->]. auto. Qed.

End Inversion.

(** Breaks a successful run of a sequence of calls into its steps. *)
Ltac steps :=
  repeat match goal with
         | H : mbind _ _ _ = (Ok _, _) |- _ =>
             apply mbind_Ok in H; destruct H as (? & ? & ? & H)
         | H : mwrap _ _ _ = (Ok _, _) |- _ => apply mwrap_Ok in H
         | H : lift _ _ = (Ok _, _) |- _ =>
             apply lift_Ok in H; destruct H as [H ?]; subst
         | H : mret _ _ = (Ok _, _) |- _ =>
             apply mret_Ok in H; destruct H as [? ?]; subst
         | H : owrap _ _ = Ok _ |- _ => apply owrap_Ok in H
         | H : outcome_of_result _ = Ok _ |- _ => apply outcome_of_result_Ok in H
         | H : obind _ _ = Ok _ |- _ =>
             apply obind_Ok in H; destruct H as (? & ? & H)
         end.

(** ** The state objects *)

(** C1. [CanTransitionTo] is exactly the successor table: Null goes to
    Invited and Requested, Invited to Requested, Requested to Responded,
    Responded to Completed, and Completed, Abandoned and NoOp go
    nowhere. *)
Theorem CanTransitionTo_successor_table :
  (forall s s',
      CanTransitionTo s s' = true <->
      (s = null /\ (s' = invited \/ s' = requested))
      \/ (s = invited /\ s' = requested)
      \/ (s = requested /\ s' = responded)
      \/ (s = responded /\ s' = completed))
  /\ (forall s', CanTransitionTo completed s' = false
                /\ CanTransitionTo abandoned s' = false
                /\ CanTransitionTo noOp s' = false).
Proof.
  split.
  - intros s s'; destruct s, s'; cbn; split; intros H;
      try discriminate H; try reflexivity;
      try (intuition congruence).
  - intros s'. repeat split.
Qed.

(** C9. [stateFromName] applied to the name of any of the seven state
    objects succeeds and returns that state. *)
Theorem stateFromName_of_Name (s : state) : stateFromName (Name s) = Ok s.
Proof. destruct s; reflexivity. Qed.

(** ** The timestamp prefix *)

Lemma to_N_byte_of_N (n : N) : Byte.to_N (byte_of_N n) = (n mod 256)%N.
Proof.
  unfold byte_of_N. destruct (Byte.of_N (n mod 256)) as [b|] eqn:E.
  - apply Byte.to_of_N. exact E.
  - apply Byte.of_N_None_iff in E. pose proof (N.mod_lt n 256). lia.
Qed.

Lemma BigEndian_PutUint64_length (v : N) :
  length (BigEndian_PutUint64 v) = timestamplen.
Proof. reflexivity. Qed.

Lemma big_endian_step (y m : N) :
  ((y / 256) mod m * 256 + y mod 256 = y mod (256 * m))%N.
Proof. rewrite N.Div0.mod_mul_r. lia. Qed.

(** The eight bytes written by [BigEndian_PutUint64], read most
    significant byte first, denote the low 64 bits of the argument. *)
Lemma BigEndian_PutUint64_value (v : N) :
  BigEndian_value (BigEndian_PutUint64 v) = (v mod 2 ^ 64)%N.
Proof.
  unfold BigEndian_value, BigEndian_PutUint64. cbn [map fold_left].
  rewrite !to_N_byte_of_N, !N.shiftr_div_pow2. cbn [N.mul].
  rewrite N.add_0_l.
  replace (v / 2 ^ 56)%N with (v / 2 ^ 48 / 256)%N
    by (rewrite N.Div0.div_div; reflexivity).
  rewrite big_endian_step.
  replace (v / 2 ^ 48)%N with (v / 2 ^ 40 / 256)%N
    by (rewrite N.Div0.div_div; reflexivity).
  rewrite big_endian_step.
  replace (v / 2 ^ 40)%N with (v / 2 ^ 32 / 256)%N
    by (rewrite N.Div0.div_div; reflexivity).
  rewrite big_endian_step.
  replace (v / 2 ^ 32)%N with (v / 2 ^ 24 / 256)%N
    by (rewrite N.Div0.div_div; reflexivity).
  rewrite big_endian_step.
  replace (v / 2 ^ 24)%N with (v / 2 ^ 16 / 256)%N
    by (rewrite N.Div0.div_div; reflexivity).
  rewrite big_endian_step.
  replace (v / 2 ^ 16)%N with (v / 2 ^ 8 / 256)%N
    by (rewrite N.Div0.div_div; reflexivity).
  rewrite big_endian_step.
  replace (v / 2 ^ 8)%N with (v / 2 ^ 0 / 256)%N
    by (rewrite N.Div0.div_div; reflexivity).
  rewrite big_endian_step.
  change (2 ^ 0)%N with 1%N. rewrite N.div_1_r. reflexivity.
Qed.

(** ** The connection-signature codec *)

Section Codec.

Context {World KeyHandle : Type}.
Variable P : packages World KeyHandle.
Variable ctx : context World KeyHandle.

(** The steps of a successful [prepareConnectionSignature]. *)
Lemma prepareConnectionSignature_Ok connection invitationID w sig w' :
  prepareConnectionSignature P ctx connection invitationID w = (Ok sig, w') ->
  exists payload now w1 didKey w2 pubKeyBytes kid kh w3 signature,
    json_Marshal P connection = Return payload
    /\ getEpochTime P w = (Ok now, w1)
    /\ getVerKey P ctx invitationID w1 = (Ok didKey, w2)
    /\ PubKeyFromDIDKey P didKey = Return pubKeyBytes
    /\ CreateKID P pubKeyBytes ED25519Type = Return kid
    /\ kms_Get ctx kid w2 = (Ok kh, w3)
    /\ crypto_Sign ctx (BigEndian_PutUint64 (uint64_of_int64 now) ++ payload)%list kh w3
       = (Ok signature, w')
    /\ sig = ConnectionSignature.mk
               "https://didcomm.org/signature/1.0/ed25519Sha512_single"
               (URLEncoding_EncodeToString P
                  (BigEndian_PutUint64 (uint64_of_int64 now) ++ payload)%list)
               didKey
               (URLEncoding_EncodeToString P signature).
Proof.
  unfold prepareConnectionSignature. intros H. steps.
  repeat eexists; eauto.
Qed.

(** Verification of a well-formed signature object. *)
Lemma verifySignature_accepts (sigData signature pubKey : list byte)
    (cs : ConnectionSignature.t) (recipientKeys : string) (payload : list byte)
    (conn : Connection.t) (stamp : list byte) :
  URLEncoding_DecodeString P (ConnectionSignature.SignedData cs) = Return sigData ->
  URLEncoding_DecodeString P (ConnectionSignature.Signature cs) = Return signature ->
  PubKeyFromDIDKey P recipientKeys = Return pubKey ->
  signatureSuite_Verify P (PublicKey.mk (kms_ED25519 P) pubKey) sigData signature = None ->
  sigData = (stamp ++ payload)%list ->
  length stamp = timestamplen ->
  payload <> [] ->
  json_Unmarshal P payload = Return conn ->
  verifySignature P (Some cs) recipientKeys = Ok conn.
Proof.
  intros Hdata Hsig Hkey Hver -> Hlen Hne Hjson.
  unfold verifySignature. cbn [deref obind].
  rewrite Hdata. cbn [owrap obind outcome_of_result].
  assert (Hlong : (timestamplen < length (stamp ++ payload))%nat).
  { rewrite length_app, Hlen. destruct payload; [congruence | cbn [length]; lia]. }
  destruct (Nat.eqb_spec (length (stamp ++ payload)) 0) as [E|_]; [lia|].
  rewrite Hsig. cbn [owrap obind outcome_of_result]. rewrite Hkey. cbn [owrap obind outcome_of_result].
  rewrite Hver.
  destruct (Nat.leb_spec (length (stamp ++ payload)) timestamplen) as [E|_]; [lia|].
  rewrite <- Hlen, skipn_app, skipn_all, Nat.sub_diag. cbn [skipn app].
  rewrite Hjson. reflexivity.
Qed.

(** C2. Whenever [prepareConnectionSignature] produces a signature for a
    connection [c], with collaborators whose base64 and JSON codecs round
    trip and whose verifier accepts what the crypto service signs,
    [verifySignature] under the invitation recipient key (the key that
    [getVerKey] returned for the invitation) succeeds and returns [c], and
    the decoded [SignedData] is longer than 8 bytes. *)
Theorem sign_then_verify_returns_connection (c : Connection.t) (invitationID : string)
    (w w' : World) (sig : ConnectionSignature.t) :
  base64_roundtrip P ->
  json_roundtrip P ->
  crypto_correct P ctx ->
  prepareConnectionSignature P ctx c invitationID w = (Ok sig, w') ->
  exists K wa wb sigData,
    getVerKey P ctx invitationID wa = (Ok K, wb)
    /\ ConnectionSignature.SignVerKey sig = K
    /\ verifySignature P (Some sig) K = Ok c
    /\ URLEncoding_DecodeString P (ConnectionSignature.SignedData sig) = Return sigData
    /\ (8 < length sigData)%nat.
Proof.
  intros Hb64 Hjson Hcrypto Hrun.
  apply prepareConnectionSignature_Ok in Hrun.
  destruct Hrun as (payload & now & w1 & didKey & w2 & pub & kid & kh & w3 & sg
                    & Hmarshal & Hnow & Hkey & Hpub & Hkid & Hget & Hsign & ->).
  destruct (Hjson _ _ Hmarshal) as [Hne Hun].
  exists didKey, w1, w2, (BigEndian_PutUint64 (uint64_of_int64 now) ++ payload)%list.
  split; [exact Hkey|]. split; [reflexivity|]. split; [|split].
  - eapply verifySignature_accepts; cbn [ConnectionSignature.SignedData
                                          ConnectionSignature.Signature].
    + apply Hb64.
    + apply Hb64.
    + exact Hpub.
    + eapply Hcrypto; eassumption.
    + reflexivity.
    + apply BigEndian_PutUint64_length.
    + exact Hne.
    + exact Hun.
  - apply Hb64.
  - rewrite length_app, BigEndian_PutUint64_length.
    destruct payload; [congruence | unfold timestamplen; cbn [length]; lia].
Qed.

(** C8. The [SignedData] of a produced signature is the base64url
    encoding of the eight-byte big-endian timestamp followed by the JSON
    of the connection. At the timestamp 1000000000, for the connection
    with DID [did:peer:abc], the first eight decoded bytes are
    [00 00 00 00 3B 9A CA 00], and verification under the same key gives
    the connection back. *)
Theorem SignedData_is_timestamp_then_json (c : Connection.t) (invitationID : string)
    (w w' : World) (sig : ConnectionSignature.t) :
  prepareConnectionSignature P ctx c invitationID w = (Ok sig, w') ->
  exists payload now w1,
    json_Marshal P c = Return payload
    /\ time_Now_Unix P w = (Ok now, w1)
    /\ ConnectionSignature.SignedData sig
       = URLEncoding_EncodeToString P
           (BigEndian_PutUint64 (uint64_of_int64 now) ++ payload)%list
    /\ length (BigEndian_PutUint64 (uint64_of_int64 now)) = 8%nat
    /\ BigEndian_value (BigEndian_PutUint64 (uint64_of_int64 now))
       = uint64_of_int64 now
    /\ (now = 1000000000%Z ->
        c = Connection.mk "did:peer:abc" None ->
        base64_roundtrip P -> json_roundtrip P -> crypto_correct P ctx ->
        exists sigData,
          URLEncoding_DecodeString P (ConnectionSignature.SignedData sig) = Return sigData
          /\ firstn 8 sigData = [x00; x00; x00; x00; x3b; x9a; xca; x00]
          /\ verifySignature P (Some sig) (ConnectionSignature.SignVerKey sig) = Ok c).
Proof.
  intros Hrun.
  pose proof (prepareConnectionSignature_Ok _ _ _ _ _ Hrun) as Hsteps.
  destruct Hsteps as (payload & now & w1 & didKey & w2 & pub & kid & kh & w3 & sg
                      & Hmarshal & Hnow & Hkey & Hpub & Hkid & Hget & Hsign & Hsig).
  exists payload, now, w1.
  split; [exact Hmarshal|]. split; [exact Hnow|].
  split; [rewrite Hsig; reflexivity|].
  split; [apply BigEndian_PutUint64_length|].
  split.
  { rewrite BigEndian_PutUint64_value. apply N.mod_small.
    unfold uint64_of_int64.
    pose proof (Z.mod_pos_bound now (2 ^ 64) ltac:(lia)) as Hb.
    change (2 ^ 64)%N with (Z.to_N (2 ^ 64)). apply Z2N.inj_lt; lia. }
  intros Hat Hc Hb64 Hjson Hcrypto.
  destruct (Hjson _ _ Hmarshal) as [Hne Hun].
  exists (BigEndian_PutUint64 (uint64_of_int64 now) ++ payload)%list.
  rewrite Hsig. cbn [ConnectionSignature.SignedData ConnectionSignature.SignVerKey].
  split; [apply Hb64|]. split.
  - rewrite Hat. reflexivity.
  - eapply verifySignature_accepts; cbn [ConnectionSignature.SignedData
                                          ConnectionSignature.Signature].
    + apply Hb64.
    + apply Hb64.
    + exact Hpub.
    + eapply Hcrypto; eassumption.
    + reflexivity.
    + apply BigEndian_PutUint64_length.
    + exact Hne.
    + exact Hun.
Qed.

End Codec.

(** ** Signature verification *)

Section Verification.

Context {World KeyHandle : Type}.
Variable P : packages World KeyHandle.

(** C3. The result of [verifySignature] depends only on [SignedData],
    [Signature] and the recipient key it is given: two signature objects
    that differ in [SignVerKey] (or in [Type]) verify alike, so changing
    [SignVerKey] alone cannot turn a failure into a success. The same
    holds for [handleInboundResponse], which verifies under the first
    recipient key of the connection record it loads. *)
Theorem verifySignature_ignores_SignVerKey :
  (forall type type' signedData signVerKey signVerKey' signature recipientKeys,
      verifySignature P
        (Some (ConnectionSignature.mk type signedData signVerKey signature))
        recipientKeys
      = verifySignature P
          (Some (ConnectionSignature.mk type' signedData signVerKey' signature))
          recipientKeys)
  /\ (forall (ctx : context World KeyHandle) type id thread did attach
             sigType signedData signVerKey signVerKey' signature w,
         handleInboundResponse P ctx
           (Response.mk type id thread
              (Some (ConnectionSignature.mk sigType signedData signVerKey signature))
              did attach) w
         = handleInboundResponse P ctx
             (Response.mk type id thread
                (Some (ConnectionSignature.mk sigType signedData signVerKey' signature))
                did attach) w).
Proof. split; reflexivity. Qed.

(** C4, as the code has it. A signature object whose decoded
    [SignedData] has at most 8 bytes is always rejected. When the decoded
    data is empty the message is "missing or invalid signature data".
    When it has between 1 and 8 bytes and the signature decodes, the
    recipient key parses and the signature verifies, the message is
    "missing connection attribute bytes". *)
Theorem short_SignedData_is_rejected (cs : ConnectionSignature.t)
    (recipientKeys : string) (sigData : list byte) :
  URLEncoding_DecodeString P (ConnectionSignature.SignedData cs) = Return sigData ->
  (length sigData <= 8)%nat ->
  exists e,
    verifySignature P (Some cs) recipientKeys = Err e
    /\ (sigData = [] -> Error e = "missing or invalid signature data")
    /\ (sigData <> [] ->
        forall signature pubKey,
          URLEncoding_DecodeString P (ConnectionSignature.Signature cs)
          = Return signature ->
          PubKeyFromDIDKey P recipientKeys = Return pubKey ->
          signatureSuite_Verify P (PublicKey.mk (kms_ED25519 P) pubKey) sigData signature
          = None ->
          Error e = "missing connection attribute bytes").
Proof.
  intros Hdata Hlen. unfold verifySignature. cbn [deref obind].
  rewrite Hdata. cbn [owrap obind outcome_of_result].
  destruct sigData as [|b sigData].
  { cbn. eexists. split; [reflexivity|]. split; [reflexivity | congruence]. }
  cbn [length Nat.eqb].
  destruct (URLEncoding_DecodeString P (ConnectionSignature.Signature cs))
    as [signature|e1]; cbn [owrap obind outcome_of_result].
  2:{ eexists. split; [reflexivity|]. split; [discriminate|]. discriminate. }
  destruct (PubKeyFromDIDKey P recipientKeys) as [pubKey|e2];
    cbn [owrap obind outcome_of_result].
  2:{ eexists. split; [reflexivity|]. split; [discriminate|]. discriminate. }
  destruct (signatureSuite_Verify P (PublicKey.mk (kms_ED25519 P) pubKey)
              (b :: sigData) signature) as [e3|] eqn:Hver.
  { eexists. split; [reflexivity|]. split; [discriminate|].
    intros _ s p [= <-] [= <-] Hnone. congruence. }
  destruct (Nat.leb_spec (S (length sigData)) timestamplen) as [_|Hgt].
  - eexists. split; [reflexivity|]. split; [discriminate|]. reflexivity.
  - unfold timestamplen in Hgt. cbn [length] in Hlen. lia.
Qed.

End Verification.

(** C4, as stated, fails: with an empty [SignedData] the message is not
    "missing connection attribute bytes". *)
Lemma short_SignedData_message_differs :
  ~ (forall (cs : ConnectionSignature.t) (recipientKeys : string) (sigData : list byte),
        URLEncoding_DecodeString Demo.P (ConnectionSignature.SignedData cs)
        = Return sigData ->
        (length sigData <= 8)%nat ->
        exists e,
          verifySignature Demo.P (Some cs) recipientKeys = Err e
          /\ Error e = "missing connection attribute bytes").
Proof.
  intros claim.
  destruct (claim (ConnectionSignature.mk "" "" "" "") Demo.inviterKey []
              eq_refl (Nat.le_0_l 8)) as (e & Hrun & Hmsg).
  vm_compute in Hrun. injection Hrun as <-. discriminate Hmsg.
Qed.

Lemma short_SignedData_is_rejected_witness :
  let stamp := [x00; x00; x00; x00; x3b; x9a; xca; x00] in
  let cs :=
    ConnectionSignature.mk ""
      (URLEncoding_EncodeToString Demo.P stamp) ""
      (URLEncoding_EncodeToString Demo.P (Demo.sign stamp (list_byte_of_string "k"))) in
  exists e,
    verifySignature Demo.P (Some cs) "did:key:k" = Err e
    /\ Error e = "missing connection attribute bytes".
Proof.
  intros stamp cs.
  destruct (short_SignedData_is_rejected Demo.P cs "did:key:k" stamp)
    as (e & Hrun & _ & Hmsg).
  - vm_compute. reflexivity.
  - cbn [length stamp]. lia.
  - exists e. split; [exact Hrun|].
    apply (Hmsg ltac:(discriminate) (Demo.sign stamp (list_byte_of_string "k"))
             (list_byte_of_string "k")); vm_compute; reflexivity.
Defined.

(** ** The verification-key resolver *)

Section Resolver.

Context {World KeyHandle : Type}.
Variable P : packages World KeyHandle.
Variable ctx : context World KeyHandle.

Lemma isDID_not_empty (str : string) : isDID str = true -> (str =? "") = false.
Proof. destruct str; [discriminate | reflexivity]. Qed.

Lemma getVerKeyFromOOBInvitation_misses invitationID w w1 :
  oob_lookup_misses P ctx invitationID w w1 ->
  getVerKeyFromOOBInvitation P ctx invitationID w = (Err errVerKeyNotFound, w1).
Proof.
  unfold getVerKeyFromOOBInvitation.
  intros [(e & -> & ->) | (oob & -> & Hty)]; [reflexivity|].
  apply String.eqb_neq in Hty. rewrite Hty. reflexivity.
Qed.

Lemma getVerKey_falls_back invitationID w w1 :
  oob_lookup_misses P ctx invitationID w w1 ->
  getVerKey P ctx invitationID w
  = mbind (if isDID invitationID
           then mret (Invitation.mk invitationID invitationID [] "" [])
           else mwrap ("get invitation for signature [invitationID=" ++ invitationID
                       ++ "]: ")
                  (connectionRecorder_GetInvitation ctx invitationID))
      (fun invitation =>
         mwrap "get invitation recipient key: "
           (getInvitationRecipientKey P ctx invitation)) w1.
Proof.
  intros Hmiss. unfold getVerKey.
  rewrite (getVerKeyFromOOBInvitation_misses _ _ _ Hmiss). reflexivity.
Qed.

Lemma getInvitationRecipientKey_resolves invitation w doc w' dest key rest :
  Invitation.DID invitation <> "" ->
  vdRegistry_Resolve ctx (Invitation.DID invitation) w = (Ok doc, w') ->
  CreateDestination P doc = Return dest ->
  Destination.RecipientKeys dest = key :: rest ->
  getInvitationRecipientKey P ctx invitation w = (Ok key, w').
Proof.
  intros Hdid Hres Hdest Hkeys. unfold getInvitationRecipientKey.
  apply String.eqb_neq in Hdid. rewrite Hdid. cbn [negb].
  unfold mbind, mwrap. rewrite Hres. cbn.
  unfold recipientKey. rewrite Hdest. cbn. rewrite Hkeys. reflexivity.
Qed.

Lemma getInvitationRecipientKey_inline invitation w key rest :
  Invitation.DID invitation = "" ->
  Invitation.RecipientKeys invitation = key :: rest ->
  getInvitationRecipientKey P ctx invitation w = (Ok key, w).
Proof.
  intros Hdid Hkeys. unfold getInvitationRecipientKey.
  rewrite Hdid, Hkeys. reflexivity.
Qed.

(** C5. The order in which [getVerKey] resolves the key.
    - An out-of-band invitation of the out-of-band type: the first
      recipient key of its service block.
    - No entry, or an entry of another type: for an id starting with
      [did:], the invitation [{ID = id, DID = id}]; otherwise the legacy
      invitation loaded from the store. Then, for an invitation with a
      DID, the first recipient key of the destination of the resolved
      document; without a DID, the invitation's first recipient key.
    - Any other error of the out-of-band lookup: an error. *)
Theorem getVerKey_resolution_order (invitationID : string) (w : World) :
  (forall oob w1 svc w2 key rest,
      connectionRecorder_GetInvitation_OOB ctx invitationID w = (Ok oob, w1) ->
      OOBInvitation.Type_ oob = oobMsgType P ->
      getServiceBlock P ctx oob w1 = (Ok svc, w2) ->
      Service.RecipientKeys svc = key :: rest ->
      getVerKey P ctx invitationID w = (Ok key, w2))
  /\ (forall w1,
         oob_lookup_misses P ctx invitationID w w1 ->
         (isDID invitationID = true ->
          getVerKey P ctx invitationID w
          = mwrap "get invitation recipient key: "
              (getInvitationRecipientKey P ctx
                 (Invitation.mk invitationID invitationID [] "" [])) w1
          /\ forall doc w2 dest key rest,
              vdRegistry_Resolve ctx invitationID w1 = (Ok doc, w2) ->
              CreateDestination P doc = Return dest ->
              Destination.RecipientKeys dest = key :: rest ->
              getVerKey P ctx invitationID w = (Ok key, w2))
         /\ (isDID invitationID = false ->
             (forall e w2,
                 connectionRecorder_GetInvitation ctx invitationID w1 = (Err e, w2) ->
                 exists e', getVerKey P ctx invitationID w = (Err e', w2))
             /\ (forall invitation w2,
                    connectionRecorder_GetInvitation ctx invitationID w1
                    = (Ok invitation, w2) ->
                    (Invitation.DID invitation <> "" ->
                     forall doc w3 dest key rest,
                       vdRegistry_Resolve ctx (Invitation.DID invitation) w2
                       = (Ok doc, w3) ->
                       CreateDestination P doc = Return dest ->
                       Destination.RecipientKeys dest = key :: rest ->
                       getVerKey P ctx invitationID w = (Ok key, w3))
                    /\ (Invitation.DID invitation = "" ->
                        forall key rest,
                          Invitation.RecipientKeys invitation = key :: rest ->
                          getVerKey P ctx invitationID w = (Ok key, w2)))))
  /\ (forall e w1,
         connectionRecorder_GetInvitation_OOB ctx invitationID w = (Err e, w1) ->
         errors_Is e ErrDataNotFound = false ->
         errors_Is e errVerKeyNotFound = false ->
         exists e', getVerKey P ctx invitationID w = (Err e', w1)).
Proof.
  split; [|split].
  - intros oob w1 svc w2 key rest Hget Hty Hsvc Hkeys.
    unfold getVerKey, getVerKeyFromOOBInvitation. rewrite Hget.
    apply String.eqb_eq in Hty. rewrite Hty. cbn [negb].
    unfold resolveVerKey, mwrap, mbind. rewrite Hsvc. cbn.
    rewrite Hkeys. reflexivity.
  - intros w1 Hmiss. rewrite (getVerKey_falls_back _ _ _ Hmiss). split.
    + intros Hdid. rewrite Hdid. split; [reflexivity|].
      intros doc w2 dest key rest Hres Hdest Hkeys.
      unfold mbind, mwrap. cbn [mret].
      rewrite (getInvitationRecipientKey_resolves _ w1 doc w2 dest key rest);
        try assumption; [reflexivity|].
      cbn [Invitation.DID]. intros ->. discriminate Hdid.
    + intros Hdid. rewrite Hdid. split.
      * intros e w2 Hload. unfold mbind, mwrap. rewrite Hload. cbn. eauto.
      * intros invitation w2 Hload. split.
        -- intros Hnz doc w3 dest key rest Hres Hdest Hkeys.
           unfold mbind, mwrap. rewrite Hload. cbn [owrap].
           rewrite (getInvitationRecipientKey_resolves _ w2 doc w3 dest key rest);
             try assumption. reflexivity.
        -- intros Hz key rest Hkeys.
           unfold mbind, mwrap. rewrite Hload. cbn [owrap].
           rewrite (getInvitationRecipientKey_inline _ w2 key rest); try assumption.
           reflexivity.
  - intros e w1 Hget Hnf Hvk.
    unfold getVerKey, getVerKeyFromOOBInvitation. rewrite Hget, Hnf.
    cbn [errors_Is]. destruct (error_eq_dec _ _) as [E|_]; [discriminate E|].
    rewrite Hvk. cbn [negb]. eauto.
Qed.

End Resolver.

(** ** Executing a state *)

Section Execution.

Context {World KeyHandle : Type}.
Variable P : packages World KeyHandle.
Variable ctx : context World KeyHandle.

Lemma switch_string_default {A} (x : string) (cases : list (string * A)) (default : A) :
  forallb (fun c => negb (x =? fst c)) cases = true ->
  switch_string x cases default = default.
Proof.
  induction cases as [|[c a] cases IH]; [reflexivity|].
  cbn [forallb fst switch_string]. intros H.
  apply andb_true_iff in H. destruct H as [Hc Hrest].
  apply negb_true_iff in Hc. rewrite Hc. apply IH. exact Hrest.
Qed.

Lemma distinct_Response_not_invitation :
  msg_types_distinct P ->
  (ResponseMsgType P =? InvitationMsgType P) = false
  /\ (ResponseMsgType P =? oobMsgType P) = false.
Proof.
  unfold msg_types_distinct. intros Hd.
  inversion Hd as [|? ? Hinv Hd1]; subst.
  inversion Hd1 as [|? ? Hoob Hd2]; subst.
  split; apply String.eqb_neq; intros E.
  - apply Hinv. rewrite <- E. cbn. auto.
  - apply Hoob. rewrite <- E. cbn. auto.
Qed.

(** C6, as the code has it. In the states Invited, Requested, Responded
    and Completed a message whose type the state has no case for is
    answered with the error "illegal msg type <msg.Type()> for state
    <name>", no record, no next state and no action, and nothing outside
    changes; for Invited given a Response, <msg.Type()> is the response
    message type string. NoOp and Abandoned answer every message with
    "cannot execute no-op" and "not implemented". *)
Theorem ExecuteInbound_rejects_unexpected_type (msg : stateMachineMsg.t)
    (thid : string) (w : World) :
  (forall s,
      In s [invited; requested; responded; completed] ->
      accepts P s (stateMachineMsg.Type_ msg) = false ->
      ExecuteInbound P ctx s msg thid w
      = (Ok (mkExecuted None None None
               (Some (errorString ("illegal msg type " ++ stateMachineMsg.Type_ msg
                                   ++ " for state " ++ Name s)))), w))
  /\ (msg_types_distinct P ->
      stateMachineMsg.Type_ msg = ResponseMsgType P ->
      ExecuteInbound P ctx invited msg thid w
      = (Ok (mkExecuted None None None
               (Some (errorString ("illegal msg type " ++ ResponseMsgType P
                                   ++ " for state invited")))), w))
  /\ ExecuteInbound P ctx noOp msg thid w
     = (Ok (mkExecuted None None None (Some (errorString "cannot execute no-op"))), w)
  /\ ExecuteInbound P ctx abandoned msg thid w
     = (Ok (mkExecuted None None None (Some (errorString "not implemented"))), w).
Proof.
  split; [|split; [|split; reflexivity]].
  - intros s Hs Hacc. cbn [In] in Hs.
    destruct Hs as [<-|[<-|[<-|[<-|[]]]]]; cbn [accepts] in Hacc;
      repeat (apply orb_false_iff in Hacc; destruct Hacc as [Hacc ?]);
      cbn [ExecuteInbound].
    + unfold invited_ExecuteInbound. rewrite Hacc, H. reflexivity.
    + unfold requested_ExecuteInbound. rewrite switch_string_default; [reflexivity|].
      cbn [forallb fst]. rewrite Hacc, H, H0. reflexivity.
    + unfold responded_ExecuteInbound. rewrite switch_string_default; [reflexivity|].
      cbn [forallb fst]. rewrite Hacc, H, H0. reflexivity.
    + unfold completed_ExecuteInbound. rewrite switch_string_default; [reflexivity|].
      cbn [forallb fst]. rewrite Hacc, H, H0. reflexivity.
  - intros Hd Hty. destruct (distinct_Response_not_invitation Hd) as [H1 H2].
    cbn [ExecuteInbound]. unfold invited_ExecuteInbound, illegal_msg_type.
    rewrite Hty, H1, H2. reflexivity.
Qed.

(** C7 at the Null state: its [ExecuteInbound] succeeds with an empty
    record and the NoOp state, and the action it returns is nil, not a
    callable no-op. *)
Theorem null_ExecuteInbound_returns_nil_action (msg : stateMachineMsg.t)
    (thid : string) (w : World) :
  exists r,
    ExecuteInbound P ctx null msg thid w = (Ok r, w)
    /\ ret_err r = None
    /\ ret_connRecord r = Some ConnRecord.zero
    /\ ret_state r = Some noOp
    /\ ret_action r = None.
Proof. eexists. repeat split. Qed.

(** C10. Outside the interop path [prepareResponse] reads
    [request.Thread.PID] whether or not [request.Thread] is nil. With a
    nil [Thread] it panics with a nil dereference once the response id is
    drawn and never returns a response or an error of its own, and
    [handleInboundRequest] panics likewise when the steps before
    [prepareResponse] succeed, and never succeeds. With a [Thread] the
    parent thread id read is that thread's [PID]. *)
Theorem prepareResponse_dereferences_Thread (request : Request.t)
    (responseDidDoc : Doc.t) (responseConnection : Connection.t) (w : World) :
  doACAPyInterop ctx = false ->
  (Request.Thread request = None ->
   (forall id w1,
       uuid_New_String P w = (Ok id, w1) ->
       prepareResponse P ctx request responseDidDoc responseConnection w
       = (Panic NilDereference, w1))
   /\ (forall response w',
          prepareResponse P ctx request responseDidDoc responseConnection w
          <> (Ok response, w'))
   /\ (forall options connRec result w',
          handleInboundRequest P ctx request options connRec w <> (Ok result, w'))
   /\ (forall options connRec requestConnection requestDidDoc w1 myDoc myConnection w2
              senderVerKey id w3,
          getRequestConnection P request = Ok requestConnection ->
          resolveDidDocFromConnection P ctx requestConnection w = (Ok requestDidDoc, w1) ->
          getDIDDocAndConnection P ctx (getPublicDID options)
            (getRouterConnections options) w1 = (Ok (myDoc, myConnection), w2) ->
          recipientKey P myDoc = Ok senderVerKey ->
          uuid_New_String P w2 = (Ok id, w3) ->
          handleInboundRequest P ctx request options connRec w
          = (Panic NilDereference, w3)))
  /\ (forall thread,
         Request.Thread request = Some thread ->
         prepareResponse P ctx request responseDidDoc responseConnection w
         = mbind (uuid_New_String P) (fun id =>
             mbind (mwrap "connection signature: "
                      (prepareConnectionSignature P ctx responseConnection
                         (Thread.PID thread)))
               (fun encodedConnectionSignature =>
                  mret (Response.mk (ResponseMsgType P) id
                          (Some (Thread.mk (Request.ID request) (Thread.PID thread)))
                          (Some encodedConnectionSignature) "" None))) w).
Proof.
  intros Hinterop. split.
  - intros Hnil.
    assert (Hpanic : forall id w1,
               uuid_New_String P w = (Ok id, w1) ->
               prepareResponse P ctx request responseDidDoc responseConnection w
               = (Panic NilDereference, w1)).
    { intros id w1 Hid. unfold prepareResponse, mbind.
      rewrite Hid, Hnil, Hinterop. reflexivity. }
    assert (Hnever : forall response w',
               prepareResponse P ctx request responseDidDoc responseConnection w
               <> (Ok response, w')).
    { intros response w' Hrun. unfold prepareResponse in Hrun.
      apply mbind_Ok in Hrun. destruct Hrun as (id & w1 & _ & Hrun).
      rewrite Hnil, Hinterop in Hrun.
      apply mbind_Ok in Hrun. destruct Hrun as (t & w2 & Hderef & _).
      discriminate Hderef. }
    split; [exact Hpanic|]. split; [exact Hnever|]. split.
    + intros options connRec result w' Hrun. unfold handleInboundRequest in Hrun.
      rewrite Hinterop in Hrun.
      apply mbind_Ok in Hrun. destruct Hrun as (rc & w1 & _ & Hrun).
      apply mbind_Ok in Hrun. destruct Hrun as (rd & w2 & _ & Hrun).
      apply mbind_Ok in Hrun. destruct Hrun as ([d c] & w3 & _ & Hrun).
      apply mbind_Ok in Hrun. destruct Hrun as (k & w4 & _ & Hrun).
      apply mbind_Ok in Hrun. destruct Hrun as (d' & w5 & _ & Hrun).
      apply mbind_Ok in Hrun. destruct Hrun as (resp & w6 & Hprep & _).
      apply mwrap_Ok in Hprep. unfold prepareResponse in Hprep.
      apply mbind_Ok in Hprep. destruct Hprep as (id & w7 & _ & Hprep).
      rewrite Hnil, Hinterop in Hprep.
      apply mbind_Ok in Hprep. destruct Hprep as (t & w8 & Hderef & _).
      discriminate Hderef.
    + intros options connRec rc rd w1 d c w2 k id w3 Hrc Hrd Hdoc Hkey Hid.
      unfold handleInboundRequest, mbind, mwrap, lift.
      rewrite Hrc. cbn [owrap]. rewrite Hrd. cbn [owrap]. rewrite Hdoc. cbn [owrap].
      rewrite Hkey. cbn [owrap]. rewrite Hinterop. cbn [mret].
      unfold prepareResponse, mbind. rewrite Hid, Hnil, Hinterop. reflexivity.
  - intros thread Hthread. unfold prepareResponse. rewrite Hthread, Hinterop.
    reflexivity.
Qed.

End Execution.

(** C6, as stated, fails: the Abandoned state answers a message it has
    no case for with "not implemented", which is not of the form
    "illegal msg type ... for state ...". *)
Lemma illegal_msg_type_pattern_fails_in_abandoned :
  ~ (forall (s : state) (msg : stateMachineMsg.t) (thid : string) (w : Demo.World),
        accepts Demo.P s (stateMachineMsg.Type_ msg) = false ->
        exists r w',
          ExecuteInbound Demo.P Demo.ctx s msg thid w = (Ok r, w')
          /\ option_map Error (ret_err r)
             = Some ("illegal msg type " ++ stateMachineMsg.Type_ msg
                     ++ " for state " ++ Name s)).
Proof.
  intros claim.
  destruct (claim abandoned
              (stateMachineMsg.mk (DIDCommMsg.mk (ResponseMsgType Demo.P) []) None None)
              "thread-1" Demo.w0 eq_refl) as (r & w' & Hrun & Hmsg).
  cbn in Hrun. injection Hrun as <- <-. discriminate Hmsg.
Qed.

(** ** The actions of the other states *)

Section Actions.

Context {World KeyHandle : Type}.
Variable P : packages World KeyHandle.
Variable ctx : context World KeyHandle.

Ltac handler_steps :=
  repeat (steps;
          match goal with
          | H : (let (_, _) := ?x in _) _ = (Ok _, _) |- _ => destruct x
          end);
  steps.

Lemma handleInboundOOBInvitation_sends msg thid options w action record w' :
  handleInboundOOBInvitation P ctx msg thid options w = (Ok (action, record), w') ->
  sends_once ctx action.
Proof.
  unfold handleInboundOOBInvitation, sends_once. intros H. handler_steps.
  match goal with H : (_, _) = (_, _) |- _ => injection H as -> -> end. eauto.
Qed.

Lemma handleInboundInvitation_sends invitation thid options connRec w action record w' :
  handleInboundInvitation P ctx invitation thid options connRec w
  = (Ok (action, record), w') ->
  sends_once ctx action.
Proof.
  unfold handleInboundInvitation, sends_once. intros H. handler_steps.
  match goal with H : (_, _) = (_, _) |- _ => injection H as -> -> end. eauto.
Qed.

Lemma handleInboundRequest_sends request options connRec w action record w' :
  handleInboundRequest P ctx request options connRec w = (Ok (action, record), w') ->
  sends_once ctx action.
Proof.
  unfold handleInboundRequest, sends_once. intros H. handler_steps.
  match goal with H : (_, _) = (_, _) |- _ => injection H as -> -> end. eauto.
Qed.

Lemma handleInboundResponse_sends response w action record w' :
  handleInboundResponse P ctx response w = (Ok (action, record), w') ->
  sends_once ctx action.
Proof.
  unfold handleInboundResponse, sends_once. intros H. handler_steps.
  match goal with H : (_, _) = (_, _) |- _ => injection H as -> -> end. eauto.
Qed.

Lemma try_or_fail_Ok {A} (text : string) (c : M World A)
    (k : A -> M World (executed (World := World))) w r w' :
  try_or_fail text c k w = (Ok r, w') ->
  ret_err r = None ->
  exists a w1, c w = (Ok a, w1) /\ k a w1 = (Ok r, w').
Proof.
  unfold try_or_fail. destruct (c w) as [[a|e|p] w1]; intros Hrun Herr.
  - eauto.
  - injection Hrun as <- <-. discriminate Herr.
  - discriminate Hrun.
Qed.

Ltac execution_steps :=
  repeat match goal with
         | H : try_or_fail _ _ _ _ = (Ok _, _), E : ret_err _ = None |- _ =>
             apply (fun H => try_or_fail_Ok _ _ _ _ _ _ H E) in H;
             destruct H as (? & ? & ? & H)
         | H : (let '(_, _) := ?x in _) _ = (Ok _, _) |- _ => destruct x
         | H : mret _ _ = (Ok _, _) |- _ =>
             apply mret_Ok in H; destruct H as [? ?]; subst
         end.

(** Every successful [ExecuteInbound] of a state other than Null returns
    an action that does nothing or sends exactly once. *)
Lemma ExecuteInbound_action_of_other_states s msg thid w r w' :
  s <> null ->
  ExecuteInbound P ctx s msg thid w = (Ok r, w') ->
  ret_err r = None ->
  noop_or_sends_once ctx (ret_action r).
Proof.
  intros Hs Hrun Herr. destruct s; cbn [ExecuteInbound] in Hrun.
  - injection Hrun as <- <-. discriminate Herr.
  - congruence.
  - unfold invited_ExecuteInbound in Hrun.
    destruct (_ && _) in Hrun; injection Hrun as <- <-;
      [discriminate Herr | left; reflexivity].
  - unfold requested_ExecuteInbound in Hrun. cbn [switch_string] in Hrun.
    repeat match type of Hrun with
           | (if ?b then _ else _) _ = _ => destruct b
           end; execution_steps.
    + right. eexists. split; [reflexivity|].
      eapply handleInboundOOBInvitation_sends; eassumption.
    + right. eexists. split; [reflexivity|].
      eapply handleInboundInvitation_sends; eassumption.
    + left. reflexivity.
    + discriminate Herr.
  - unfold responded_ExecuteInbound in Hrun. cbn [switch_string] in Hrun.
    repeat match type of Hrun with
           | (if ?b then _ else _) _ = _ => destruct b
           end; execution_steps.
    + right. eexists. split; [reflexivity|].
      eapply handleInboundRequest_sends; eassumption.
    + left. reflexivity.
    + left. reflexivity.
    + discriminate Herr.
  - unfold completed_ExecuteInbound in Hrun. cbn [switch_string] in Hrun.
    repeat match type of Hrun with
           | (if ?b then _ else _) _ = _ => destruct b
           end; execution_steps.
    + right. eexists. split; [reflexivity|].
      eapply handleInboundResponse_sends; eassumption.
    + left. reflexivity.
    + destruct (stateMachineMsg.connRecord msg); execution_steps; left; reflexivity.
    + discriminate Herr.
  - injection Hrun as <- <-. discriminate Herr.
Qed.

(** A successful [handleInboundResponse] has verified the response's
    signature under the first recipient key of the connection record it
    loaded by the namespaced thread id, and has written the verified
    connection's DID into the record. *)
Lemma handleInboundResponse_verifies_under_record_key response w action record w' :
  handleInboundResponse P ctx response w = (Ok (action, record), w') ->
  exists thread nsThID wa wb loaded key rest conn,
    Response.Thread response = Some thread
    /\ CreateNamespaceKey P (myNSPrefix P) (Thread.ID thread) = Return nsThID
    /\ connectionRecorder_GetConnectionRecordByNSThreadID ctx nsThID wa
       = (Ok loaded, wb)
    /\ ConnRecord.RecipientKeys loaded = key :: rest
    /\ verifySignature P (Response.ConnectionSignature response) key = Ok conn
    /\ record = ConnRecord.set_TheirDID loaded (Connection.DID conn).
Proof.
  unfold handleInboundResponse. intros H. handler_steps.
  match goal with H : (_, _) = (_, _) |- _ => injection H as -> -> end.
  match goal with H : deref _ = Ok _ |- _ =>
    destruct (Response.Thread response) as [thread|]; [injection H as ->|discriminate H]
  end.
  match goal with H : index0 ?keys = Ok _ |- _ =>
    destruct keys as [|key rest] eqn:Hkeys; [discriminate H | injection H as ->]
  end.
  repeat eexists; eauto.
Qed.

End Actions.

(** ** The theorems at concrete inputs *)

Lemma sign_then_verify_returns_connection_witness :
  prepareConnectionSignature Demo.P Demo.ctx Demo.abc "inv-1" Demo.w0
  = (Ok Demo.abcSignature, Demo.w0)
  /\ exists K wa wb sigData,
      getVerKey Demo.P Demo.ctx "inv-1" wa = (Ok K, wb)
      /\ ConnectionSignature.SignVerKey Demo.abcSignature = K
      /\ verifySignature Demo.P (Some Demo.abcSignature) K = Ok Demo.abc
      /\ URLEncoding_DecodeString Demo.P
           (ConnectionSignature.SignedData Demo.abcSignature) = Return sigData
      /\ (8 < length sigData)%nat.
Proof.
  split; [vm_compute; reflexivity|].
  apply (sign_then_verify_returns_connection Demo.P Demo.ctx Demo.abc "inv-1"
           Demo.w0 Demo.w0 Demo.abcSignature
           DemoFacts.base64_law DemoFacts.json_law DemoFacts.crypto_law).
  vm_compute. reflexivity.
Defined.

Lemma SignedData_is_timestamp_then_json_witness :
  exists sigData,
    URLEncoding_DecodeString Demo.P
      (ConnectionSignature.SignedData Demo.abcSignature) = Return sigData
    /\ firstn 8 sigData = [x00; x00; x00; x00; x3b; x9a; xca; x00]
    /\ verifySignature Demo.P (Some Demo.abcSignature)
         (ConnectionSignature.SignVerKey Demo.abcSignature) = Ok Demo.abc.
Proof.
  destruct (SignedData_is_timestamp_then_json Demo.P Demo.ctx Demo.abc "inv-1"
              Demo.w0 Demo.w0 Demo.abcSignature)
    as (payload & now & w1 & _ & Hnow & _ & _ & _ & Hexample).
  - vm_compute. reflexivity.
  - apply Hexample.
    + cbn in Hnow. injection Hnow as <- _. reflexivity.
    + reflexivity.
    + exact DemoFacts.base64_law.
    + exact DemoFacts.json_law.
    + exact DemoFacts.crypto_law.
Defined.

Lemma getVerKey_resolution_order_witness :
  getVerKey Demo.P Demo.ctx "oob-1" Demo.w0 = (Ok "did:key:inviter-key", Demo.w0)
  /\ getVerKey Demo.P Demo.ctx "did:peer:inviter" Demo.w0
     = (Ok "did:key:inviter-key", Demo.w0)
  /\ getVerKey Demo.P Demo.ctx "inv-2" Demo.w0 = (Ok "did:key:inviter-key", Demo.w0)
  /\ getVerKey Demo.P Demo.ctx "inv-1" Demo.w0 = (Ok "did:key:legacy-key", Demo.w0)
  /\ (exists e, getVerKey Demo.P Demo.ctx "nowhere" Demo.w0 = (Err e, Demo.w0))
  /\ (exists e, getVerKey Demo.P Demo.ctx "locked" Demo.w0 = (Err e, Demo.w0)).
Proof.
  assert (Hnone : forall id,
             connectionRecorder_GetInvitation_OOB Demo.ctx id Demo.w0
             = (Err ErrDataNotFound, Demo.w0) ->
             oob_lookup_misses Demo.P Demo.ctx id Demo.w0 Demo.w0).
  { intros id Hid. left. exists ErrDataNotFound. split; [exact Hid | reflexivity]. }
  assert (Hlegacy : forall id,
             connectionRecorder_GetInvitation_OOB Demo.ctx id Demo.w0
             = (Ok (OOBInvitation.mk Demo.legacyType (TargetOther "<nil>") "" []),
                Demo.w0) ->
             oob_lookup_misses Demo.P Demo.ctx id Demo.w0 Demo.w0).
  { intros id Hid. right. eexists. split; [exact Hid | vm_compute; discriminate]. }
  split; [|split; [|split; [|split; [|split]]]].
  - eapply (proj1 (getVerKey_resolution_order Demo.P Demo.ctx "oob-1" Demo.w0));
      vm_compute; reflexivity.
  - destruct (getVerKey_resolution_order Demo.P Demo.ctx "did:peer:inviter" Demo.w0)
      as (_ & Hfallback & _).
    destruct (Hfallback Demo.w0 (Hnone "did:peer:inviter" ltac:(vm_compute; reflexivity))) as [Hdid _].
    destruct (Hdid ltac:(vm_compute; reflexivity)) as [_ Hkey].
    eapply Hkey; vm_compute; reflexivity.
  - destruct (getVerKey_resolution_order Demo.P Demo.ctx "inv-2" Demo.w0)
      as (_ & Hfallback & _).
    destruct (Hfallback Demo.w0 (Hlegacy "inv-2" ltac:(vm_compute; reflexivity)))
      as [_ Hstore].
    destruct (Hstore ltac:(vm_compute; reflexivity)) as [_ Hloaded].
    destruct (Hloaded (Invitation.mk "inv-2" Demo.inviterDID [] "" []) Demo.w0
                ltac:(vm_compute; reflexivity))
      as [Hresolve _].
    eapply Hresolve; [vm_compute; discriminate | vm_compute; reflexivity ..].
  - destruct (getVerKey_resolution_order Demo.P Demo.ctx "inv-1" Demo.w0)
      as (_ & Hfallback & _).
    destruct (Hfallback Demo.w0 (Hlegacy "inv-1" ltac:(vm_compute; reflexivity)))
      as [_ Hstore].
    destruct (Hstore ltac:(vm_compute; reflexivity)) as [_ Hloaded].
    destruct (Hloaded (Invitation.mk "inv-1" "" ["did:key:legacy-key"] "http://x" [])
                Demo.w0 ltac:(vm_compute; reflexivity))
      as [_ Hinline].
    eapply Hinline; vm_compute; reflexivity.
  - destruct (getVerKey_resolution_order Demo.P Demo.ctx "nowhere" Demo.w0)
      as (_ & Hfallback & _).
    destruct (Hfallback Demo.w0 (Hnone "nowhere" ltac:(vm_compute; reflexivity)))
      as [_ Hstore].
    destruct (Hstore ltac:(vm_compute; reflexivity)) as [Hmissing _].
    apply (Hmissing ErrDataNotFound Demo.w0). vm_compute. reflexivity.
  - destruct (getVerKey_resolution_order Demo.P Demo.ctx "locked" Demo.w0)
      as (_ & _ & Habort).
    apply (Habort (errorString "store is closed") Demo.w0); vm_compute; reflexivity.
Defined.

Lemma ExecuteInbound_rejects_unexpected_type_witness :
  ExecuteInbound Demo.P Demo.ctx invited Demo.responseMsg "thread-1" Demo.w0
  = (Ok (mkExecuted None None None
           (Some (errorString
                    "illegal msg type https://didcomm.org/didexchange/1.0/response for state invited"))),
     Demo.w0)
  /\ ExecuteInbound Demo.P Demo.ctx completed
       (stateMachineMsg.mk (DIDCommMsg.mk "https://didcomm.org/didexchange/1.0/request" [])
          None None) "thread-1" Demo.w0
     = (Ok (mkExecuted None None None
              (Some (errorString
                       "illegal msg type https://didcomm.org/didexchange/1.0/request for state completed"))),
        Demo.w0).
Proof.
  split.
  - apply (proj1 (proj2 (ExecuteInbound_rejects_unexpected_type Demo.P Demo.ctx
                           Demo.responseMsg "thread-1" Demo.w0))
             DemoFacts.msg_types_law eq_refl).
  - apply (proj1 (ExecuteInbound_rejects_unexpected_type Demo.P Demo.ctx
                    (stateMachineMsg.mk
                       (DIDCommMsg.mk "https://didcomm.org/didexchange/1.0/request" [])
                       None None) "thread-1" Demo.w0) completed).
    + cbn. auto.
    + reflexivity.
Defined.

Lemma prepareResponse_dereferences_Thread_witness :
  prepareResponse Demo.P Demo.ctx Demo.requestWithoutThread Demo.inviterDoc Demo.abc
    Demo.w0 = (Panic NilDereference, Demo.w0)
  /\ handleInboundRequest Demo.P Demo.ctx Demo.requestWithoutThread None
       (Some ConnRecord.zero) Demo.w0 = (Panic NilDereference, Demo.w0).
Proof.
  split.
  - destruct (prepareResponse_dereferences_Thread Demo.P Demo.ctx
                Demo.requestWithoutThread Demo.inviterDoc Demo.abc Demo.w0 eq_refl)
      as [Hnil _].
    destruct (Hnil eq_refl) as [Hpanic _].
    apply (Hpanic "00000000-0000-4000-8000-000000000000" Demo.w0 eq_refl).
  - destruct (prepareResponse_dereferences_Thread Demo.P Demo.ctx
                Demo.requestWithoutThread Demo.inviterDoc Demo.abc Demo.w0 eq_refl)
      as [Hnil _].
    destruct (Hnil eq_refl) as (_ & _ & _ & Hhandler).
    eapply (Hhandler None (Some ConnRecord.zero)); reflexivity.
Defined.

(** * Further properties *)

(** ** The state registry and the transition table *)

(** [stateFromName] succeeds on exactly the seven state names, with the
    state of that name, and otherwise fails with "invalid state name"
    followed by the name. *)
Theorem stateFromName_accepts_only_state_names (name : string) :
  (exists s, name = Name s /\ stateFromName name = Ok s)
  \/ ((forall s, name <> Name s)
      /\ stateFromName name = Err (errorString ("invalid state name " ++ name))).
Proof.
  unfold stateFromName. cbn [switch_string].
  destruct (String.eqb_spec name stateNameNoop) as [->|H1];
    [left; exists noOp; auto|].
  destruct (String.eqb_spec name stateNameNull) as [->|H2];
    [left; exists null; auto|].
  destruct (String.eqb_spec name StateIDInvited) as [->|H3];
    [left; exists invited; auto|].
  destruct (String.eqb_spec name StateIDRequested) as [->|H4];
    [left; exists requested; auto|].
  destruct (String.eqb_spec name StateIDResponded) as [->|H5];
    [left; exists responded; auto|].
  destruct (String.eqb_spec name StateIDCompleted) as [->|H6];
    [left; exists completed; auto|].
  destruct (String.eqb_spec name StateIDAbandoned) as [->|H7];
    [left; exists abandoned; auto|].
  right. split; [|reflexivity]. intros s; destruct s; assumption.
Qed.

Section Registry.

Context {World KeyHandle : Type}.
Variable P : packages World KeyHandle.

(** [stateFromMsgType] succeeds on exactly the six message types. The
    state it gives has a case for that message type in its
    [ExecuteInbound], and is the successor of some state in the
    transition table. Any other type is answered with "unrecognized
    msgType: " followed by the type. *)
Theorem stateFromMsgType_gives_accepting_successor (msgType : string) :
  (forall s,
      stateFromMsgType P msgType = Ok s ->
      In msgType (known_msg_types P)
      /\ accepts P s msgType = true
      /\ exists previous, CanTransitionTo previous s = true)
  /\ (In msgType (known_msg_types P) -> exists s, stateFromMsgType P msgType = Ok s)
  /\ (~ In msgType (known_msg_types P) ->
      stateFromMsgType P msgType
      = Err (errorString ("unrecognized msgType: " ++ msgType))).
Proof.
  unfold stateFromMsgType, known_msg_types. cbn [switch_string In accepts].
  destruct (String.eqb_spec msgType (InvitationMsgType P)) as [E1|N1].
  { split; [|split]; [| eauto | intros H; exfalso; apply H; auto].
    intros s [= <-]. cbn [accepts]. rewrite E1, String.eqb_refl.
    split; [auto|]. split; [reflexivity|]. exists null. reflexivity. }
  destruct (String.eqb_spec msgType (oobMsgType P)) as [E2|N2].
  { split; [|split]; [| eauto | intros H; exfalso; apply H; auto].
    intros s [= <-]. cbn [accepts]. rewrite E2, String.eqb_refl, orb_true_r.
    split; [auto|]. split; [reflexivity|]. exists null. reflexivity. }
  destruct (String.eqb_spec msgType (RequestMsgType P)) as [E3|N3].
  { split; [|split]; [| eauto | intros H; exfalso; apply H; auto].
    intros s [= <-]. cbn [accepts]. rewrite E3, String.eqb_refl, orb_true_r.
    split; [auto|]. split; [reflexivity|]. exists invited. reflexivity. }
  destruct (String.eqb_spec msgType (ResponseMsgType P)) as [E4|N4].
  { split; [|split]; [| eauto | intros H; exfalso; apply H; auto 6].
    intros s [= <-]. cbn [accepts].
    rewrite E4, String.eqb_refl, orb_true_r.
    split; [auto 6|]. split; [reflexivity|]. exists requested. reflexivity. }
  destruct (String.eqb_spec msgType (AckMsgType P)) as [E5|N5].
  { split; [|split]; [| eauto | intros H; exfalso; apply H; auto 7].
    intros s [= <-]. cbn [accepts].
    rewrite E5, String.eqb_refl, orb_true_r.
    split; [auto 7|]. split; [reflexivity|]. exists responded. reflexivity. }
  destruct (String.eqb_spec msgType (CompleteMsgType P)) as [E6|N6].
  { split; [|split]; [| eauto | intros H; exfalso; apply H; auto 8].
    intros s [= <-]. cbn [accepts].
    rewrite E6, String.eqb_refl, orb_true_r.
    split; [auto 8|]. split; [reflexivity|]. exists responded. reflexivity. }
  split; [discriminate|]. split; [|reflexivity].
  intros H. exfalso. intuition congruence.
Qed.

End Registry.

Lemma reaches_raises_rank (s next : state) : reaches s next -> rank s < rank next.
Proof.
  induction 1 as [s next Hstep | s mid next Hstep _ IH].
  - destruct s, next; cbn in Hstep; try discriminate; cbn; lia.
  - assert (rank s < rank mid)
      by (destruct s, mid; cbn in Hstep; try discriminate; cbn; lia).
    lia.
Qed.

(** The transition table has no cycle: no state is reached from itself,
    Null is reached from no state, nothing is reached from Completed,
    Abandoned or NoOp, and Completed is reached from Null. *)
Theorem transitions_have_no_cycle :
  (forall s, ~ reaches s s)
  /\ (forall s, ~ reaches s null)
  /\ (forall s next,
         reaches s next -> s <> completed /\ s <> abandoned /\ s <> noOp)
  /\ reaches null completed.
Proof.
  split; [|split; [|split]].
  - intros s H. apply reaches_raises_rank in H. lia.
  - intros s H. apply reaches_raises_rank in H. cbn in H. lia.
  - intros s next H. apply reaches_raises_rank in H.
    repeat split; intros ->; destruct next; cbn in H; lia.
  - apply (reaches_more null invited); [reflexivity|].
    apply (reaches_more invited requested); [reflexivity|].
    apply (reaches_more requested responded); [reflexivity|].
    apply reaches_step. reflexivity.
Qed.

(** ** What [ExecuteInbound] returns *)

Section Returns.

Context {World KeyHandle : Type}.
Variable P : packages World KeyHandle.
Variable ctx : context World KeyHandle.

Lemma try_or_fail_cases {A} (text : string) (c : M World A)
    (k : A -> M World (executed (World := World))) w r w' :
  try_or_fail text c k w = (Ok r, w') ->
  (exists a w1, c w = (Ok a, w1) /\ k a w1 = (Ok r, w'))
  \/ (exists e, c w = (Err e, w') /\ r = failed (wrapError text e)).
Proof.
  unfold try_or_fail. destruct (c w) as [[a|e|p] w1]; intros Hrun.
  - left. eauto.
  - injection Hrun as <- <-. right. eauto.
  - discriminate Hrun.
Qed.

Ltac returned :=
  repeat match goal with
         | H : try_or_fail _ _ _ _ = (Ok _, _) |- _ =>
             apply try_or_fail_cases in H;
             destruct H as [(? & ? & ? & H) | (? & ? & ->)]
         | H : (let '(_, _) := ?x in _) _ = (Ok _, _) |- _ => destruct x
         | H : mret _ _ = (Ok _, _) |- _ =>
             apply mret_Ok in H; destruct H as [? ?]; subst
         | H : (if ?b then _ else _) _ = (Ok _, _) |- _ => destruct b eqn:?
         | H : match ?x with Some _ => _ | None => _ end _ = (Ok _, _) |- _ =>
             destruct x
         end.

(** Every return of [ExecuteInbound] is all or nothing: with an error
    there is no record, no next state and no action; without an error
    there is a next state. *)
Theorem ExecuteInbound_returns_all_or_nothing (s : state) (msg : stateMachineMsg.t)
    (thid : string) (w w' : World) (r : executed) :
  ExecuteInbound P ctx s msg thid w = (Ok r, w') ->
  (forall e,
      ret_err r = Some e ->
      ret_connRecord r = None /\ ret_state r = None /\ ret_action r = None)
  /\ (ret_err r = None -> exists next, ret_state r = Some next).
Proof.
  intros Hrun.
  destruct s; cbn [ExecuteInbound] in Hrun;
    unfold noOp_ExecuteInbound, null_ExecuteInbound, invited_ExecuteInbound,
      requested_ExecuteInbound, responded_ExecuteInbound, completed_ExecuteInbound,
      abandoned_ExecuteInbound in Hrun;
    cbn [switch_string] in Hrun; returned;
    (split; [intros e He; cbn in He |- *; try discriminate He; auto
            | intros He; cbn in He |- *; try discriminate He; eauto]).
Qed.

(** The next state that a successful [ExecuteInbound] names is NoOp, or
    a successor of the executed state in the transition table that has
    a case for the same message type. *)
Theorem ExecuteInbound_followup_is_legal (s : state) (msg : stateMachineMsg.t)
    (thid : string) (w w' : World) (r : executed) (next : state) :
  ExecuteInbound P ctx s msg thid w = (Ok r, w') ->
  ret_err r = None ->
  ret_state r = Some next ->
  next = noOp
  \/ (CanTransitionTo s next = true
      /\ accepts P next (stateMachineMsg.Type_ msg) = true).
Proof.
  intros Hrun Herr Hnext.
  destruct s; cbn [ExecuteInbound] in Hrun;
    unfold noOp_ExecuteInbound, null_ExecuteInbound, invited_ExecuteInbound,
      requested_ExecuteInbound, responded_ExecuteInbound, completed_ExecuteInbound,
      abandoned_ExecuteInbound in Hrun;
    cbn [switch_string] in Hrun; returned;
    cbn in Herr, Hnext; try discriminate Herr;
    injection Hnext as <-; try (left; reflexivity); right;
    (split; [reflexivity|]); cbn [accepts];
    repeat match goal with
           | H : (_ =? _) = true |- _ => rewrite H
           | H : (_ && _) = false |- _ =>
               apply andb_false_iff in H; destruct H as [H|H];
               apply negb_false_iff in H
           end;
    rewrite ?orb_true_r; reflexivity.
Qed.

End Returns.

(** ** Keys and DID documents *)

Section Documents.

Context {World KeyHandle : Type}.
Variable P : packages World KeyHandle.
Variable ctx : context World KeyHandle.

(** The [vmType] table and the switch of [convertPubKeyBytes] know the
    same key types: a key type whose bytes are converted has a
    verification method type, and a key type without one is rejected
    with "invalid key type". *)
Theorem key_type_table_matches_conversion (bytes : list byte) (keyType : KeyType) :
  (forall out, convertPubKeyBytes P bytes keyType = Ok out ->
               getVerMethodType keyType <> "")
  /\ (getVerMethodType keyType = "" ->
      convertPubKeyBytes P bytes keyType = Err (errorString "invalid key type")).
Proof.
  split.
  - intros out H. destruct keyType; cbn in H |- *; discriminate.
  - intros H. destruct keyType; cbn in H; try discriminate H. reflexivity.
Qed.

(** For the ECDSA key types in IEEE P1363 form [convertPubKeyBytes]
    drops exactly the first byte, and on an empty byte slice it panics
    instead of returning an error. *)
Theorem convertPubKeyBytes_drops_marker_byte (bytes : list byte) (keyType : KeyType) :
  isIEEEP1363 keyType = true ->
  (forall out,
      convertPubKeyBytes P bytes keyType = Ok out <->
      exists marker, bytes = marker :: out)
  /\ (bytes = [] -> convertPubKeyBytes P bytes keyType = Panic SliceBoundsOutOfRange)
  /\ (forall e, convertPubKeyBytes P bytes keyType <> Err e).
Proof.
  intros Hkt.
  assert (Hconv : convertPubKeyBytes P bytes keyType = slice_from_1 bytes)
    by (destruct keyType; cbn in Hkt; try discriminate Hkt; reflexivity).
  rewrite Hconv. split; [|split].
  - intros out. destruct bytes as [|b rest]; cbn; split.
    + discriminate.
    + intros [m Hm]. discriminate Hm.
    + intros [= <-]. eauto.
    + intros [m [= _ ->]]. reflexivity.
  - intros ->. reflexivity.
  - intros e. destruct bytes; discriminate.
Qed.

(** A successful [createNewKeyAndVerificationMethod] appends one
    verification method, named "#" followed by the new key id and typed
    by the [vmType] table, and one authentication entry that references
    that same method; what the document held before is kept. *)
Theorem createNewKeyAndVerificationMethod_appends_pair (didDoc : Doc.t)
    (keyType : KeyType) (w w' : World) (doc' : Doc.t) :
  createNewKeyAndVerificationMethod P ctx didDoc keyType w = (Ok doc', w') ->
  exists kid exported value,
    kms_CreateAndExportPubKeyBytes ctx keyType w = (Ok (kid, exported), w')
    /\ convertPubKeyBytes P exported keyType = Ok value
    /\ Doc.VerificationMethod doc'
       = (Doc.VerificationMethod didDoc
          ++ [VerificationMethod.mk ("#" ++ kid) (getVerMethodType keyType) value])%list
    /\ Doc.Authentication doc'
       = (Doc.Authentication didDoc
          ++ [Verification.mk
                (VerificationMethod.mk ("#" ++ kid) (getVerMethodType keyType) value)
                Authentication false])%list
    /\ Doc.ID doc' = Doc.ID didDoc
    /\ Doc.Service doc' = Doc.Service didDoc
    /\ getVerMethodType keyType <> "".
Proof.
  unfold createNewKeyAndVerificationMethod. intros H.
  apply mbind_Ok in H. destruct H as ([kid exported] & w1 & Hkms & H).
  steps. exists kid, exported. eexists.
  split; [eassumption|]. split; [eassumption|].
  repeat split.
  match goal with Hc : convertPubKeyBytes _ _ _ = Ok _ |- _ =>
    destruct keyType; cbn in Hc |- *; discriminate
  end.
Qed.

Lemma createNewKeyAndVerificationMethod_Ok (didDoc : Doc.t) (keyType : KeyType)
    (w w' : World) (doc' : Doc.t) :
  createNewKeyAndVerificationMethod P ctx didDoc keyType w = (Ok doc', w') ->
  exists kid value,
    Doc.VerificationMethod doc'
    = (Doc.VerificationMethod didDoc
       ++ [VerificationMethod.mk ("#" ++ kid) (getVerMethodType keyType) value])%list
    /\ Doc.Authentication doc'
       = (Doc.Authentication didDoc
          ++ [Verification.mk
                (VerificationMethod.mk ("#" ++ kid) (getVerMethodType keyType) value)
                Authentication false])%list
    /\ Doc.Service doc' = Doc.Service didDoc.
Proof.
  unfold createNewKeyAndVerificationMethod. intros H.
  apply mbind_Ok in H. destruct H as ([kid exported] & w1 & Hkms & H).
  steps. exists kid. eexists. repeat split.
Qed.

Lemma getDIDDocAndConnection_names_document (pubDID : string)
    (routerConnections : list string) (w w' : World) (doc : Doc.t)
    (conn : Connection.t) :
  getDIDDocAndConnection P ctx pubDID routerConnections w = (Ok (doc, conn), w') ->
  Connection.DID conn = Doc.ID doc.
Proof.
  intros H. unfold getDIDDocAndConnection in H.
  destruct (negb (pubDID =? "")%string).
  - apply mbind_Ok in H. destruct H as (d & w1 & _ & H).
    apply mbind_Ok in H. destruct H as ([] & w2 & _ & H).
    apply mret_Ok in H. destruct H as [[= -> ->] _]. reflexivity.
  - apply mbind_Ok in H. destruct H as (services & w1 & _ & H).
    apply mbind_Ok in H. destruct H as (newDID & w2 & _ & H).
    apply mbind_Ok in H. destruct H as (d & w3 & _ & H).
    apply mbind_Ok in H. destruct H as ([] & w4 & _ & H).
    apply mbind_Ok in H. destruct H as ([] & w5 & _ & H).
    apply mret_Ok in H. destruct H as [[= -> ->] _]. reflexivity.
Qed.

Lemma routerServices_appends (routerConnections : list string) :
  forall services w out w',
    routerServices ctx routerConnections services w = (Ok out, w') ->
    exists added,
      out = (services ++ added)%list
      /\ length added = length routerConnections
      /\ Forall (fun svc => Service.RecipientKeys svc = [] /\ Service.Type_ svc = "")
           added.
Proof.
  induction routerConnections as [|connID rest IH]; intros services w out w' H.
  - cbn in H. apply mret_Ok in H. destruct H as [-> _].
    exists []. rewrite app_nil_r. auto.
  - cbn [routerServices] in H.
    apply mbind_Ok in H. destruct H as ([endpoint keys] & w1 & _ & H).
    apply IH in H. destruct H as (added & -> & Hlen & Hall).
    eexists (_ :: added). rewrite <- app_assoc. cbn [app length].
    split; [reflexivity|]. split; [lia|]. constructor; [cbn; auto | exact Hall].
Qed.

(** With a public DID, [getDIDDocAndConnection] resolves that DID, saves
    the resolved document and returns it with a connection that names the
    document's id and embeds no document. *)
Theorem getDIDDocAndConnection_reuses_public_DID (pubDID : string)
    (routerConnections : list string) (w w' : World) (doc : Doc.t)
    (conn : Connection.t) :
  pubDID <> "" ->
  getDIDDocAndConnection P ctx pubDID routerConnections w = (Ok (doc, conn), w') ->
  conn = Connection.mk (Doc.ID doc) None
  /\ exists w1,
      vdRegistry_Resolve ctx pubDID w = (Ok doc, w1)
      /\ connectionStore_SaveDIDFromDoc ctx doc w1 = (Ok tt, w').
Proof.
  intros Hpub H. unfold getDIDDocAndConnection in H.
  apply String.eqb_neq in Hpub. rewrite Hpub in H. cbn [negb] in H.
  apply mbind_Ok in H. destruct H as (d & w1 & Hres & H).
  apply mwrap_Ok in Hres.
  apply mbind_Ok in H. destruct H as ([] & w2 & Hsave & H).
  apply mret_Ok in H. destruct H as [[= -> ->] ->].
  split; [reflexivity|]. eauto.
Qed.

(** Without a public DID, a successful [getDIDDocAndConnection] has asked
    the registry to create a "peer" DID from a document with exactly one
    verification method, of type Ed25519VerificationKey2018, one
    authentication entry referencing it, and one service per router
    connection (one empty service when there is none). It saved the
    created document and returns it embedded in a connection that names
    its id. *)
Theorem getDIDDocAndConnection_creates_peer_DID (routerConnections : list string)
    (w w' : World) (doc : Doc.t) (conn : Connection.t) :
  getDIDDocAndConnection P ctx "" routerConnections w = (Ok (doc, conn), w') ->
  conn = Connection.mk (Doc.ID doc) (Some doc)
  /\ exists newDID w1 w2 w3 vm,
      vdRegistry_Create ctx didMethod newDID [] w1 = (Ok doc, w2)
      /\ connectionStore_SaveDIDFromDoc ctx doc w3 = (Ok tt, w')
      /\ Doc.VerificationMethod newDID = [vm]
      /\ VerificationMethod.Type_ vm = ed25519VerificationKey2018
      /\ Doc.Authentication newDID = [Verification.mk vm Authentication false]
      /\ length (Doc.Service newDID) = Nat.max 1 (length routerConnections).
Proof.
  intros H. unfold getDIDDocAndConnection in H. cbn [String.eqb negb] in H.
  apply mbind_Ok in H. destruct H as (services & w1 & Hsvc & H).
  apply mbind_Ok in H. destruct H as (newDID & w2 & Hkey & H).
  apply mwrap_Ok in Hkey.
  apply mbind_Ok in H. destruct H as (d & w3 & Hcreate & H).
  apply mwrap_Ok in Hcreate.
  apply mbind_Ok in H. destruct H as ([] & w4 & _ & H).
  apply mbind_Ok in H. destruct H as ([] & w5 & Hsave & H).
  apply mret_Ok in H. destruct H as [[= -> ->] ->].
  split; [reflexivity|].
  apply createNewKeyAndVerificationMethod_Ok in Hkey.
  destruct Hkey as (kid & value & Hvm & Hauth & Hservices).
  cbn [Doc.VerificationMethod Doc.Authentication Doc.Service app] in Hvm, Hauth, Hservices.
  exists newDID, w2, w3, w4. eexists.
  split; [exact Hcreate|]. split; [exact Hsave|].
  split; [exact Hvm|]. split; [reflexivity|]. split; [exact Hauth|].
  rewrite Hservices.
  apply routerServices_appends in Hsvc. destruct Hsvc as (added & -> & Hlen & _).
  cbn [app]. destruct added as [|svc added]; cbn [length Nat.eqb app] in *.
  - rewrite <- Hlen. reflexivity.
  - rewrite <- Hlen. cbn. reflexivity.
Qed.

(** [resolveDidDocFromConnection] on a connection that embeds a document
    returns that very document, after asking the registry to store it
    under the method of its id, with "sov" replaced by "peer"; the
    registry is never asked to create a "sov" DID. On a connection
    without a document it is the registry's resolution of the DID. *)
Theorem resolveDidDocFromConnection_stores_embedded_document (conn : Connection.t)
    (w : World) :
  (forall didDoc doc w',
      Connection.DIDDoc conn = Some didDoc ->
      resolveDidDocFromConnection P ctx conn w = (Ok doc, w') ->
      doc = didDoc
      /\ exists parsed method created,
          did_Parse_Method P (Doc.ID didDoc) = Return parsed
          /\ method = (if parsed =? "sov" then "peer" else parsed)
          /\ method <> "sov"
          /\ vdRegistry_Create ctx method didDoc [("store", true)] w
             = (Ok created, w'))
  /\ (Connection.DIDDoc conn = None ->
      resolveDidDocFromConnection P ctx conn w
      = vdRegistry_Resolve ctx (Connection.DID conn) w).
Proof.
  unfold resolveDidDocFromConnection. split.
  - intros didDoc doc w' -> H. steps.
    split; [reflexivity|].
    match goal with Hp : did_Parse_Method _ _ = Return ?m |- _ =>
      exists m; do 2 eexists; split; [exact Hp|]; split; [reflexivity|];
      split; [|eassumption];
      destruct (String.eqb_spec m "sov"); [discriminate | assumption]
    end.
  - intros ->. reflexivity.
Qed.

(** The service block of an out-of-band invitation: when the invitation
    carries media type profiles they replace the block's [Accept], and
    otherwise the block is the target's unchanged. A target given as a
    service keeps all its other fields and needs no registry; a target
    of an unsupported type is an error. *)
Theorem getServiceBlock_invitation_profiles_win (i : OOBInvitation.t) (w : World) :
  (forall svc w',
      getServiceBlock P ctx i w = (Ok svc, w') ->
      OOBInvitation.MediaTypeProfiles i <> [] ->
      Service.Accept svc = OOBInvitation.MediaTypeProfiles i)
  /\ (forall target,
         OOBInvitation.Target i = TargetService target ->
         getServiceBlock P ctx i w
         = (Ok (match OOBInvitation.MediaTypeProfiles i with
                | [] => target
                | profiles => Service.set_Accept target profiles
                end), w))
  /\ (forall shown,
         OOBInvitation.Target i = TargetOther shown ->
         getServiceBlock P ctx i w
         = (Err (errorString ("unsupported target type: " ++ shown)), w)).
Proof.
  unfold getServiceBlock. split; [|split].
  - intros svc w' H Hne.
    apply mbind_Ok in H. destruct H as (block & w1 & _ & H).
    destruct (OOBInvitation.MediaTypeProfiles i) as [|p ps]; [congruence|].
    cbn in H. injection H as <- _. reflexivity.
  - intros target ->. unfold mbind, mret.
    destruct (OOBInvitation.MediaTypeProfiles i); reflexivity.
  - intros shown ->. reflexivity.
Qed.

End Documents.

(** ** The inbound handlers *)

(** Breaks a successful run of a handler into its steps, opening the
    pairs that the steps return. *)
Ltac handler_run :=
  repeat (steps;
          match goal with
          | H : (let (_, _) := ?x in _) _ = (Ok _, _) |- _ => destruct x
          end);
  steps.

Section Handlers.

Context {World KeyHandle : Type}.
Variable P : packages World KeyHandle.
Variable ctx : context World KeyHandle.

(** A successful [handleInboundInvitation] defers one send of a Request
    whose id is the thread id and whose parent thread id is the
    invitation's id (the invitation's DID for an implicit record); the
    sender key is the first recipient key of the own document, and the
    only field of the record it changes is [MyDID], set to the DID of
    the Request's connection. An invitation without a DID is answered at
    the invitation's own keys and endpoint. *)
Theorem handleInboundInvitation_prepares_request (invitation : Invitation.t)
    (thid : string) (options : option options.t) (connRec : option ConnRecord.t)
    (w w' : World) (action : stateAction World) (record : ConnRecord.t) :
  handleInboundInvitation P ctx invitation thid options connRec w
  = (Ok (action, record), w') ->
  exists given didDoc conn senderKey destination wa wb,
    connRec = Some given
    /\ getDIDDocAndConnection P ctx (getPublicDID options)
         (getRouterConnections options) wa = (Ok (didDoc, conn), wb)
    /\ recipientKey P didDoc = Ok senderKey
    /\ Connection.DID conn = Doc.ID didDoc
    /\ action
       = outboundDispatcher_Send ctx
           (SendRequest
              (Request.mk (RequestMsgType P) thid (getLabel options) (Some conn)
                 (Some (Thread.mk ""
                          (if ConnRecord.Implicit given
                           then Invitation.DID invitation
                           else Invitation.ID invitation)))
                 None))
           senderKey destination
    /\ record = ConnRecord.set_MyDID given (Connection.DID conn)
    /\ (Invitation.DID invitation = "" ->
        destination
        = Destination.mk (Invitation.RecipientKeys invitation)
            (Invitation.ServiceEndpoint invitation)
            (Invitation.RoutingKeys invitation) []).
Proof.
  unfold handleInboundInvitation. intros H. handler_run.
  match goal with H : (_, _) = (_, _) |- _ => injection H as -> -> end.
  match goal with H : deref connRec = Ok _ |- _ =>
    destruct connRec as [given|]; [injection H as ->|discriminate H]
  end.
  match goal with
  | Hd : getDestination _ _ _ = (Ok ?dest, _),
    Hg : getDIDDocAndConnection _ _ _ _ _ = (Ok (?doc, ?conn), _),
    Hk : recipientKey _ _ = Ok ?key |- _ =>
      eexists; exists doc, conn, key, dest; do 2 eexists;
      split; [reflexivity|]; split; [exact Hg|]; split; [exact Hk|]; split;
      [|split; [reflexivity|]; split; [reflexivity|]]
  end.
  - match goal with Hg : getDIDDocAndConnection _ _ _ _ _ = _ |- _ =>
      eapply getDIDDocAndConnection_names_document; exact Hg
    end.
  - intros Hno.
    match goal with Hd : getDestination _ _ _ = _ |- _ =>
      unfold getDestination in Hd; rewrite Hno in Hd; cbn in Hd;
      injection Hd as <- _; reflexivity
    end.
Qed.

(** A successful [handleInboundOOBInvitation] defers one send of a
    Request whose id and thread id are the given thread id and whose
    parent thread id is the record's; the label is the invitation's, the
    destination is the invitation's service block with its [Accept] as
    media type profiles, and the record is changed only in [MyDID] (the
    own document's id) and [ThreadID] (the given thread id). *)
Theorem handleInboundOOBInvitation_prepares_request (msg : stateMachineMsg.t)
    (thid : string) (options : option options.t) (w w' : World)
    (action : stateAction World) (record : ConnRecord.t) :
  handleInboundOOBInvitation P ctx msg thid options w = (Ok (action, record), w') ->
  exists given myDID conn oobInvitation svc wa wb senderKey,
    stateMachineMsg.connRecord msg = Some given
    /\ getDIDDocAndConnection P ctx (getPublicDID options)
         (getRouterConnections options) w = (Ok (myDID, conn), wa)
    /\ Decode_OOBInvitation P (stateMachineMsg.DIDCommMsg msg) = Return oobInvitation
    /\ getServiceBlock P ctx oobInvitation wa = (Ok svc, wb)
    /\ recipientKey P myDID = Ok senderKey
    /\ record = ConnRecord.set_ThreadID (ConnRecord.set_MyDID given (Doc.ID myDID)) thid
    /\ action
       = outboundDispatcher_Send ctx
           (SendRequest
              (Request.mk (RequestMsgType P) thid
                 (OOBInvitation.MyLabel oobInvitation) (Some conn)
                 (Some (Thread.mk thid (ConnRecord.ParentThreadID given))) None))
           senderKey
           (Destination.mk (Service.RecipientKeys svc) (Service.ServiceEndpoint svc)
              (Service.RoutingKeys svc) (Service.Accept svc)).
Proof.
  unfold handleInboundOOBInvitation. intros H. handler_run.
  match goal with H : (_, _) = (_, _) |- _ => injection H as -> -> end.
  match goal with H : deref (stateMachineMsg.connRecord msg) = Ok _ |- _ =>
    destruct (stateMachineMsg.connRecord msg) as [given|];
      [injection H as ->|discriminate H]
  end.
  repeat eexists; eauto.
Qed.


(** A successful [handleInboundRequest] defers one send of the prepared
    Response to the destination of the requester's document, and writes
    into the record the requester's DID, the own DID and the requester's
    label; the record's media type profiles are replaced only when the
    destination has some, and no other field changes. *)
Theorem handleInboundRequest_updates_record (request : Request.t)
    (options : option options.t) (connRec : option ConnRecord.t) (w w' : World)
    (action : stateAction World) (record : ConnRecord.t) :
  handleInboundRequest P ctx request options connRec w = (Ok (action, record), w') ->
  exists given requestConnection requestDidDoc myDoc responseConnection response
         senderVerKey destination wa wb,
    connRec = Some given
    /\ getRequestConnection P request = Ok requestConnection
    /\ resolveDidDocFromConnection P ctx requestConnection w = (Ok requestDidDoc, wa)
    /\ getDIDDocAndConnection P ctx (getPublicDID options)
         (getRouterConnections options) wa = (Ok (myDoc, responseConnection), wb)
    /\ recipientKey P myDoc = Ok senderVerKey
    /\ (exists sentDoc wc wd,
           prepareResponse P ctx request sentDoc responseConnection wc
           = (Ok response, wd))
    /\ CreateDestination P requestDidDoc = Return destination
    /\ action
       = outboundDispatcher_Send ctx (SendResponse response) senderVerKey destination
    /\ ConnRecord.TheirDID record = Connection.DID requestConnection
    /\ ConnRecord.MyDID record = Connection.DID responseConnection
    /\ ConnRecord.TheirLabel record = Request.Label request
    /\ ConnRecord.MediaTypeProfiles record
       = (match Destination.MediaTypeProfiles destination with
          | [] => ConnRecord.MediaTypeProfiles given
          | profiles => profiles
          end)
    /\ ConnRecord.ThreadID record = ConnRecord.ThreadID given
    /\ ConnRecord.ParentThreadID record = ConnRecord.ParentThreadID given
    /\ ConnRecord.RecipientKeys record = ConnRecord.RecipientKeys given
    /\ ConnRecord.Implicit record = ConnRecord.Implicit given.
Proof.
  unfold handleInboundRequest. intros H. handler_run.
  match goal with H : (_, _) = (_, _) |- _ => injection H as -> -> end.
  match goal with H : deref connRec = Ok _ |- _ =>
    destruct connRec as [given|]; [injection H as ->|discriminate H]
  end.
  match goal with
  | Hc : getRequestConnection _ _ = Ok ?rc,
    Hr : resolveDidDocFromConnection _ _ _ _ = _,
    Hd : CreateDestination _ ?rd = Return ?dest,
    Hg : getDIDDocAndConnection _ _ _ _ _ = (Ok (?md, ?mc), _),
    Hp : prepareResponse _ _ _ _ _ _ = (Ok ?resp, _),
    Hk : recipientKey _ _ = Ok ?key |- _ =>
      eexists; exists rc, rd, md, mc, resp, key, dest; do 2 eexists;
      split; [reflexivity|]; split; [exact Hc|]; split; [exact Hr|];
      split; [exact Hg|]; split; [exact Hk|]; split; [eauto|]; split; [exact Hd|];
      split; [reflexivity|];
      destruct (Destination.MediaTypeProfiles dest); cbn; repeat split
  end.
Qed.

End Handlers.

(** ** Verification, key lookup and their failures *)

Lemma errors_Is_unfold (e target : error) :
  errors_Is e target
  = if error_eq_dec e target then true
    else match e with
         | wrapError _ cause => errors_Is cause target
         | _ => false
         end.
Proof. destruct e; reflexivity. Qed.

Lemma errors_Is_refl (e : error) : errors_Is e e = true.
Proof.
  rewrite errors_Is_unfold. destruct (error_eq_dec e e); [reflexivity | congruence].
Qed.

Lemma errors_Is_wrapError (text : string) (e target : error) :
  errors_Is e target = true -> errors_Is (wrapError text e) target = true.
Proof.
  intros H. rewrite errors_Is_unfold.
  destruct (error_eq_dec (wrapError text e) target); [reflexivity | exact H].
Qed.

Section Failures.

Context {World KeyHandle : Type}.
Variable P : packages World KeyHandle.
Variable ctx : context World KeyHandle.

Lemma verifySignature_Ok
    (connSignature : option ConnectionSignature.t) (recipientKeys : string)
    (conn : Connection.t) :
  verifySignature P connSignature recipientKeys = Ok conn ->
  exists cs sigData signature pubKey,
    connSignature = Some cs
    /\ URLEncoding_DecodeString P (ConnectionSignature.SignedData cs) = Return sigData
    /\ URLEncoding_DecodeString P (ConnectionSignature.Signature cs) = Return signature
    /\ PubKeyFromDIDKey P recipientKeys = Return pubKey
    /\ signatureSuite_Verify P (PublicKey.mk (kms_ED25519 P) pubKey) sigData signature
       = None
    /\ (8 < length sigData)%nat
    /\ json_Unmarshal P (skipn 8 sigData) = Return conn.
Proof.
  unfold verifySignature. intros H.
  destruct connSignature as [cs|]; [|discriminate H]. cbn [deref obind] in H.
  destruct (URLEncoding_DecodeString P (ConnectionSignature.SignedData cs))
    as [sigData|e] eqn:Hdata; [|discriminate H].
  cbn [owrap obind outcome_of_result] in H.
  destruct (Nat.eqb_spec (length sigData) 0) as [_|_]; [discriminate H|].
  destruct (URLEncoding_DecodeString P (ConnectionSignature.Signature cs))
    as [signature|e] eqn:Hsig; [|discriminate H].
  cbn [owrap obind outcome_of_result] in H.
  destruct (PubKeyFromDIDKey P recipientKeys) as [pubKey|e] eqn:Hkey;
    [|discriminate H].
  cbn [owrap obind outcome_of_result] in H.
  destruct (signatureSuite_Verify P _ sigData signature) eqn:Hver; [discriminate H|].
  destruct (Nat.leb_spec (length sigData) timestamplen) as [_|Hlong];
    [discriminate H|].
  apply owrap_Ok, outcome_of_result_Ok in H.
  exists cs, sigData, signature, pubKey.
  repeat split; try assumption; first [exact Hlong | exact H].
Qed.

(** [verifySignature] succeeds only on a signature object whose
    [SignedData] and [Signature] decode, whose signature the verifier
    accepts over the whole decoded data under the public key of the
    given recipient key, and whose data is longer than 8 bytes; the
    connection returned is the JSON after the first 8 bytes, and those 8
    bytes are not looked at. *)
Theorem verifySignature_succeeds_only_when_verified
    (connSignature : option ConnectionSignature.t) (recipientKeys : string)
    (conn : Connection.t) :
  verifySignature P connSignature recipientKeys = Ok conn ->
  exists cs sigData signature pubKey,
    connSignature = Some cs
    /\ URLEncoding_DecodeString P (ConnectionSignature.SignedData cs) = Return sigData
    /\ URLEncoding_DecodeString P (ConnectionSignature.Signature cs) = Return signature
    /\ PubKeyFromDIDKey P recipientKeys = Return pubKey
    /\ signatureSuite_Verify P (PublicKey.mk (kms_ED25519 P) pubKey) sigData signature
       = None
    /\ (8 < length sigData)%nat
    /\ json_Unmarshal P (skipn 8 sigData) = Return conn.
Proof. apply verifySignature_Ok. Qed.

(** Without the interop flag the Response that [prepareResponse] builds
    verifies: under codecs that round trip and a verifier that accepts
    what the crypto service signs, [verifySignature] on the Response's
    connection signature and the key named in it returns the connection
    that was signed. *)
Theorem prepared_Response_verifies (request : Request.t) (responseDidDoc : Doc.t)
    (responseConnection : Connection.t) (w w' : World) (response : Response.t) :
  base64_roundtrip P ->
  json_roundtrip P ->
  crypto_correct P ctx ->
  doACAPyInterop ctx = false ->
  prepareResponse P ctx request responseDidDoc responseConnection w
  = (Ok response, w') ->
  exists sig,
    Response.ConnectionSignature response = Some sig
    /\ verifySignature P (Response.ConnectionSignature response)
         (ConnectionSignature.SignVerKey sig) = Ok responseConnection.
Proof.
  intros Hb64 Hjson Hcrypto Hoff Hrun. unfold prepareResponse in Hrun.
  rewrite Hoff in Hrun. handler_run.
  match goal with H : prepareConnectionSignature _ _ _ _ _ = _ |- _ =>
    apply prepareConnectionSignature_Ok in H;
    destruct H as (payload & now & w1 & didKey & w2 & pub & kid & kh & w3 & sg
                   & Hmarshal & Hnow & Hkey & Hpub & Hkid & Hget & Hsign & ->)
  end.
  destruct (Hjson _ _ Hmarshal) as [Hne Hun].
  eexists. cbn [Response.ConnectionSignature]. split; [reflexivity|].
  eapply verifySignature_accepts;
    cbn [ConnectionSignature.SignedData ConnectionSignature.Signature
         ConnectionSignature.SignVerKey].
  - apply Hb64.
  - apply Hb64.
  - exact Hpub.
  - eapply Hcrypto; eassumption.
  - reflexivity.
  - apply BigEndian_PutUint64_length.
  - exact Hne.
  - exact Hun.
Qed.

(** The errors of [getVerKey] keep their cause. An error of the
    out-of-band lookup other than "not found" comes back wrapped twice,
    and an error of the legacy store on the fallback path wrapped once;
    in both cases [errors.Is] still finds the store's error and the
    message ends with the store's message. *)
Theorem getVerKey_errors_keep_cause (invitationID : string) (w : World) :
  (forall e w1,
      connectionRecorder_GetInvitation_OOB ctx invitationID w = (Err e, w1) ->
      errors_Is e ErrDataNotFound = false ->
      errors_Is e errVerKeyNotFound = false ->
      exists e',
        getVerKey P ctx invitationID w = (Err e', w1)
        /\ errors_Is e' e = true
        /\ Error e'
           = "failed to get my verkey from oob invitation: failed to load oob invitation: "
             ++ Error e)
  /\ (forall w1 e w2,
         oob_lookup_misses P ctx invitationID w w1 ->
         isDID invitationID = false ->
         connectionRecorder_GetInvitation ctx invitationID w1 = (Err e, w2) ->
         exists e',
           getVerKey P ctx invitationID w = (Err e', w2)
           /\ errors_Is e' e = true
           /\ Error e'
              = ("get invitation for signature [invitationID=" ++ invitationID
                 ++ "]: ") ++ Error e).
Proof.
  split.
  - intros e w1 Hget Hnf Hvk.
    unfold getVerKey, getVerKeyFromOOBInvitation. rewrite Hget, Hnf.
    cbn [errors_Is]. destruct (error_eq_dec _ _) as [E|_]; [discriminate E|].
    rewrite Hvk. cbn [negb]. eexists. split; [reflexivity|]. split.
    + apply errors_Is_wrapError, errors_Is_wrapError, errors_Is_refl.
    + reflexivity.
  - intros w1 e w2 Hmiss Hdid Hload.
    rewrite (getVerKey_falls_back _ _ _ _ _ Hmiss), Hdid.
    unfold mbind, mwrap. rewrite Hload. cbn [owrap].
    eexists. split; [reflexivity|]. split.
    + apply errors_Is_wrapError, errors_Is_refl.
    + reflexivity.
Qed.

(** Key lookup indexes the first recipient key without testing for one:
    a destination, a legacy invitation without a DID, or a service block
    that has no recipient key makes [recipientKey],
    [getInvitationRecipientKey], [resolveVerKey] and, through them,
    [getVerKey] panic with an index out of range instead of returning an
    error. *)
Theorem key_lookup_panics_without_recipient_keys :
  (forall doc dest,
      CreateDestination P doc = Return dest ->
      Destination.RecipientKeys dest = [] ->
      recipientKey P doc = Panic IndexOutOfRange)
  /\ (forall invitation w,
         Invitation.DID invitation = "" ->
         Invitation.RecipientKeys invitation = [] ->
         getInvitationRecipientKey P ctx invitation w = (Panic IndexOutOfRange, w))
  /\ (forall i w svc w',
         getServiceBlock P ctx i w = (Ok svc, w') ->
         Service.RecipientKeys svc = [] ->
         resolveVerKey P ctx i w = (Panic IndexOutOfRange, w'))
  /\ (forall invitationID w w1 invitation w2,
         oob_lookup_misses P ctx invitationID w w1 ->
         isDID invitationID = false ->
         connectionRecorder_GetInvitation ctx invitationID w1 = (Ok invitation, w2) ->
         Invitation.DID invitation = "" ->
         Invitation.RecipientKeys invitation = [] ->
         getVerKey P ctx invitationID w = (Panic IndexOutOfRange, w2)).
Proof.
  assert (Hinv : forall invitation w,
             Invitation.DID invitation = "" ->
             Invitation.RecipientKeys invitation = [] ->
             getInvitationRecipientKey P ctx invitation w = (Panic IndexOutOfRange, w)).
  { intros invitation w Hdid Hkeys. unfold getInvitationRecipientKey.
    rewrite Hdid, Hkeys. reflexivity. }
  split; [|split; [exact Hinv|split]].
  - intros doc dest Hdest Hkeys. unfold recipientKey. rewrite Hdest. cbn.
    rewrite Hkeys. reflexivity.
  - intros i w svc w' Hsvc Hkeys. unfold resolveVerKey, mbind, mwrap.
    rewrite Hsvc. cbn. rewrite Hkeys. reflexivity.
  - intros invitationID w w1 invitation w2 Hmiss Hdid Hload Hno Hkeys.
    rewrite (getVerKey_falls_back _ _ _ _ _ Hmiss), Hdid.
    unfold mbind, mwrap. rewrite Hload. cbn [owrap].
    rewrite (Hinv _ _ Hno Hkeys). reflexivity.
Qed.

(** [handleInboundResponse] dereferences what the response and the
    record may lack: a response without a thread, a loaded record
    without a recipient key, and a response without a connection
    signature each end in a panic, not in an error. *)
Theorem handleInboundResponse_panics_on_missing_parts (response : Response.t)
    (w : World) :
  (Response.Thread response = None ->
   forall id w1,
     uuid_New_String P w = (Ok id, w1) ->
     handleInboundResponse P ctx response w = (Panic NilDereference, w1))
  /\ (forall thread id w1 nsThID loaded w2,
         Response.Thread response = Some thread ->
         uuid_New_String P w = (Ok id, w1) ->
         CreateNamespaceKey P (myNSPrefix P) (Thread.ID thread) = Return nsThID ->
         connectionRecorder_GetConnectionRecordByNSThreadID ctx nsThID w1
         = (Ok loaded, w2) ->
         (ConnRecord.RecipientKeys loaded = [] ->
          handleInboundResponse P ctx response w = (Panic IndexOutOfRange, w2))
         /\ (ConnRecord.RecipientKeys loaded <> [] ->
             Response.ConnectionSignature response = None ->
             handleInboundResponse P ctx response w = (Panic NilDereference, w2))).
Proof.
  split.
  - intros Hnil id w1 Hid. unfold handleInboundResponse, mbind.
    rewrite Hid, Hnil. reflexivity.
  - intros thread id w1 nsThID loaded w2 Hthread Hid Hns Hload.
    unfold handleInboundResponse, mbind, mwrap, lift.
    rewrite Hid, Hthread. cbn [deref]. rewrite Hns. cbn [outcome_of_result].
    rewrite Hload. cbn [owrap]. split.
    + intros ->. reflexivity.
    + intros Hkeys Hsig. destruct (ConnRecord.RecipientKeys loaded); [congruence|].
      cbn [index0]. rewrite Hsig. reflexivity.
Qed.

(** The handlers that write into the connection record need one: with a
    nil record [handleInboundOOBInvitation] and [handleInboundInvitation]
    panic, and they do so only after the own DID document has been
    obtained (created and saved, for a new DID), and
    [handleInboundRequest] never succeeds. *)
Theorem handlers_panic_on_nil_record :
  (forall msg thid options w myDID conn w1,
      stateMachineMsg.connRecord msg = None ->
      getDIDDocAndConnection P ctx (getPublicDID options) (getRouterConnections options) w
      = (Ok (myDID, conn), w1) ->
      handleInboundOOBInvitation P ctx msg thid options w = (Panic NilDereference, w1))
  /\ (forall invitation thid options w destination w1 didDoc conn w2,
         getDestination P invitation w = (Ok destination, w1) ->
         getDIDDocAndConnection P ctx (getPublicDID options)
           (getRouterConnections options) w1 = (Ok (didDoc, conn), w2) ->
         handleInboundInvitation P ctx invitation thid options None w
         = (Panic NilDereference, w2))
  /\ (forall request options w result w',
         handleInboundRequest P ctx request options None w <> (Ok result, w')).
Proof.
  split; [|split].
  - intros msg thid options w myDID conn w1 Hnil Hdoc.
    unfold handleInboundOOBInvitation, mbind, mwrap.
    rewrite Hdoc. cbn [owrap]. rewrite Hnil. reflexivity.
  - intros invitation thid options w destination w1 didDoc conn w2 Hdest Hdoc.
    unfold handleInboundInvitation, mbind. rewrite Hdest, Hdoc. reflexivity.
  - intros request options w result w' H. unfold handleInboundRequest in H.
    handler_run.
    match goal with H : deref None = Ok _ |- _ => discriminate H end.
Qed.

(** A successful [handleInboundResponse], the only place that prepares
    an Ack, has loaded the connection record by the namespaced thread id
    of the response and has had the verifier accept the response's
    signature over the decoded signed data under the public key of the
    first recipient key of that record; the DID it writes into the
    record is the DID of the connection inside that signed data. *)
Theorem handleInboundResponse_acknowledges_only_verified (response : Response.t)
    (w w' : World) (action : stateAction World) (record : ConnRecord.t) :
  handleInboundResponse P ctx response w = (Ok (action, record), w') ->
  exists thread nsThID wa wb loaded key rest cs sigData signature pubKey conn,
    Response.Thread response = Some thread
    /\ CreateNamespaceKey P (myNSPrefix P) (Thread.ID thread) = Return nsThID
    /\ connectionRecorder_GetConnectionRecordByNSThreadID ctx nsThID wa
       = (Ok loaded, wb)
    /\ ConnRecord.RecipientKeys loaded = key :: rest
    /\ Response.ConnectionSignature response = Some cs
    /\ URLEncoding_DecodeString P (ConnectionSignature.SignedData cs) = Return sigData
    /\ URLEncoding_DecodeString P (ConnectionSignature.Signature cs) = Return signature
    /\ PubKeyFromDIDKey P key = Return pubKey
    /\ signatureSuite_Verify P (PublicKey.mk (kms_ED25519 P) pubKey) sigData signature
       = None
    /\ json_Unmarshal P (skipn 8 sigData) = Return conn
    /\ ConnRecord.TheirDID record = Connection.DID conn
    /\ exists ack senderKey destination,
        action = outboundDispatcher_Send ctx (SendAck ack) senderKey destination
        /\ Ack.Status ack = ackStatusOK
        /\ Ack.Thread ack = Some (Thread.mk (Thread.ID thread) "").
Proof.
  intros Hrun.
  pose proof (handleInboundResponse_verifies_under_record_key _ _ _ _ _ _ _ Hrun)
    as (thread & ns & wa & wb & loaded & key & rest & conn
        & Hthread & Hns & Hload & Hkeys & Hverify & Hrec).
  apply verifySignature_Ok in Hverify.
  destruct Hverify as (cs & sigData & signature & pubKey
                       & Hcs & Hdata & Hsig & Hkey & Hver & _ & Hjson).
  exists thread, ns, wa, wb, loaded, key, rest, cs, sigData, signature, pubKey, conn.
  repeat (split; [assumption|]).
  split; [rewrite Hrec; reflexivity|].
  unfold handleInboundResponse in Hrun. rewrite Hthread in Hrun. handler_run.
  match goal with H : (_, _) = (_, _) |- _ => injection H as -> _ end.
  match goal with H : deref (Some thread) = Ok _ |- _ => injection H as <- end.
  do 3 eexists. split; [reflexivity|]. split; reflexivity.
Qed.

(** With the interop flag set [prepareResponse] also reads
    [request.Thread.PID] without a nil test: for a request without a
    thread it never returns a response, and once the response id is
    drawn, the request's attachment (if any) verified and the own
    document serialised, it panics with a nil dereference. *)
Theorem prepareResponse_interop_dereferences_Thread (request : Request.t)
    (responseDidDoc : Doc.t) (responseConnection : Connection.t) (w : World) :
  doACAPyInterop ctx = true ->
  Request.Thread request = None ->
  (forall response w',
      prepareResponse P ctx request responseDidDoc responseConnection w
      <> (Ok response, w'))
  /\ (forall id w1 w2 docBytes,
         uuid_New_String P w = (Ok id, w1) ->
         match Request.DocAttach request with
         | Some attach => AttachmentData_Verify P (Attachment.Data attach) w1 = (Ok tt, w2)
         | None => w2 = w1
         end ->
         SerializeInterop P responseDidDoc = Return docBytes ->
         prepareResponse P ctx request responseDidDoc responseConnection w
         = (Panic NilDereference, w2)).
Proof.
  intros Hon Hnil. split.
  - intros response w' Hrun. unfold prepareResponse in Hrun.
    apply mbind_Ok in Hrun. destruct Hrun as (id & w1 & _ & Hrun).
    rewrite Hon, Hnil in Hrun. unfold prepareResponseWithSignedAttachment in Hrun.
    rewrite Hnil in Hrun.
    apply mbind_Ok in Hrun. destruct Hrun as (u & w2 & _ & Hrun).
    apply mbind_Ok in Hrun. destruct Hrun as (docBytes & w3 & _ & Hrun).
    apply mbind_Ok in Hrun. destruct Hrun as (thread & w4 & Hderef & _).
    discriminate Hderef.
  - intros id w1 w2 docBytes Hid Hattach Hbytes.
    unfold prepareResponse, mbind. rewrite Hid, Hon, Hnil.
    unfold prepareResponseWithSignedAttachment, mbind, mwrap, lift, mret.
    destruct (Request.DocAttach request) as [attach|].
    + rewrite Hattach, Hon, Hbytes, Hnil. reflexivity.
    + rewrite Hattach, Hon, Hbytes, Hnil. reflexivity.
Qed.

End Failures.

(** ** Signer and verifier over the crypto service *)

Section SuiteCryptoFacts.

Import SuiteCrypto.

Context {World Handle : Type}.
Variable handle_of_PublicKey : option PublicKey.t -> Handle.

(** A signature made by a [CryptoSigner] is accepted by a
    [CryptoVerifier] over the same crypto service, whenever that service
    verifies under the public key what it signs with the signer's
    handle: the verifier hands signature, message and key to the
    service in the service's order. *)
Theorem CryptoVerifier_accepts_CryptoSigner_signature (service : Crypto World Handle)
    (handle : Handle) (publicKey : option PublicKey.t) (msg signature : list byte)
    (w w' : World) :
  (forall m s wa wb,
      Sign service m handle wa = (Ok s, wb) ->
      exists wc, Verify service s m (handle_of_PublicKey publicKey) wb = (Ok tt, wc)) ->
  CryptoSigner_Sign (NewCryptoSigner service handle) msg w = (Ok signature, w') ->
  exists w'',
    CryptoVerifier_Verify handle_of_PublicKey (NewCryptoVerifier service) publicKey
      msg signature w' = (Ok tt, w'').
Proof.
  intros Hlaw Hsign. unfold CryptoVerifier_Verify, CryptoSigner_Sign in *.
  cbn in *. eapply Hlaw. exact Hsign.
Qed.

End SuiteCryptoFacts.

(** ** The further properties at concrete inputs *)

Lemma stateFromMsgType_gives_accepting_successor_witness :
  In (ResponseMsgType Demo.P) (known_msg_types Demo.P)
  /\ accepts Demo.P responded (ResponseMsgType Demo.P) = true
  /\ exists previous, CanTransitionTo previous responded = true.
Proof.
  apply (proj1 (stateFromMsgType_gives_accepting_successor Demo.P
                  (ResponseMsgType Demo.P)) responded).
  vm_compute. reflexivity.
Defined.

Lemma transitions_have_no_cycle_witness :
  invited <> completed /\ invited <> abandoned /\ invited <> noOp.
Proof.
  apply (proj1 (proj2 (proj2 transitions_have_no_cycle)) invited requested).
  apply reaches_step. reflexivity.
Defined.

Lemma ExecuteInbound_returns_all_or_nothing_witness :
  exists r,
    ExecuteInbound Demo.P Demo.ctx invited Demo.responseMsg "thread-1" Demo.w0
    = (Ok r, Demo.w0)
    /\ ret_connRecord r = None /\ ret_state r = None /\ ret_action r = None.
Proof.
  eexists. split; [vm_compute; reflexivity|].
  eapply (proj1 (ExecuteInbound_returns_all_or_nothing Demo.P Demo.ctx invited
                   Demo.responseMsg "thread-1" Demo.w0 Demo.w0 _ ltac:(vm_compute; reflexivity))).
  reflexivity.
Defined.

Lemma ExecuteInbound_followup_is_legal_witness :
  requested = noOp
  \/ (CanTransitionTo invited requested = true
      /\ accepts Demo.P requested (stateMachineMsg.Type_ Demo2.invitationMsg) = true).
Proof.
  eapply (ExecuteInbound_followup_is_legal Demo.P Demo.ctx invited Demo2.invitationMsg
            "thread-1" Demo.w0 Demo.w0);
    [vm_compute; reflexivity | reflexivity | reflexivity].
Defined.

Lemma key_type_table_matches_conversion_witness :
  getVerMethodType ECDSAP256TypeIEEEP1363 <> ""
  /\ convertPubKeyBytes Demo.P [x04; x01] (OtherKeyType "RSA")
     = Err (errorString "invalid key type").
Proof.
  split.
  - apply (proj1 (key_type_table_matches_conversion Demo.P [x04; x01]
                    ECDSAP256TypeIEEEP1363) [x01]).
    reflexivity.
  - apply (proj2 (key_type_table_matches_conversion Demo.P [x04; x01]
                    (OtherKeyType "RSA"))).
    reflexivity.
Defined.

Lemma convertPubKeyBytes_drops_marker_byte_witness :
  (exists marker, [x04; x01; x02] = marker :: [x01; x02])
  /\ convertPubKeyBytes Demo.P [] ECDSAP384TypeIEEEP1363 = Panic SliceBoundsOutOfRange.
Proof.
  split.
  - apply (proj1 (convertPubKeyBytes_drops_marker_byte Demo.P [x04; x01; x02]
                    ECDSAP256TypeIEEEP1363 eq_refl)).
    reflexivity.
  - apply (proj1 (proj2 (convertPubKeyBytes_drops_marker_byte Demo.P []
                           ECDSAP384TypeIEEEP1363 eq_refl))).
    reflexivity.
Defined.

Lemma createNewKeyAndVerificationMethod_appends_pair_witness :
  exists doc',
    createNewKeyAndVerificationMethod Demo.P Demo.ctx Demo.inviterDoc ED25519Type Demo.w0
    = (Ok doc', Demo.w0)
    /\ Doc.ID doc' = Doc.ID Demo.inviterDoc
    /\ Doc.Service doc' = Doc.Service Demo.inviterDoc
    /\ length (Doc.VerificationMethod doc') = 1.
Proof.
  eexists. split; [vm_compute; reflexivity|].
  destruct (createNewKeyAndVerificationMethod_appends_pair Demo.P Demo.ctx
              Demo.inviterDoc ED25519Type Demo.w0 Demo.w0 _
              ltac:(vm_compute; reflexivity))
    as (kid & exported & value & _ & _ & Hvm & _ & Hid & Hsvc & _).
  split; [exact Hid|]. split; [exact Hsvc|]. rewrite Hvm. reflexivity.
Defined.

Lemma getDIDDocAndConnection_reuses_public_DID_witness :
  exists doc conn,
    getDIDDocAndConnection Demo.P Demo.ctx Demo.inviterDID ["router-1"] Demo.w0
    = (Ok (doc, conn), Demo.w0)
    /\ conn = Connection.mk (Doc.ID doc) None.
Proof.
  do 2 eexists. split; [vm_compute; reflexivity|].
  apply (getDIDDocAndConnection_reuses_public_DID Demo.P Demo.ctx Demo.inviterDID
           ["router-1"] Demo.w0 Demo.w0).
  - discriminate.
  - vm_compute. reflexivity.
Defined.

Lemma getDIDDocAndConnection_creates_peer_DID_witness :
  exists doc conn,
    getDIDDocAndConnection Demo.P Demo.ctx "" ["router-1"; "router-2"] Demo.w0
    = (Ok (doc, conn), Demo.w0)
    /\ conn = Connection.mk (Doc.ID doc) (Some doc).
Proof.
  do 2 eexists. split; [vm_compute; reflexivity|].
  apply (getDIDDocAndConnection_creates_peer_DID Demo.P Demo.ctx
           ["router-1"; "router-2"] Demo.w0 Demo.w0).
  vm_compute. reflexivity.
Defined.

Lemma resolveDidDocFromConnection_stores_embedded_document_witness :
  exists doc method created,
    resolveDidDocFromConnection Demo2.P Demo.ctx
      (Connection.mk "did:sov:XYZ" (Some Demo2.sovDoc)) Demo.w0 = (Ok doc, Demo.w0)
    /\ doc = Demo2.sovDoc
    /\ method <> "sov"
    /\ vdRegistry_Create Demo.ctx method Demo2.sovDoc [("store", true)] Demo.w0
       = (Ok created, Demo.w0).
Proof.
  destruct (proj1 (resolveDidDocFromConnection_stores_embedded_document Demo2.P Demo.ctx
                     (Connection.mk "did:sov:XYZ" (Some Demo2.sovDoc)) Demo.w0)
              Demo2.sovDoc Demo2.sovDoc Demo.w0 eq_refl ltac:(vm_compute; reflexivity))
    as (Hdoc & parsed & method & created & _ & _ & Hnot & Hcreate).
  exists Demo2.sovDoc, method, created.
  split; [vm_compute; reflexivity|]. auto.
Defined.

Lemma getServiceBlock_invitation_profiles_win_witness :
  exists svc,
    getServiceBlock Demo.P Demo.ctx Demo2.oobInvitation Demo.w0 = (Ok svc, Demo.w0)
    /\ Service.Accept svc = ["didcomm/v2"].
Proof.
  eexists. split; [vm_compute; reflexivity|].
  apply (proj1 (getServiceBlock_invitation_profiles_win Demo.P Demo.ctx
                  Demo2.oobInvitation Demo.w0) _ Demo.w0).
  - vm_compute. reflexivity.
  - discriminate.
Defined.

Lemma handleInboundInvitation_prepares_request_witness :
  exists action record w' conn,
    handleInboundInvitation Demo.P Demo.ctx Demo2.legacyInvitation "thread-1" None
      (Some Demo2.record) Demo.w0 = (Ok (action, record), w')
    /\ record = ConnRecord.set_MyDID Demo2.record (Connection.DID conn).
Proof.
  destruct (handleInboundInvitation Demo.P Demo.ctx Demo2.legacyInvitation "thread-1"
              None (Some Demo2.record) Demo.w0)
    as [[[action record]|e|p] w'] eqn:Hrun;
    [|apply (f_equal fst) in Hrun; vm_compute in Hrun; discriminate Hrun ..].
  destruct (handleInboundInvitation_prepares_request Demo.P Demo.ctx _ _ _ _ _ _ _ _ Hrun)
    as (given & didDoc & conn & key & dest & wa & wb & Hgiven & _ & _ & _ & _ & Hrec & _).
  injection Hgiven as <-.
  exists action, record, w', conn. split; [reflexivity | exact Hrec].
Defined.

Lemma handleInboundOOBInvitation_prepares_request_witness :
  exists action record w',
    handleInboundOOBInvitation Demo2.P Demo.ctx Demo2.invitationMsg "thread-9" None
      Demo.w0 = (Ok (action, record), w')
    /\ ConnRecord.ThreadID record = "thread-9"
    /\ ConnRecord.ParentThreadID record = "inv-1".
Proof.
  destruct (handleInboundOOBInvitation Demo2.P Demo.ctx Demo2.invitationMsg "thread-9"
              None Demo.w0)
    as [[[action record]|e|p] w'] eqn:Hrun;
    [|apply (f_equal fst) in Hrun; vm_compute in Hrun; discriminate Hrun ..].
  destruct (handleInboundOOBInvitation_prepares_request Demo2.P Demo.ctx _ _ _ _ _ _ _ Hrun)
    as (given & myDID & conn & oob & svc & wa & wb & key
        & Hgiven & _ & _ & _ & _ & Hrec & _).
  injection Hgiven as <-.
  exists action, record, w'. split; [reflexivity|]. rewrite Hrec. split; reflexivity.
Defined.


Lemma handleInboundRequest_updates_record_witness :
  exists action record w',
    handleInboundRequest Demo.P Demo.ctx Demo2.request
      (Some (options.mk Demo.inviterDID [] "inviter")) (Some Demo2.record) Demo.w0
    = (Ok (action, record), w')
    /\ ConnRecord.TheirLabel record = "invitee"
    /\ ConnRecord.ThreadID record = "thread-1"
    /\ ConnRecord.RecipientKeys record = ["did:key:legacy-key"].
Proof.
  destruct (handleInboundRequest Demo.P Demo.ctx Demo2.request
              (Some (options.mk Demo.inviterDID [] "inviter")) (Some Demo2.record)
              Demo.w0)
    as [[[action record]|e|p] w'] eqn:Hrun;
    [|apply (f_equal fst) in Hrun; vm_compute in Hrun; discriminate Hrun ..].
  destruct (handleInboundRequest_updates_record Demo.P Demo.ctx _ _ _ _ _ _ _ Hrun)
    as (given & rc & rd & md & mc & resp & key & dest & wa & wb & Hgiven
        & _ & _ & _ & _ & _ & _ & _ & _ & _ & Hlabel & _ & Hthread & _ & Hkeys & _).
  injection Hgiven as <-.
  exists action, record, w'. split; [reflexivity|].
  rewrite Hlabel, Hthread, Hkeys. repeat split.
Defined.

Lemma verifySignature_succeeds_only_when_verified_witness :
  exists sigData,
    URLEncoding_DecodeString Demo.P (ConnectionSignature.SignedData Demo.abcSignature)
    = Return sigData
    /\ (8 < length sigData)%nat.
Proof.
  destruct (verifySignature_succeeds_only_when_verified Demo.P (Some Demo.abcSignature)
              "did:key:legacy-key" Demo.abc ltac:(vm_compute; reflexivity))
    as (cs & sigData & signature & pubKey & Hcs & Hdata & _ & _ & _ & Hlong & _).
  injection Hcs as <-. exists sigData. split; assumption.
Defined.

Lemma prepared_Response_verifies_witness :
  exists response w' sig,
    prepareResponse Demo.P Demo.ctx Demo2.request Demo.inviterDoc
      Demo2.inviterConnection Demo.w0 = (Ok response, w')
    /\ Response.ConnectionSignature response = Some sig
    /\ verifySignature Demo.P (Response.ConnectionSignature response)
         (ConnectionSignature.SignVerKey sig) = Ok Demo2.inviterConnection.
Proof.
  destruct (prepareResponse Demo.P Demo.ctx Demo2.request Demo.inviterDoc
              Demo2.inviterConnection Demo.w0)
    as [[response|e|p] w'] eqn:Hrun;
    [|apply (f_equal fst) in Hrun; vm_compute in Hrun; discriminate Hrun ..].
  destruct (prepared_Response_verifies Demo.P Demo.ctx _ _ _ _ _ _
              DemoFacts.base64_law DemoFacts.json_law DemoFacts.crypto_law eq_refl Hrun)
    as (sig & Hsig & Hverify).
  exists response, w', sig. auto.
Defined.

Lemma getVerKey_errors_keep_cause_witness :
  (exists e',
      getVerKey Demo.P Demo.ctx "locked" Demo.w0 = (Err e', Demo.w0)
      /\ errors_Is e' (errorString "store is closed") = true)
  /\ (exists e',
         getVerKey Demo.P Demo.ctx "nowhere" Demo.w0 = (Err e', Demo.w0)
         /\ errors_Is e' ErrDataNotFound = true).
Proof.
  split.
  - destruct (proj1 (getVerKey_errors_keep_cause Demo.P Demo.ctx "locked" Demo.w0)
                (errorString "store is closed") Demo.w0
                ltac:(vm_compute; reflexivity) ltac:(vm_compute; reflexivity)
                ltac:(vm_compute; reflexivity))
      as (e' & Hrun & His & _).
    exists e'. auto.
  - assert (Hmiss : oob_lookup_misses Demo.P Demo.ctx "nowhere" Demo.w0 Demo.w0).
    { left. exists ErrDataNotFound. split; vm_compute; reflexivity. }
    destruct (proj2 (getVerKey_errors_keep_cause Demo.P Demo.ctx "nowhere" Demo.w0)
                Demo.w0 ErrDataNotFound Demo.w0 Hmiss
                ltac:(vm_compute; reflexivity) ltac:(vm_compute; reflexivity))
      as (e' & Hrun & His & _).
    exists e'. auto.
Defined.

Lemma key_lookup_panics_without_recipient_keys_witness :
  recipientKey Demo.P
    (Doc.mk "did:peer:bare" [] [Service.mk "s" didCommServiceType [] [] "http://x" []] [])
  = Panic IndexOutOfRange
  /\ getInvitationRecipientKey Demo.P Demo.ctx Invitation.zero Demo.w0
     = (Panic IndexOutOfRange, Demo.w0).
Proof.
  destruct (key_lookup_panics_without_recipient_keys Demo.P Demo.ctx)
    as (Hdoc & Hinv & _).
  split.
  - eapply Hdoc; vm_compute; reflexivity.
  - apply Hinv; reflexivity.
Defined.

Lemma handleInboundResponse_panics_on_missing_parts_witness :
  handleInboundResponse Demo2.P Demo2.ctx
    (Response.mk "" "response-2" None (Some Demo2.inviterSignature) "" None) Demo.w0
  = (Panic NilDereference, Demo.w0)
  /\ handleInboundResponse Demo2.P Demo2.ctx
       (Response.mk "" "response-3" (Some (Thread.mk "thread-1" "")) None "" None)
       Demo.w0
     = (Panic NilDereference, Demo.w0).
Proof.
  split.
  - eapply (proj1 (handleInboundResponse_panics_on_missing_parts Demo2.P Demo2.ctx
                     _ Demo.w0)); [reflexivity | vm_compute; reflexivity].
  - destruct (proj2 (handleInboundResponse_panics_on_missing_parts Demo2.P Demo2.ctx
                       (Response.mk "" "response-3" (Some (Thread.mk "thread-1" ""))
                          None "" None) Demo.w0)
                (Thread.mk "thread-1" "") "00000000-0000-4000-8000-000000000000"
                Demo.w0 "my_thread-1" Demo2.record Demo.w0
                eq_refl ltac:(vm_compute; reflexivity) ltac:(vm_compute; reflexivity)
                ltac:(vm_compute; reflexivity))
      as [_ Hnosig].
    apply Hnosig; [discriminate | reflexivity].
Defined.

Lemma handlers_panic_on_nil_record_witness :
  exists w',
    handleInboundInvitation Demo.P Demo.ctx Demo2.legacyInvitation "thread-1" None None
      Demo.w0 = (Panic NilDereference, w').
Proof.
  destruct (handlers_panic_on_nil_record Demo.P Demo.ctx) as (_ & Hinvitation & _).
  eexists. eapply Hinvitation; vm_compute; reflexivity.
Defined.

Lemma CryptoVerifier_accepts_CryptoSigner_signature_witness :
  exists w'',
    SuiteCrypto.CryptoVerifier_Verify Demo2.handleOf
      (SuiteCrypto.NewCryptoVerifier Demo2.crypto)
      (Some (PublicKey.mk "ED25519" (list_byte_of_string "k")))
      (list_byte_of_string "hello")
      (Demo.sign (list_byte_of_string "hello") (list_byte_of_string "k")) Demo.w0
    = (Ok tt, w'').
Proof.
  apply (CryptoVerifier_accepts_CryptoSigner_signature Demo2.handleOf Demo2.crypto
           (list_byte_of_string "k")
           (Some (PublicKey.mk "ED25519" (list_byte_of_string "k")))
           (list_byte_of_string "hello")
           (Demo.sign (list_byte_of_string "hello") (list_byte_of_string "k"))
           Demo.w0 Demo.w0).
  - intros m s wa wb Hsign. cbn in Hsign. injection Hsign as <- <-.
    exists wa. cbn. unfold Demo.sign. rewrite DemoFacts.bytes_eqb_refl. reflexivity.
  - vm_compute. reflexivity.
Defined.

Lemma ExecuteInbound_action_of_other_states_witness :
  exists r,
    ExecuteInbound Demo.P Demo.ctx invited Demo2.invitationMsg "thread-1" Demo.w0
    = (Ok r, Demo.w0)
    /\ noop_or_sends_once Demo.ctx (ret_action r).
Proof.
  eexists. split; [vm_compute; reflexivity|].
  eapply (ExecuteInbound_action_of_other_states Demo.P Demo.ctx invited
            Demo2.invitationMsg "thread-1" Demo.w0);
    [discriminate | vm_compute; reflexivity | reflexivity].
Defined.

Lemma handleInboundResponse_acknowledges_only_verified_witness :
  exists action record w' key rest,
    handleInboundResponse Demo2.P Demo2.ctx Demo2.response Demo.w0
    = (Ok (action, record), w')
    /\ ConnRecord.RecipientKeys Demo2.record = key :: rest
    /\ exists conn, ConnRecord.TheirDID record = Connection.DID conn.
Proof.
  destruct (handleInboundResponse Demo2.P Demo2.ctx Demo2.response Demo.w0)
    as [[[action record]|e|p] w'] eqn:Hrun;
    [|apply (f_equal fst) in Hrun; vm_compute in Hrun; discriminate Hrun ..].
  destruct (handleInboundResponse_acknowledges_only_verified Demo2.P Demo2.ctx
              _ _ _ _ _ Hrun)
    as (thread & ns & wa & wb & loaded & key & rest & cs & sigData & signature
        & pubKey & conn & _ & _ & _ & _ & _ & _ & _ & _ & _ & _ & Hdid & _).
  exists action, record, w', "did:key:legacy-key", []. split; [reflexivity|].
  split; [reflexivity|]. exists conn. exact Hdid.
Defined.

Lemma prepareResponse_interop_dereferences_Thread_witness :
  prepareResponse Demo2.P Demo2.ctxInterop Demo.requestWithoutThread Demo2.sovDoc
    Demo2.inviterConnection Demo.w0 = (Panic NilDereference, Demo.w0).
Proof.
  eapply (proj2 (prepareResponse_interop_dereferences_Thread Demo2.P Demo2.ctxInterop
                   Demo.requestWithoutThread Demo2.sovDoc Demo2.inviterConnection
                   Demo.w0 eq_refl eq_refl) _ Demo.w0 Demo.w0);
    [vm_compute; reflexivity | reflexivity | vm_compute; reflexivity].
Defined.
